(** * Settings RPC: the activity-settings reconciliation handlers

    A shallow embedding of the C sources of the settings RPC module:
    - [src/studio/settings_rpc_handler.c]          (streamed get-all, module [Streamed]);
    - the bounded, synchronous revision of the same handler, with its
      [settings_collection] array                  (module [Bounded]);
    - the first revision of the handler            (module [Initial]);
    - [src/events/activity_settings_changed.c] and the request listener
      of [src/events/activity_settings_report.c]   (shared, top level).

    Integers are [Z]; the only arithmetic of the sources is the [++] on
    the two [uint8_t] fields of [settings_collection], whose wrap-around
    is written out, and the [++] on [all_settings_count], which is the
    length of a list here.  Everything a handler does to the outside is
    appended, in program order, to the [effects] of the node. *)

From Stdlib Require Import ZArith List Bool Lia String.
From Stdlib Require Import Init.Byte.
From stdpp Require Import base option list.

Local Open Scope Z_scope.

(* ===================================================================== *)
(** ** Build configuration *)
(* ===================================================================== *)

(** The three Kconfig symbols the sources test with [IS_ENABLED]. *)
Record Kconfig := {
  CONFIG_ZMK_SPLIT : bool;
  CONFIG_ZMK_SPLIT_ROLE_CENTRAL : bool;
  CONFIG_ZMK_SPLIT_RELAY_EVENT : bool
}.

(** [IS_ENABLED(CONFIG_ZMK_SPLIT) && IS_ENABLED(CONFIG_ZMK_SPLIT_ROLE_CENTRAL)] *)
Definition is_central (cfg : Kconfig) : bool :=
  CONFIG_ZMK_SPLIT cfg && CONFIG_ZMK_SPLIT_ROLE_CENTRAL cfg.

(** [IS_ENABLED(CONFIG_ZMK_SPLIT)] and, nested,
    [!IS_ENABLED(CONFIG_ZMK_SPLIT_ROLE_CENTRAL)] *)
Definition is_peripheral (cfg : Kconfig) : bool :=
  CONFIG_ZMK_SPLIT cfg && negb (CONFIG_ZMK_SPLIT_ROLE_CENTRAL cfg).

(* ===================================================================== *)
(** ** Events *)
(* ===================================================================== *)

(** [struct zmk_activity_settings_changed] *)
Record zmk_activity_settings_changed := {
  chg_idle_ms : Z;
  chg_sleep_ms : Z;
  chg_source : Z   (* uint8_t: 0xFF for self, 0 for central, 1+ for peripherals *)
}.

(** [struct zmk_activity_settings_request] *)
Record zmk_activity_settings_request := {
  req_request_id : Z
}.

(** [struct zmk_activity_settings_report] *)
Record zmk_activity_settings_report := {
  rep_idle_ms : Z;
  rep_sleep_ms : Z;
  rep_source : Z;
  rep_request_id : Z
}.

(** The marker is a macro of the relay layer; its value is the one the
    comment on [zmk_activity_settings_changed.source] gives. *)
Definition ZMK_RELAY_EVENT_SOURCE_SELF : Z := 255.

Definition ZMK_EV_EVENT_BUBBLE : Z := 0.

(** [zmk_event_t]: what a listener is handed.  The three event types of
    this module; [as_zmk_...] is the checked down-cast the event manager
    generates for each. *)
Inductive zmk_event :=
| Ev_changed (ev : zmk_activity_settings_changed)
| Ev_request (ev : zmk_activity_settings_request)
| Ev_report (ev : zmk_activity_settings_report).

Definition as_zmk_activity_settings_changed (eh : zmk_event)
  : option zmk_activity_settings_changed :=
  match eh with Ev_changed ev => Some ev | _ => None end.

Definition as_zmk_activity_settings_request (eh : zmk_event)
  : option zmk_activity_settings_request :=
  match eh with Ev_request ev => Some ev | _ => None end.

Definition as_zmk_activity_settings_report (eh : zmk_event)
  : option zmk_activity_settings_report :=
  match eh with Ev_report ev => Some ev | _ => None end.

(* ===================================================================== *)
(** ** Messages of the RPC protocol *)
(* ===================================================================== *)

(** [zmk_settings_ActivitySettings] *)
Record ActivitySettings := {
  idle_ms : Z;
  sleep_ms : Z;
  source : Z
}.

(** [zmk_settings_Request]: the [oneof] with its three members; the last
    constructor is a decoded request whose [which_request_type] is none of
    the three tags (the [default:] of the dispatch). *)
Inductive zmk_settings_Request :=
| Request_get_activity_settings
| Request_set_activity_settings (settings : ActivitySettings)
| Request_get_all_activity_settings
| Request_other (which_request_type : Z).

(** [zmk_settings_Response], over the payload [G] of the get-all member,
    which differs between the revisions. *)
Inductive zmk_settings_Response (G : Type) :=
| Response_error (message : string)
| Response_get_activity_settings (settings : ActivitySettings)
| Response_set_activity_settings (success : bool)
| Response_get_all_activity_settings (result : G).

Arguments Response_error {G} message.
Arguments Response_get_activity_settings {G} settings.
Arguments Response_set_activity_settings {G} success.
Arguments Response_get_all_activity_settings {G} result.

(** [zmk_custom_CallRequest] *)
Record zmk_custom_CallRequest := {
  call_subsystem_index : Z;
  call_payload : list byte
}.

(** nanopb's [pb_decode] against [zmk_settings_Request_fields]: a collaborator
    of the handler, taken as an interface. [None] is a failed decode. *)
Class Nanopb := {
  pb_decode : list byte -> option zmk_settings_Request
}.

(* ===================================================================== *)
(** ** The node: settings store and observable effects *)
(* ===================================================================== *)

(** Everything the handlers do to the outside, in program order. *)
Inductive effect :=
| Set_idle (v : Z) (accepted : bool)      (* zmk_activity_set_idle_ms(v) and what it returned *)
| Set_sleep (v : Z) (accepted : bool)     (* zmk_activity_set_sleep_ms(v) and what it returned *)
| Raised (eh : zmk_event)                 (* raise_zmk_...(ev): handed to the event manager *)
| Notified (index : Z) (s : ActivitySettings) (* raise_zmk_studio_custom_notification *)
| Warned (s : ActivitySettings)           (* LOG_WRN("Settings mismatch detected: ...") *)
| Slept (ms : Z).                         (* k_sleep(K_MSEC(ms)) *)

(** The two timeouts the activity subsystem holds. *)
Record activity := {
  act_idle_ms : Z;
  act_sleep_ms : Z
}.

Record world := {
  store : activity;
  effects : list effect
}.

Definition emit (e : effect) (w : world) : world :=
  {| store := store w; effects := effects w ++ [e] |}.

(** Modelled from the spec: the setters and getters of [<zmk/activity.h>]
    are not part of this module.  Section 4.1: a set "fails only if a
    bound (e.g. value out of accepted range) is violated; success is
    otherwise unconditional and immediately visible to subsequent get".
    Each setter has its own bound; a rejected value leaves the store as
    it was. *)
Class ActivityBounds := {
  idle_ms_accepted : Z -> bool;
  sleep_ms_accepted : Z -> bool
}.

(** Modelled from the spec: [zmk_activity_get_idle_ms], the stored idle
    timeout. *)
Definition zmk_activity_get_idle_ms (w : world) : Z := act_idle_ms (store w).

(** Modelled from the spec: [zmk_activity_get_sleep_ms], the stored sleep
    timeout. *)
Definition zmk_activity_get_sleep_ms (w : world) : Z := act_sleep_ms (store w).

(** Modelled from the spec: [zmk_activity_set_idle_ms] returns whether the
    value was taken, and stores it when it was. *)
Definition zmk_activity_set_idle_ms `{ActivityBounds} (v : Z) (w : world)
  : bool * world :=
  let ok := idle_ms_accepted v in
  (ok, {| store := if ok
                   then {| act_idle_ms := v; act_sleep_ms := act_sleep_ms (store w) |}
                   else store w;
          effects := effects w ++ [Set_idle v ok] |}).

(** Modelled from the spec: [zmk_activity_set_sleep_ms], likewise. *)
Definition zmk_activity_set_sleep_ms `{ActivityBounds} (v : Z) (w : world)
  : bool * world :=
  let ok := sleep_ms_accepted v in
  (ok, {| store := if ok
                   then {| act_idle_ms := act_idle_ms (store w); act_sleep_ms := v |}
                   else store w;
          effects := effects w ++ [Set_sleep v ok] |}).

(** The events a world has raised so far, oldest first. *)
Definition raised_events (w : world) : list zmk_event :=
  omap (fun e => match e with Raised eh => Some eh | _ => None end) (effects w).

(** The store calls a world has made so far, oldest first. *)
Definition store_calls (w : world) : list effect :=
  omap (fun e => match e with Set_idle _ _ | Set_sleep _ _ => Some e | _ => None end)
       (effects w).

(* ===================================================================== *)
(** ** Code shared by all revisions *)
(* ===================================================================== *)

(** [activity_settings_changed_listener]
    (events/activity_settings_changed.c, and verbatim in every revision of
    the handler).  The return values of the two setters are dropped. *)
Definition activity_settings_changed_listener `{ActivityBounds}
  (eh : zmk_event) (w : world) : Z * world :=
  match as_zmk_activity_settings_changed eh with
  | None => (ZMK_EV_EVENT_BUBBLE, w)
  | Some ev =>
    if negb (chg_source ev =? ZMK_RELAY_EVENT_SOURCE_SELF) then
      let w := (zmk_activity_set_idle_ms (chg_idle_ms ev) w).2 in
      let w := (zmk_activity_set_sleep_ms (chg_sleep_ms ev) w).2 in
      (ZMK_EV_EVENT_BUBBLE, w)
    else (ZMK_EV_EVENT_BUBBLE, w)
  end.

(** Modelled from the spec: [raise_zmk_activity_settings_changed] goes
    through ZMK's event manager, which is not part of this module.
    Section 4.2: delivery is synchronous, handlers run to completion before
    the publish returns.  The event is recorded for the relay, then handed
    to the one subscriber this module registers for it, when that
    subscription is compiled in. *)
Definition raise_zmk_activity_settings_changed `{ActivityBounds}
  (subscribed : bool) (ev : zmk_activity_settings_changed) (w : world) : world :=
  let w := emit (Raised (Ev_changed ev)) w in
  if subscribed then (activity_settings_changed_listener (Ev_changed ev) w).2 else w.

(** [raise_zmk_activity_settings_request]: raised only on the central, where
    the request listener is compiled out, so no subscriber of this module
    sees it there; it is recorded for the relay. *)
Definition raise_zmk_activity_settings_request
  (ev : zmk_activity_settings_request) (w : world) : world :=
  emit (Raised (Ev_request ev)) w.

(** [raise_zmk_activity_settings_report]: raised only where the request
    listener is compiled in, which is where the report listener is compiled
    out; it is recorded for the relay. *)
Definition raise_zmk_activity_settings_report
  (ev : zmk_activity_settings_report) (w : world) : world :=
  emit (Raised (Ev_report ev)) w.

(** [activity_settings_request_listener] (events/activity_settings_report.c,
    and verbatim in both get-all revisions of the handler). *)
Definition activity_settings_request_listener (eh : zmk_event) (w : world)
  : Z * world :=
  match as_zmk_activity_settings_request eh with
  | None => (ZMK_EV_EVENT_BUBBLE, w)
  | Some ev =>
    let report := {| rep_idle_ms := zmk_activity_get_idle_ms w;
                     rep_sleep_ms := zmk_activity_get_sleep_ms w;
                     rep_source := ZMK_RELAY_EVENT_SOURCE_SELF;
                     rep_request_id := req_request_id ev |} in
    (ZMK_EV_EVENT_BUBBLE, raise_zmk_activity_settings_report report w)
  end.

(** [handle_get_activity_settings]: the same in every revision.
    [result] starts as [..._init_zero], so [source] stays 0. *)
Definition handle_get_activity_settings {G} (w : world)
  : (Z * zmk_settings_Response G) * world :=
  let result := {| idle_ms := zmk_activity_get_idle_ms w;
                   sleep_ms := zmk_activity_get_sleep_ms w;
                   source := 0 |} in
  ((0, Response_get_activity_settings result), w).

(** [handle_set_activity_settings] of settings_rpc_handler.c and of the
    bounded revision (the two texts are equal). *)
Definition handle_set_activity_settings {G} `{ActivityBounds}
  (cfg : Kconfig) (req : ActivitySettings) (w : world)
  : (Z * zmk_settings_Response G) * world :=
  let success := true in
  let '(ok, w) := zmk_activity_set_idle_ms (idle_ms req) w in
  let success := if negb ok then false else success in
  let '(ok, w) := zmk_activity_set_sleep_ms (sleep_ms req) w in
  let success := if negb ok then false else success in
  let w :=
    if success then
      if CONFIG_ZMK_SPLIT_RELAY_EVENT cfg then
        let event := {| chg_idle_ms := idle_ms req;
                        chg_sleep_ms := sleep_ms req;
                        chg_source := ZMK_RELAY_EVENT_SOURCE_SELF |} in
        (* the listener is registered under the same #if *)
        raise_zmk_activity_settings_changed true event w
      else w
    else w in
  ((if success then 0 else -1, Response_set_activity_settings success), w).

(** The store took the whole value: both setters returned true. *)
Definition store_accepts `{ActivityBounds} (v : ActivitySettings) : bool :=
  idle_ms_accepted (idle_ms v) && sleep_ms_accepted (sleep_ms v).

(** The change event [handle_set_activity_settings] builds for a value. *)
Definition change_event_of (v : ActivitySettings) : zmk_event :=
  Ev_changed {| chg_idle_ms := idle_ms v;
                chg_sleep_ms := sleep_ms v;
                chg_source := ZMK_RELAY_EVENT_SOURCE_SELF |}.

(* ===================================================================== *)
(** ** First revision of the handler: set and get only *)
(* ===================================================================== *)

Module Initial.

(** [handle_set_activity_settings] of the first revision: the event is
    raised outside any [#if]; the apply listener is still registered only
    under [CONFIG_ZMK_SPLIT_RELAY_EVENT]. *)
Definition handle_set_activity_settings {G} `{ActivityBounds}
  (cfg : Kconfig) (req : ActivitySettings) (w : world)
  : (Z * zmk_settings_Response G) * world :=
  let success := true in
  let '(ok, w) := zmk_activity_set_idle_ms (idle_ms req) w in
  let success := if negb ok then false else success in
  let '(ok, w) := zmk_activity_set_sleep_ms (sleep_ms req) w in
  let success := if negb ok then false else success in
  let w :=
    if success then
      let event := {| chg_idle_ms := idle_ms req;
                      chg_sleep_ms := sleep_ms req;
                      chg_source := ZMK_RELAY_EVENT_SOURCE_SELF |} in
      raise_zmk_activity_settings_changed (CONFIG_ZMK_SPLIT_RELAY_EVENT cfg) event w
    else w in
  ((if success then 0 else -1, Response_set_activity_settings success), w).

End Initial.

(* ===================================================================== *)
(** ** Arrays *)
(* ===================================================================== *)

(** A C array is a list of its declared length.  An access outside it is
    undefined behaviour in C: here it is [None], and the functions that
    index an array run in [option]. *)
Definition array_get {A} (a : list A) (i : Z) : option A :=
  if 0 <=? i then a !! Z.to_nat i else None.

Definition array_set {A} (a : list A) (i : Z) (x : A) : option (list A) :=
  if (0 <=? i) && (i <? Z.of_nat (length a))
  then Some (<[Z.to_nat i := x]> a)
  else None.

(** [x++] on a [uint8_t]. *)
Definition u8_incr (x : Z) : Z := (x + 1) mod 256.

(* ===================================================================== *)
(** ** Bounded, synchronous revision *)
(* ===================================================================== *)

Module Bounded.

Definition MAX_PERIPHERALS : Z := 8.

(** The static [settings_collection] (its semaphore is never used). *)
Record settings_collection_t := {
  settings : list ActivitySettings;   (* [MAX_PERIPHERALS + 1] *)
  count : Z;                          (* uint8_t *)
  request_id : Z                      (* uint8_t *)
}.

Record state := {
  node : world;
  settings_collection : settings_collection_t
}.

Definition with_node (f : world -> world) (st : state) : state :=
  {| node := f (node st); settings_collection := settings_collection st |}.

(** [zmk_settings_GetAllActivitySettingsResponse]; [all_settings_count] is
    the length of [all_settings].  The capacity of the array is declared in
    the generated [core.pb.h]; the handler never makes it longer than
    [MAX_PERIPHERALS + 1]. *)
Record GetAllActivitySettingsResponse := {
  all_settings : list ActivitySettings;
  in_sync : bool
}.

Definition Response := zmk_settings_Response GetAllActivitySettingsResponse.

(** Static initialisation: array zeroed, [.count = 0], [.request_id = 0]. *)
Definition settings_collection_init : settings_collection_t :=
  {| settings := replicate 9 {| idle_ms := 0; sleep_ms := 0; source := 0 |};
     count := 0;
     request_id := 0 |}.

(** [activity_settings_report_listener] of the bounded revision. *)
Definition activity_settings_report_listener (eh : zmk_event) (st : state)
  : option (Z * state) :=
  match as_zmk_activity_settings_report eh with
  | None => Some (ZMK_EV_EVENT_BUBBLE, st)
  | Some ev =>
    let c := settings_collection st in
    if negb (rep_request_id ev =? request_id c) then
      Some (ZMK_EV_EVENT_BUBBLE, st)
    else if count c <? MAX_PERIPHERALS then
      settings' ← array_set (settings c) (count c)
                    {| idle_ms := rep_idle_ms ev;
                       sleep_ms := rep_sleep_ms ev;
                       source := rep_source ev |};
      Some (ZMK_EV_EVENT_BUBBLE,
            {| node := node st;
               settings_collection :=
                 {| settings := settings';
                    count := u8_incr (count c);
                    request_id := request_id c |} |})
    else Some (ZMK_EV_EVENT_BUBBLE, st)
  end.

(** Modelled from the spec: the event manager hands an event that reaches
    this node to the listeners the file subscribes, in the order of their
    [ZMK_SUBSCRIPTION]s and each under its own [#if]; every listener
    bubbles, so all of them run (section 4.2).  A listener handed an event
    of another type returns at its [if (!ev)]. *)
Definition deliver `{ActivityBounds} (cfg : Kconfig) (eh : zmk_event) (st : state)
  : option state :=
  let st := if CONFIG_ZMK_SPLIT_RELAY_EVENT cfg
            then with_node (fun w => (activity_settings_changed_listener eh w).2) st
            else st in
  st ← (if is_central cfg
        then snd <$> activity_settings_report_listener eh st
        else Some st);
  Some (if is_peripheral cfg
        then with_node (fun w => (activity_settings_request_listener eh w).2) st
        else st).

Fixpoint deliver_all `{ActivityBounds} (cfg : Kconfig) (arrivals : list zmk_event)
  (st : state) : option state :=
  match arrivals with
  | [] => Some st
  | eh :: rest => st ← deliver cfg eh st; deliver_all cfg rest st
  end.

(** Modelled from the spec: [k_sleep] suspends the calling thread only;
    "bus delivery of incoming reports must still run during this wait"
    (section 5).  [arrivals] are the events that reach the node during the
    window, in order. *)
Definition k_sleep `{ActivityBounds} (cfg : Kconfig) (ms : Z)
  (arrivals : list zmk_event) (st : state) : option state :=
  deliver_all cfg arrivals (with_node (emit (Slept ms)) st).

(** Lines 217-231 of [handle_get_all_activity_settings]: reset the
    collection, put the central's own settings first, raise the request.
    Returns [result.all_settings] as it stands before the wait. *)
Definition get_all_begin (st : state) : list ActivitySettings * state :=
  let c := settings_collection st in
  let c := {| settings := settings c; count := 0; request_id := request_id c |} in
  let c := {| settings := settings c; count := count c;
              request_id := u8_incr (request_id c) |} in
  let all := [ {| idle_ms := zmk_activity_get_idle_ms (node st);
                  sleep_ms := zmk_activity_get_sleep_ms (node st);
                  source := 0 |} ] in
  let request_event := {| req_request_id := request_id c |} in
  let w := raise_zmk_activity_settings_request request_event (node st) in
  (all, {| node := w; settings_collection := c |}).

(** The copy loop:
    [for (int i = 0; i < settings_collection.count && i < MAX_PERIPHERALS; i++)
         result.all_settings[result.all_settings_count++] = settings_collection.settings[i];] *)
Fixpoint copy_collected (fuel : nat) (c : settings_collection_t) (i : Z)
  (all : list ActivitySettings) : option (list ActivitySettings) :=
  if (i <? count c) && (i <? MAX_PERIPHERALS) then
    match fuel with
    | O => None
    | S fuel =>
      e ← array_get (settings c) i;
      copy_collected fuel c (i + 1) (all ++ [e])
    end
  else Some all.

(** The comparison loop, from index [i]; [in_sync] is [true] on entry, the
    loop clears it, warns and breaks at the first mismatch. *)
Fixpoint in_sync_loop (fuel : nat) (all : list ActivitySettings)
  (ref_idle ref_sleep : Z) (i : Z) (w : world) : option (bool * world) :=
  if i <? Z.of_nat (length all) then
    match fuel with
    | O => None
    | S fuel =>
      e ← array_get all i;
      if negb (idle_ms e =? ref_idle) || negb (sleep_ms e =? ref_sleep)
      then Some (false, emit (Warned e) w)
      else in_sync_loop fuel all ref_idle ref_sleep (i + 1) w
    end
  else Some (true, w).

(** Lines 244-260: the in-sync verdict over [result.all_settings]. *)
Definition check_in_sync (all : list ActivitySettings) (w : world)
  : option (bool * world) :=
  if 1 <? Z.of_nat (length all) then
    ref ← array_get all 0;
    in_sync_loop (length all) all (idle_ms ref) (sleep_ms ref) 1 w
  else Some (true, w).

(** [handle_get_all_activity_settings] of the bounded revision. *)
Definition handle_get_all_activity_settings `{ActivityBounds}
  (cfg : Kconfig) (arrivals : list zmk_event) (st : state)
  : option ((Z * Response) * state) :=
  if is_central cfg then
    let '(all, st) := get_all_begin st in
    st ← k_sleep cfg 100 arrivals st;
    all ← copy_collected (Z.to_nat MAX_PERIPHERALS) (settings_collection st) 0 all;
    '(sync, w) ← check_in_sync all (node st);
    let result := {| all_settings := all; in_sync := sync |} in
    Some ((0, Response_get_all_activity_settings result),
          {| node := w; settings_collection := settings_collection st |})
  else
    let result :=
      {| all_settings := [ {| idle_ms := zmk_activity_get_idle_ms (node st);
                              sleep_ms := zmk_activity_get_sleep_ms (node st);
                              source := 0 |} ];
         in_sync := true |} in
    Some ((0, Response_get_all_activity_settings result), st).

(** [settings_rpc_handle_request] of the bounded revision.  [resp] is the
    response buffer as [..._RESPONSE_BUFFER_ALLOCATE] hands it out; the
    handlers overwrite it, the [default:] leaves it. *)
Definition settings_rpc_handle_request `{Nanopb} `{ActivityBounds}
  (cfg : Kconfig) (arrivals : list zmk_event)
  (raw_request : zmk_custom_CallRequest) (resp : Response) (st : state)
  : option ((bool * Response) * state) :=
  match pb_decode (call_payload raw_request) with
  | None => Some ((true, Response_error "Failed to decode request"), st)
  | Some req =>
    '((rc, resp), st) ←
      match req with
      | Request_get_activity_settings =>
        let '(r, w) := handle_get_activity_settings (node st) in
        Some (r, with_node (fun _ => w) st)
      | Request_set_activity_settings s =>
        let '(r, w) := handle_set_activity_settings cfg s (node st) in
        Some (r, with_node (fun _ => w) st)
      | Request_get_all_activity_settings =>
        handle_get_all_activity_settings cfg arrivals st
      | Request_other _ => Some ((-1, resp), st)
      end;
    let resp := if negb (rc =? 0)
                then Response_error "Failed to process request"
                else resp in
    Some ((true, resp), st)
  end.

End Bounded.

(* ===================================================================== *)
(** ** Streamed revision: src/studio/settings_rpc_handler.c *)
(* ===================================================================== *)

Module Streamed.

(** The node and [static uint8_t subsystem_index]. *)
Record state := {
  node : world;
  subsystem_index : Z
}.

Definition with_node (f : world -> world) (st : state) : state :=
  {| node := f (node st); subsystem_index := subsystem_index st |}.

(** [zmk_settings_GetAllActivitySettingsResponse] of this revision. *)
Record GetAllActivitySettingsResponse := {
  request_sent : bool
}.

Definition Response := zmk_settings_Response GetAllActivitySettingsResponse.

(** [send_activity_settings_notification] *)
Definition send_activity_settings_notification (idle sleep src : Z) (st : state)
  : state :=
  let notification := {| idle_ms := idle; sleep_ms := sleep; source := src |} in
  with_node (emit (Notified (subsystem_index st) notification)) st.

(** [handle_get_all_activity_settings] *)
Definition handle_get_all_activity_settings (cfg : Kconfig) (st : state)
  : (Z * Response) * state :=
  let st := send_activity_settings_notification
              (zmk_activity_get_idle_ms (node st))
              (zmk_activity_get_sleep_ms (node st))
              0 st in
  let st :=
    if is_central cfg then
      let request_event := {| req_request_id := 0 |} in
      with_node (raise_zmk_activity_settings_request request_event) st
    else st in
  let result := {| request_sent := true |} in
  ((0, Response_get_all_activity_settings result), st).

(** [activity_settings_report_listener] *)
Definition activity_settings_report_listener (eh : zmk_event) (st : state)
  : Z * state :=
  match as_zmk_activity_settings_report eh with
  | None => (ZMK_EV_EVENT_BUBBLE, st)
  | Some ev =>
    (ZMK_EV_EVENT_BUBBLE,
     send_activity_settings_notification
       (rep_idle_ms ev) (rep_sleep_ms ev) (rep_source ev) st)
  end.

(** Modelled from the spec: delivery by the event manager to the listeners
    this file subscribes, as in [Bounded.deliver]. *)
Definition deliver `{ActivityBounds} (cfg : Kconfig) (eh : zmk_event) (st : state)
  : state :=
  let st := if CONFIG_ZMK_SPLIT_RELAY_EVENT cfg
            then with_node (fun w => (activity_settings_changed_listener eh w).2) st
            else st in
  let st := if is_central cfg
            then (activity_settings_report_listener eh st).2
            else st in
  if is_peripheral cfg
  then with_node (fun w => (activity_settings_request_listener eh w).2) st
  else st.

(** [settings_rpc_handle_request]; [resp] is the response buffer as
    allocated.  [subsystem_index = raw_request->subsystem_index;] stores
    into a [uint8_t]: the assignment keeps the low eight bits. *)
Definition settings_rpc_handle_request `{Nanopb} `{ActivityBounds}
  (cfg : Kconfig) (raw_request : zmk_custom_CallRequest) (resp : Response)
  (st : state) : (bool * Response) * state :=
  let st := {| node := node st;
               subsystem_index := call_subsystem_index raw_request mod 256 |} in
  match pb_decode (call_payload raw_request) with
  | None => ((true, Response_error "Failed to decode request"), st)
  | Some req =>
    let '((rc, resp), st) :=
      match req with
      | Request_get_activity_settings =>
        let '(r, w) := handle_get_activity_settings (node st) in
        (r, with_node (fun _ => w) st)
      | Request_set_activity_settings s =>
        let '(r, w) := handle_set_activity_settings cfg s (node st) in
        (r, with_node (fun _ => w) st)
      | Request_get_all_activity_settings =>
        handle_get_all_activity_settings cfg st
      | Request_other _ => ((-1, resp), st)
      end in
    let resp := if negb (rc =? 0)
                then Response_error "Failed to process request"
                else resp in
    ((true, resp), st)
  end.

End Streamed.

(* ===================================================================== *)
(** ** Sample instances, used to run the model on concrete inputs *)
(* ===================================================================== *)

(** A store that takes timeouts of at most one day. *)
Definition day_bounds : ActivityBounds :=
  {| idle_ms_accepted := fun v => v <=? 86400000;
     sleep_ms_accepted := fun v => v <=? 86400000 |}.

(** A decoder stand-in: the empty payload is the all-defaults message, with
    no member of the [oneof] set; any other payload is malformed. *)
Definition empty_only_decoder : Nanopb :=
  {| pb_decode := fun payload =>
       match payload with
       | [] => Some (Request_other 0)
       | _ => None
       end |}.

Definition central_cfg : Kconfig :=
  {| CONFIG_ZMK_SPLIT := true;
     CONFIG_ZMK_SPLIT_ROLE_CENTRAL := true;
     CONFIG_ZMK_SPLIT_RELAY_EVENT := true |}.

Definition peripheral_cfg : Kconfig :=
  {| CONFIG_ZMK_SPLIT := true;
     CONFIG_ZMK_SPLIT_ROLE_CENTRAL := false;
     CONFIG_ZMK_SPLIT_RELAY_EVENT := true |}.

Definition no_relay_cfg : Kconfig :=
  {| CONFIG_ZMK_SPLIT := false;
     CONFIG_ZMK_SPLIT_ROLE_CENTRAL := false;
     CONFIG_ZMK_SPLIT_RELAY_EVENT := false |}.

(** A node holding the defaults (30 s idle, 15 min sleep), nothing done yet. *)
Definition world0 : world :=
  {| store := {| act_idle_ms := 30000; act_sleep_ms := 900000 |};
     effects := [] |}.

Definition bounded0 : Bounded.state :=
  {| Bounded.node := world0;
     Bounded.settings_collection := Bounded.settings_collection_init |}.

Definition streamed0 : Streamed.state :=
  {| Streamed.node := world0; Streamed.subsystem_index := 0 |}.

(* ===================================================================== *)
(** ** Vocabulary of the statements *)
(* ===================================================================== *)

Import Bounded.

(** The caller's own entry: its current timeouts, attributed to source 0. *)
Definition own_settings (w : world) : ActivitySettings :=
  {| idle_ms := zmk_activity_get_idle_ms w;
     sleep_ms := zmk_activity_get_sleep_ms w;
     source := 0 |}.

(** The entry a report listener makes of a report. *)
Definition entry_of (ev : zmk_activity_settings_report) : ActivitySettings :=
  {| idle_ms := rep_idle_ms ev; sleep_ms := rep_sleep_ms ev; source := rep_source ev |}.

(** The report the request listener raises for a request. *)
Definition report_for (ev : zmk_activity_settings_request) (w : world)
  : zmk_activity_settings_report :=
  {| rep_idle_ms := act_idle_ms (store w);
     rep_sleep_ms := act_sleep_ms (store w);
     rep_source := ZMK_RELAY_EVENT_SOURCE_SELF;
     rep_request_id := req_request_id ev |}.

(** Two entries carry the same two timeouts ([source] is not compared). *)
Definition same_timeouts (ref e : ActivitySettings) : Prop :=
  idle_ms e = idle_ms ref /\ sleep_ms e = sleep_ms ref.

(** The store after the two setter calls of a value [v]. *)
Definition store_after_set `{ActivityBounds} (v : ActivitySettings) (s : activity)
  : activity :=
  {| act_idle_ms := if idle_ms_accepted (idle_ms v) then idle_ms v else act_idle_ms s;
     act_sleep_ms := if sleep_ms_accepted (sleep_ms v) then sleep_ms v else act_sleep_ms s |}.

(** The two setter calls of a value [v], with their results. *)
Definition set_calls `{ActivityBounds} (v : ActivitySettings) : list effect :=
  [Set_idle (idle_ms v) (idle_ms_accepted (idle_ms v));
   Set_sleep (sleep_ms v) (sleep_ms_accepted (sleep_ms v))].

(** The shape of [settings_collection] the code relies on: the array has
    its declared length and [count] never passes [MAX_PERIPHERALS]. *)
Definition collection_ok (c : settings_collection_t) : Prop :=
  length (settings c) = 9%nat /\ 0 <= count c <= MAX_PERIPHERALS.

(** An event that is not a report for session [id]. *)
Definition not_for_session (id : Z) (eh : zmk_event) : Prop :=
  forall ev, eh = Ev_report ev -> rep_request_id ev <> id.

(** The states a node of the bounded revision can be in: it boots with
    the collection as initialised, then events reach it and requests are
    handled. *)
Inductive reachable `{Nanopb} `{ActivityBounds} (cfg : Kconfig) : state -> Prop :=
| reach_boot (w : world) :
    reachable cfg {| node := w; settings_collection := settings_collection_init |}
| reach_deliver (st st' : state) (eh : zmk_event) :
    reachable cfg st -> deliver cfg eh st = Some st' -> reachable cfg st'
| reach_request (st st' : state) (arrivals : list zmk_event)
    (raw : zmk_custom_CallRequest) (resp : Response) (out : bool * Response) :
    reachable cfg st ->
    settings_rpc_handle_request cfg arrivals raw resp st = Some (out, st') ->
    reachable cfg st'.

(* ===================================================================== *)
(** ** Sample inputs *)
(* ===================================================================== *)

(** A change event attributed to the central itself (identity 0). *)
Definition own_identity_event : zmk_activity_settings_changed :=
  {| chg_idle_ms := 5000; chg_sleep_ms := 60000; chg_source := 0 |}.

Definition five_seconds : ActivitySettings :=
  {| idle_ms := 5000; sleep_ms := 60000; source := 0 |}.

(** A sleep timeout beyond what [day_bounds] takes (and within 32 bits). *)
Definition sleep_too_long : ActivitySettings :=
  {| idle_ms := 5000; sleep_ms := 4000000000; source := 0 |}.

(** A report for session 3 carrying {10000, 900000} from peripheral 2. *)
Definition late_report : zmk_activity_settings_report :=
  {| rep_idle_ms := 10000; rep_sleep_ms := 900000; rep_source := 2;
     rep_request_id := 3 |}.

(** The central in session 3. *)
Definition session3 : state :=
  {| node := world0;
     settings_collection :=
       {| settings := settings settings_collection_init; count := 0; request_id := 3 |} |}.

(** Two reports for session 1: peripheral 1 agrees with the central,
    peripheral 2 has another idle timeout. *)
Definition reports_a_b : list zmk_event :=
  [Ev_report {| rep_idle_ms := 30000; rep_sleep_ms := 900000; rep_source := 1;
                rep_request_id := 1 |};
   Ev_report {| rep_idle_ms := 10000; rep_sleep_ms := 900000; rep_source := 2;
                rep_request_id := 1 |}].

(** Nine reports for session 1, from peripherals 1 to 9, all in sync. *)
Definition nine_reports : list zmk_event :=
  (fun i => Ev_report {| rep_idle_ms := 30000; rep_sleep_ms := 900000;
                         rep_source := i; rep_request_id := 1 |})
  <$> [1; 2; 3; 4; 5; 6; 7; 8; 9].

(* ===================================================================== *)
(** ** Vocabulary of the further properties *)
(* ===================================================================== *)

(** What a report contributes to session [id]: its entry when it carries
    that id, nothing otherwise; events of other types contribute nothing. *)
Definition matching_entries (id : Z) (arrivals : list zmk_event)
  : list ActivitySettings :=
  omap (fun eh => match eh with
                  | Ev_report ev =>
                    if rep_request_id ev =? id then Some (entry_of ev) else None
                  | _ => None
                  end) arrivals.

(** The slots of the collection that are in use. *)
Definition collected (c : settings_collection_t) : list ActivitySettings :=
  take (Z.to_nat (count c)) (settings c).

(** [same_timeouts], decided. *)
Definition same_timeoutsb (ref e : ActivitySettings) : bool :=
  (idle_ms e =? idle_ms ref) && (sleep_ms e =? sleep_ms ref).

(** Every entry of a sequence has the timeouts of its first entry. *)
Definition all_same_as_first (all : list ActivitySettings) : bool :=
  match all with
  | [] => true
  | ref :: rest => forallb (same_timeoutsb ref) rest
  end.

(** Get-all after get-all, each with what arrives during its wait. *)
Fixpoint get_all_rounds `{ActivityBounds} (cfg : Kconfig)
  (windows : list (list zmk_event)) (st : state) : option state :=
  match windows with
  | [] => Some st
  | arrivals :: rest =>
    out ← handle_get_all_activity_settings cfg arrivals st;
    get_all_rounds cfg rest out.2
  end.

(** [settings_rpc_handle_request] of the first revision: two cases and the
    [default:].  Its response has no get-all member. *)
Module FirstRevision.

Definition Response := zmk_settings_Response Empty_set.

Definition settings_rpc_handle_request `{Nanopb} `{ActivityBounds}
  (cfg : Kconfig) (raw_request : zmk_custom_CallRequest) (resp : Response)
  (w : world) : (bool * Response) * world :=
  match pb_decode (call_payload raw_request) with
  | None => ((true, Response_error "Failed to decode request"), w)
  | Some req =>
    let '((rc, resp), w) :=
      match req with
      | Request_get_activity_settings => handle_get_activity_settings w
      | Request_set_activity_settings s =>
        Initial.handle_set_activity_settings cfg s w
      | Request_get_all_activity_settings | Request_other _ => ((-1, resp), w)
      end in
    let resp := if negb (rc =? 0)
                then Response_error "Failed to process request"
                else resp in
    ((true, resp), w)
  end.

End FirstRevision.

(** A response is of the error kind. *)
Definition is_error {G} (resp : zmk_settings_Response G) : bool :=
  match resp with Response_error _ => true | _ => false end.

(** The requests the router answers with an error: a payload that does
    not decode, a request of no known type, and a set the store rejects. *)
Definition refused `{Nanopb} `{ActivityBounds} (raw : zmk_custom_CallRequest) : bool :=
  match pb_decode (call_payload raw) with
  | None => true
  | Some (Request_other _) => true
  | Some (Request_set_activity_settings v) => negb (store_accepts v)
  | Some _ => false
  end.

(** The settings a world has notified so far, oldest first. *)
Definition notified (w : world) : list ActivitySettings :=
  omap (fun e => match e with Notified _ s => Some s | _ => None end) (effects w).

(** The entries a world has warned about so far ([LOG_WRN] of the in-sync
    loop), oldest first. *)
Definition warned (w : world) : list ActivitySettings :=
  omap (fun e => match e with Warned s => Some s | _ => None end) (effects w).

(** The entries of all the reports among some events, whatever their id. *)
Definition report_entries (arrivals : list zmk_event) : list ActivitySettings :=
  omap (fun eh => match eh with Ev_report ev => Some (entry_of ev) | _ => None end)
       arrivals.

(** Events reaching a node of the streamed revision one after the other. *)
Definition streamed_deliver_all `{ActivityBounds} (cfg : Kconfig)
  (arrivals : list zmk_event) (st : Streamed.state) : Streamed.state :=
  foldl (fun st eh => Streamed.deliver cfg eh st) st arrivals.

(** Modelled from the spec: the relay "stamps [origin = this node's real
    identity] (overwriting the self-origin marker) before sending"
    (section 4.3); the relay macros themselves are not part of this
    module.  A change event as it reaches another node, attributed to
    [src]. *)
Definition relayed_from (src : Z) (ev : zmk_activity_settings_changed)
  : zmk_activity_settings_changed :=
  {| chg_idle_ms := chg_idle_ms ev; chg_sleep_ms := chg_sleep_ms ev; chg_source := src |}.

(** The value a change event carries. *)
Definition value_of (ev : zmk_activity_settings_changed) : ActivitySettings :=
  {| idle_ms := chg_idle_ms ev; sleep_ms := chg_sleep_ms ev; source := 0 |}.

(** The store after an event has been delivered to a node. *)
Definition store_after_event `{ActivityBounds} (cfg : Kconfig) (eh : zmk_event)
  (s : activity) : activity :=
  match eh with
  | Ev_changed ev =>
    if CONFIG_ZMK_SPLIT_RELAY_EVENT cfg &&
       negb (chg_source ev =? ZMK_RELAY_EVENT_SOURCE_SELF)
    then store_after_set (value_of ev) s
    else s
  | _ => s
  end.

(* ===================================================================== *)
(** ** The front end: web/src/ActivitySettings.tsx *)
(* ===================================================================== *)

Module Web.

(** [interface DeviceSettings] *)
Record DeviceSettings := {
  dev_source : Z;
  dev_idleMs : Z;
  dev_sleepMs : Z
}.

(** The state hooks of the component. *)
Record ui := {
  idleMs : Z;
  sleepMs : Z;
  isLoading : bool;
  message : option string;
  error : option string;
  allDeviceSettings : list DeviceSettings;
  showSyncWarning : bool
}.

(** The initial values of the hooks. *)
Definition ui_init : ui :=
  {| idleMs := 30000; sleepMs := 900000; isLoading := false;
     message := None; error := None;
     allDeviceSettings := []; showSyncWarning := false |}.

(** The generated [Notification] message: both levels are optional. *)
Record ActivitySettingsNotification := {
  settings : option ActivitySettings
}.

Record Notification := {
  activitySettings : option ActivitySettingsNotification
}.

(** [Notification.decode], of the generated protobuf code: a collaborator,
    taken as an interface.  [None] is a decode that throws. *)
Class NotificationDecoder := {
  Notification_decode : list byte -> option Notification
}.

(** The generated [Response] message: the members of the [oneof] are
    optional properties. *)
Record Response := {
  getActivitySettings : option ActivitySettings;
  setActivitySettings : option bool;           (* .success *)
  getAllActivitySettings : option bool;        (* .requestSent *)
  error_message : option string                (* .error.message *)
}.

(** How an RPC went: [callRPC] or [Response.decode] threw (with the
    message when what was thrown is an [Error]), [callRPC] resolved to
    nothing, or a response was decoded. *)
Inductive rpc_outcome :=
| Rpc_threw (err : option string)
| Rpc_nothing
| Rpc_response (resp : Response).

(** [updated.every((s) => s.idleMs === updated[0].idleMs &&
                          s.sleepMs === updated[0].sleepMs)];
    on an empty array [every] is true and never looks at [updated[0]]. *)
Definition every_equals_first (updated : list DeviceSettings) : bool :=
  match updated !! 0%nat with
  | Some first =>
    forallb (fun s => (dev_idleMs s =? dev_idleMs first) &&
                      (dev_sleepMs s =? dev_sleepMs first)) updated
  | None => true
  end.

(** The updater [handleNotification] passes to [setAllDeviceSettings],
    with the hooks it sets on the way, for the settings of one
    notification. *)
Definition update_devices (s : ActivitySettings) (u : ui) : ui :=
  let deviceSetting :=
    {| dev_source := source s; dev_idleMs := idle_ms s; dev_sleepMs := sleep_ms s |} in
  let prev := allDeviceSettings u in
  let filtered := filter (fun d => dev_source d <> source s) prev in
  let updated := filtered ++ [deviceSetting] in
  let '(idle, sleep) :=
    if source s =? 0 then (idle_ms s, sleep_ms s) else (idleMs u, sleepMs u) in
  let inSync := every_equals_first updated in
  {| idleMs := idle; sleepMs := sleep; isLoading := isLoading u;
     message := message u; error := error u;
     allDeviceSettings := updated;
     showSyncWarning := negb inSync && (1 <? Z.of_nat (length updated)) |}.

(** [handleNotification]: a payload that does not decode is logged and
    dropped, a notification without settings is ignored. *)
Definition handleNotification `{NotificationDecoder} (payload : list byte) (u : ui)
  : ui :=
  match Notification_decode payload with
  | None => u
  | Some notification =>
    match activitySettings notification ≫= settings with
    | Some s => update_devices s u
    | None => u
    end
  end.

(** [getCurrentSettings] up to the [await]: nothing without a connection
    and the subsystem. *)
Definition getCurrentSettings_start (connected : bool) (u : ui) : ui :=
  if negb connected then u
  else {| idleMs := idleMs u; sleepMs := sleepMs u; isLoading := true;
          message := None; error := None;
          allDeviceSettings := []; showSyncWarning := false |}.

(** [`Failed: ${err instanceof Error ? err.message : "Unknown error"}`] *)
Definition failed_text (err : option string) : string :=
  ("Failed: " ++ match err with Some m => m | None => "Unknown error" end)%string.

(** [getCurrentSettings] from the [await] on. *)
Definition getCurrentSettings_finish (outcome : rpc_outcome) (u : ui) : ui :=
  let '(msg, err) :=
    match outcome with
    | Rpc_threw e => (message u, Some (failed_text e))
    | Rpc_nothing => (message u, error u)
    | Rpc_response resp =>
      match getAllActivitySettings resp with
      | Some requestSent =>
        if requestSent
        then (Some "Collecting settings from all devices..."%string, error u)
        else (message u, error u)
      | None =>
        match error_message resp with
        | Some m => (message u, Some ("Error: " ++ m)%string)
        | None => (message u, error u)
        end
      end
    end in
  {| idleMs := idleMs u; sleepMs := sleepMs u; isLoading := false;
     message := msg; error := err;
     allDeviceSettings := allDeviceSettings u;
     showSyncWarning := showSyncWarning u |}.

(** [updateSettings] up to the [await]; the request it sends carries the
    two values of the form. *)
Definition updateSettings_start (connected : bool) (u : ui)
  : option ActivitySettings * ui :=
  if negb connected then (None, u)
  else (Some {| idle_ms := idleMs u; sleep_ms := sleepMs u; source := 0 |},
        {| idleMs := idleMs u; sleepMs := sleepMs u; isLoading := true;
           message := None; error := None;
           allDeviceSettings := allDeviceSettings u;
           showSyncWarning := showSyncWarning u |}).

(** [updateSettings] from the [await] on. *)
Definition updateSettings_finish (outcome : rpc_outcome) (u : ui) : ui :=
  let '(msg, err) :=
    match outcome with
    | Rpc_threw e => (message u, Some (failed_text e))
    | Rpc_nothing => (message u, error u)
    | Rpc_response resp =>
      match setActivitySettings resp with
      | Some success =>
        if success
        then (Some "Settings updated successfully!"%string, error u)
        else (message u, Some "Failed to update settings"%string)
      | None =>
        match error_message resp with
        | Some m => (message u, Some ("Error: " ++ m)%string)
        | None => (message u, error u)
        end
      end
    end in
  {| idleMs := idleMs u; sleepMs := sleepMs u; isLoading := false;
     message := msg; error := err;
     allDeviceSettings := allDeviceSettings u;
     showSyncWarning := showSyncWarning u |}.

(** [syncAllDevices] up to the [await]: the request carries the two
    values of the form, as in [updateSettings]. *)
Definition syncAllDevices_start (connected : bool) (u : ui)
  : option ActivitySettings * ui :=
  updateSettings_start connected u.

(** [syncAllDevices] from the [await] on; the boolean tells whether
    [setTimeout(() => getCurrentSettings(), 500)] was called. *)
Definition syncAllDevices_finish (outcome : rpc_outcome) (u : ui) : ui * bool :=
  let '(msg, err, warning, refresh) :=
    match outcome with
    | Rpc_threw e => (message u, Some (failed_text e), showSyncWarning u, false)
    | Rpc_nothing => (message u, error u, showSyncWarning u, false)
    | Rpc_response resp =>
      match setActivitySettings resp with
      | Some success =>
        if success
        then (Some "Settings synchronized across all devices!"%string, error u,
              false, true)
        else (message u, Some "Failed to sync settings"%string, showSyncWarning u,
              false)
      | None =>
        match error_message resp with
        | Some m => (message u, Some ("Error: " ++ m)%string, showSyncWarning u, false)
        | None => (message u, error u, showSyncWarning u, false)
        end
      end
    end in
  ({| idleMs := idleMs u; sleepMs := sleepMs u; isLoading := false;
      message := msg; error := err;
      allDeviceSettings := allDeviceSettings u;
      showSyncWarning := warning |}, refresh).

End Web.

(** The device entry the front end makes of notified settings. *)
Definition device_of (s : ActivitySettings) : Web.DeviceSettings :=
  {| Web.dev_source := source s; Web.dev_idleMs := idle_ms s;
     Web.dev_sleepMs := sleep_ms s |}.

(** Two devices show different timeouts. *)
Definition devices_differ (a b : Web.DeviceSettings) : Prop :=
  Web.dev_idleMs a <> Web.dev_idleMs b \/ Web.dev_sleepMs a <> Web.dev_sleepMs b.

(** Notifications handled one after the other. *)
Definition receive_all (ns : list ActivitySettings) (u : Web.ui) : Web.ui :=
  foldl (fun u s => Web.update_devices s u) u ns.

(** Modelled from the spec: the byte transport and its encoding are
    collaborators of the handlers, and a message is decoded as it was
    built (section 8, round trip).  The streamed response as the front end
    decodes it. *)
Definition decoded_response (resp : Streamed.Response) : Web.Response :=
  match resp with
  | Response_error m =>
    {| Web.getActivitySettings := None; Web.setActivitySettings := None;
       Web.getAllActivitySettings := None; Web.error_message := Some m |}
  | Response_get_activity_settings s =>
    {| Web.getActivitySettings := Some s; Web.setActivitySettings := None;
       Web.getAllActivitySettings := None; Web.error_message := None |}
  | Response_set_activity_settings b =>
    {| Web.getActivitySettings := None; Web.setActivitySettings := Some b;
       Web.getAllActivitySettings := None; Web.error_message := None |}
  | Response_get_all_activity_settings r =>
    {| Web.getActivitySettings := None; Web.setActivitySettings := None;
       Web.getAllActivitySettings := Some (Streamed.request_sent r);
       Web.error_message := None |}
  end.

(* ===================================================================== *)
(** ** Set, apply, get *)
(* ===================================================================== *)

Section SetApplyGet.
Context `{ActivityBounds}.

Lemma changed_listener_self (ev : zmk_activity_settings_changed) (w : world) :
  chg_source ev = ZMK_RELAY_EVENT_SOURCE_SELF ->
  activity_settings_changed_listener (Ev_changed ev) w = (ZMK_EV_EVENT_BUBBLE, w).
Proof.
  intros Hsrc. unfold activity_settings_changed_listener. simpl.
  rewrite Hsrc, Z.eqb_refl. reflexivity.
Qed.

Lemma changed_listener_relayed (ev : zmk_activity_settings_changed) (w : world) :
  chg_source ev <> ZMK_RELAY_EVENT_SOURCE_SELF ->
  activity_settings_changed_listener (Ev_changed ev) w =
  (ZMK_EV_EVENT_BUBBLE,
   {| store := store_after_set
                 {| idle_ms := chg_idle_ms ev; sleep_ms := chg_sleep_ms ev; source := 0 |}
                 (store w);
      effects := effects w ++
                 [Set_idle (chg_idle_ms ev) (idle_ms_accepted (chg_idle_ms ev));
                  Set_sleep (chg_sleep_ms ev) (sleep_ms_accepted (chg_sleep_ms ev))] |}).
Proof.
  intros Hsrc. destruct w as [[i s] es].
  unfold activity_settings_changed_listener. simpl.
  apply Z.eqb_neq in Hsrc. rewrite Hsrc. simpl.
  unfold store_after_set. simpl. rewrite <- app_assoc. simpl.
  destruct (idle_ms_accepted (chg_idle_ms ev)), (sleep_ms_accepted (chg_sleep_ms ev));
    reflexivity.
Qed.

Lemma changed_listener_other_type (eh : zmk_event) (w : world) :
  as_zmk_activity_settings_changed eh = None ->
  activity_settings_changed_listener eh w = (ZMK_EV_EVENT_BUBBLE, w).
Proof. intros Hno. unfold activity_settings_changed_listener. rewrite Hno. reflexivity. Qed.

Lemma raise_changed_self (subscribed : bool) (v : ActivitySettings) (w : world) :
  raise_zmk_activity_settings_changed subscribed
    {| chg_idle_ms := idle_ms v; chg_sleep_ms := sleep_ms v;
       chg_source := ZMK_RELAY_EVENT_SOURCE_SELF |} w
  = emit (Raised (change_event_of v)) w.
Proof.
  unfold raise_zmk_activity_settings_changed.
  destruct subscribed; [| reflexivity].
  rewrite changed_listener_self; reflexivity.
Qed.

(** What [handle_set_activity_settings] returns and leaves behind. *)
Lemma handle_set_unfold {G} (cfg : Kconfig) (v : ActivitySettings) (w : world) :
  handle_set_activity_settings (G := G) cfg v w =
  ((if store_accepts v then 0 else -1, Response_set_activity_settings (store_accepts v)),
   {| store := store_after_set v (store w);
      effects := effects w ++ set_calls v ++
                 (if store_accepts v && CONFIG_ZMK_SPLIT_RELAY_EVENT cfg
                  then [Raised (change_event_of v)] else []) |}).
Proof.
  destruct w as [[i s] es].
  unfold handle_set_activity_settings, zmk_activity_set_idle_ms,
    zmk_activity_set_sleep_ms, store_accepts, store_after_set, set_calls.
  cbv zeta. rewrite raise_changed_self. unfold emit. simpl.
  destruct (idle_ms_accepted (idle_ms v)), (sleep_ms_accepted (sleep_ms v)),
    (CONFIG_ZMK_SPLIT_RELAY_EVENT cfg); simpl;
    rewrite <- ?app_assoc; simpl; try rewrite app_nil_r; reflexivity.
Qed.

Lemma initial_handle_set_unfold {G} (cfg : Kconfig) (v : ActivitySettings) (w : world) :
  Initial.handle_set_activity_settings (G := G) cfg v w =
  ((if store_accepts v then 0 else -1, Response_set_activity_settings (store_accepts v)),
   {| store := store_after_set v (store w);
      effects := effects w ++ set_calls v ++
                 (if store_accepts v then [Raised (change_event_of v)] else []) |}).
Proof.
  destruct w as [[i s] es].
  unfold Initial.handle_set_activity_settings, zmk_activity_set_idle_ms,
    zmk_activity_set_sleep_ms, store_accepts, store_after_set, set_calls.
  cbv zeta. rewrite raise_changed_self. unfold emit. simpl.
  destruct (idle_ms_accepted (idle_ms v)), (sleep_ms_accepted (sleep_ms v)); simpl;
    rewrite <- ?app_assoc; simpl; try rewrite app_nil_r; reflexivity.
Qed.

Lemma store_after_set_accepted (v : ActivitySettings) (s : activity) :
  store_accepts v = true ->
  store_after_set v s = {| act_idle_ms := idle_ms v; act_sleep_ms := sleep_ms v |}.
Proof.
  unfold store_accepts, store_after_set. intros [Hi Hs]%andb_true_iff.
  rewrite Hi, Hs. reflexivity.
Qed.

Lemma raised_events_app (s : activity) (w : world) (es : list effect) :
  raised_events {| store := s; effects := effects w ++ es |} =
  raised_events w ++
  omap (fun e => match e with Raised eh => Some eh | _ => None end) es.
Proof. unfold raised_events. simpl. apply omap_app. Qed.

End SetApplyGet.

(* ===================================================================== *)
(** ** Claims on set, apply and get *)
(* ===================================================================== *)

(** C1, as stated, fails: on the central (identity 0) an event whose
    origin is 0, the node's own identity, is applied; the listener calls
    both setters and the stored timeouts change. *)
Lemma changed_listener_applies_own_identity :
  let own_identity := 0 in
  let out := @activity_settings_changed_listener day_bounds
               (Ev_changed own_identity_event) world0 in
  (chg_source own_identity_event = ZMK_RELAY_EVENT_SOURCE_SELF \/
   chg_source own_identity_event = own_identity) /\
  store_calls out.2 = [Set_idle 5000 true; Set_sleep 60000 true] /\
  store_calls out.2 <> store_calls world0 /\
  store out.2 = {| act_idle_ms := 5000; act_sleep_ms := 60000 |} /\
  store out.2 <> store world0.
Proof.
  cbv zeta. repeat split; try (right; reflexivity); try reflexivity; discriminate.
Qed.

(** C1, amended: the apply listener always bubbles; an event whose origin
    is the self-origin marker leaves the node as it was (no store call);
    for every other origin, the node's own identity included, it calls both
    setters with the event's values whatever the old and new values are,
    and each field holds the event's value afterwards when the store
    accepted it (the old value otherwise). *)
Theorem changed_listener_applies_unless_self_marker `{ActivityBounds}
  (ev : zmk_activity_settings_changed) (w : world) :
  let out := activity_settings_changed_listener (Ev_changed ev) w in
  out.1 = ZMK_EV_EVENT_BUBBLE /\
  (chg_source ev = ZMK_RELAY_EVENT_SOURCE_SELF -> out.2 = w) /\
  (chg_source ev <> ZMK_RELAY_EVENT_SOURCE_SELF ->
     effects out.2 =
       effects w ++
       [Set_idle (chg_idle_ms ev) (idle_ms_accepted (chg_idle_ms ev));
        Set_sleep (chg_sleep_ms ev) (sleep_ms_accepted (chg_sleep_ms ev))] /\
     act_idle_ms (store out.2) =
       (if idle_ms_accepted (chg_idle_ms ev) then chg_idle_ms ev
        else act_idle_ms (store w)) /\
     act_sleep_ms (store out.2) =
       (if sleep_ms_accepted (chg_sleep_ms ev) then chg_sleep_ms ev
        else act_sleep_ms (store w))).
Proof.
  cbv zeta. destruct (Z.eq_dec (chg_source ev) ZMK_RELAY_EVENT_SOURCE_SELF) as [Hs | Hs].
  - rewrite (changed_listener_self _ _ Hs). repeat split; tauto.
  - rewrite (changed_listener_relayed _ _ Hs). repeat split; tauto.
Qed.

(** The amended C1 at the defaults: a self-marked event changes nothing, an
    event from peripheral 1 makes the two store calls. *)
Lemma changed_listener_applies_unless_self_marker_witness :
  (@activity_settings_changed_listener day_bounds
     (Ev_changed {| chg_idle_ms := 5000; chg_sleep_ms := 60000;
                    chg_source := ZMK_RELAY_EVENT_SOURCE_SELF |}) world0).2 = world0 /\
  effects (@activity_settings_changed_listener day_bounds
     (Ev_changed {| chg_idle_ms := 5000; chg_sleep_ms := 60000;
                    chg_source := 1 |}) world0).2
  = [Set_idle 5000 true; Set_sleep 60000 true].
Proof.
  split.
  - apply (@changed_listener_applies_unless_self_marker day_bounds
             {| chg_idle_ms := 5000; chg_sleep_ms := 60000;
                chg_source := ZMK_RELAY_EVENT_SOURCE_SELF |} world0).
    reflexivity.
  - apply (@changed_listener_applies_unless_self_marker day_bounds
             {| chg_idle_ms := 5000; chg_sleep_ms := 60000;
                chg_source := 1 |} world0).
    discriminate.
Defined.

(** C2, as stated, fails: built without [CONFIG_ZMK_SPLIT_RELAY_EVENT],
    the store accepts {5000, 60000}, the write succeeds and is reported as
    a success, and no change event is published. *)
Lemma set_without_relay_publishes_nothing :
  let out := @handle_set_activity_settings unit day_bounds no_relay_cfg
               five_seconds world0 in
  @store_accepts day_bounds five_seconds = true /\
  out.1 = (0, Response_set_activity_settings true) /\
  store out.2 = {| act_idle_ms := 5000; act_sleep_ms := 60000 |} /\
  raised_events out.2 = [].
Proof. cbv zeta. repeat split; reflexivity. Qed.

(** C2, amended: [handle_set_activity_settings] publishes one change event
    that carries the value with the self-origin marker if and only if the
    store accepted the value and the build has
    [CONFIG_ZMK_SPLIT_RELAY_EVENT]; it publishes nothing else.  In every
    build the result reports success exactly when the store accepted, and
    after a success the store holds the value, whatever delivery of the
    event did.  The first revision publishes if and only if the store
    accepted, in every build. *)
Theorem set_publishes_iff_accepted_and_relay `{ActivityBounds} {G : Type}
  (cfg : Kconfig) (v : ActivitySettings) (w : world) :
  let out := handle_set_activity_settings (G := G) cfg v w in
  let out1 := Initial.handle_set_activity_settings (G := G) cfg v w in
  raised_events out.2 =
    raised_events w ++
    (if store_accepts v && CONFIG_ZMK_SPLIT_RELAY_EVENT cfg
     then [change_event_of v] else []) /\
  out.1 = (if store_accepts v then 0 else -1,
           Response_set_activity_settings (store_accepts v)) /\
  (store_accepts v = true ->
   store out.2 = {| act_idle_ms := idle_ms v; act_sleep_ms := sleep_ms v |}) /\
  raised_events out1.2 =
    raised_events w ++ (if store_accepts v then [change_event_of v] else []) /\
  out1.1 = out.1 /\
  store out1.2 = store out.2.
Proof.
  cbv zeta. rewrite handle_set_unfold, initial_handle_set_unfold. simpl.
  repeat split.
  - rewrite raised_events_app. f_equal. unfold set_calls. simpl.
    destruct (store_accepts v && CONFIG_ZMK_SPLIT_RELAY_EVENT cfg); reflexivity.
  - intros Ha. apply store_after_set_accepted, Ha.
  - rewrite raised_events_app. f_equal. unfold set_calls. simpl.
    destruct (store_accepts v); reflexivity.
Qed.

(** The amended C2 on the central with the relay: {5000, 60000} is
    accepted, published once with the self-origin marker, and stored. *)
Lemma set_publishes_iff_accepted_and_relay_witness :
  @store_accepts day_bounds five_seconds = true /\
  raised_events
    (@handle_set_activity_settings unit day_bounds central_cfg five_seconds world0).2
  = [change_event_of five_seconds] /\
  store (@handle_set_activity_settings unit day_bounds central_cfg five_seconds world0).2
  = {| act_idle_ms := 5000; act_sleep_ms := 60000 |}.
Proof.
  split; [reflexivity |].
  destruct (@set_publishes_iff_accepted_and_relay day_bounds unit central_cfg
              five_seconds world0) as (Hraised & _ & Hstore & _).
  split; [exact Hraised | exact (Hstore eq_refl)].
Defined.

(** C6, as stated, fails: the store takes the idle timeout 5000 and
    rejects the sleep timeout 4000000000; the call fails and publishes
    nothing, and the stored idle timeout has changed from 30000 to 5000. *)
Lemma set_rejected_keeps_accepted_field :
  let out := @handle_set_activity_settings unit day_bounds central_cfg
               sleep_too_long world0 in
  @store_accepts day_bounds sleep_too_long = false /\
  out.1 = (-1, Response_set_activity_settings false) /\
  raised_events out.2 = [] /\
  store out.2 = {| act_idle_ms := 5000; act_sleep_ms := 900000 |} /\
  store out.2 <> store world0.
Proof. cbv zeta. repeat split; try reflexivity. discriminate. Qed.

(** C6, amended: when the store rejects the value (either setter returns
    false), [handle_set_activity_settings] returns -1 with [success =
    false], publishes no event, and both routers answer with the error
    response.  A field the store rejected keeps its old value; a field it
    accepted is written all the same, so the store is unchanged when both
    fields are rejected. *)
Theorem set_rejected_fails_without_publishing `{ActivityBounds} {G : Type}
  (cfg : Kconfig) (v : ActivitySettings) (w : world) :
  store_accepts v = false ->
  let out := handle_set_activity_settings (G := G) cfg v w in
  out.1 = (-1, Response_set_activity_settings false) /\
  raised_events out.2 = raised_events w /\
  act_idle_ms (store out.2) =
    (if idle_ms_accepted (idle_ms v) then idle_ms v else act_idle_ms (store w)) /\
  act_sleep_ms (store out.2) =
    (if sleep_ms_accepted (sleep_ms v) then sleep_ms v else act_sleep_ms (store w)) /\
  (idle_ms_accepted (idle_ms v) = false -> sleep_ms_accepted (sleep_ms v) = false ->
   store out.2 = store w) /\
  (forall (D : Nanopb) raw,
     pb_decode (call_payload raw) = Some (Request_set_activity_settings v) ->
     (forall resp st, (Streamed.settings_rpc_handle_request cfg raw resp st).1 =
                      (true, Response_error "Failed to process request")) /\
     (forall arrivals resp st, exists st',
         Bounded.settings_rpc_handle_request cfg arrivals raw resp st =
         Some ((true, Response_error "Failed to process request"), st'))).
Proof.
  intros Hrej. cbv zeta. rewrite handle_set_unfold, Hrej. simpl.
  split; [reflexivity |]. split.
  - rewrite raised_events_app. simpl. apply app_nil_r.
  - split; [reflexivity |]. split; [reflexivity |]. split.
    + intros Hi Hs. unfold store_after_set. rewrite Hi, Hs.
      destruct (store w); reflexivity.
    + intros D raw Hdec. split.
      * intros resp st. unfold Streamed.settings_rpc_handle_request.
        rewrite Hdec. cbv beta iota. rewrite handle_set_unfold, Hrej. reflexivity.
      * intros arrivals resp st. unfold Bounded.settings_rpc_handle_request.
        rewrite Hdec. cbv beta iota. rewrite handle_set_unfold, Hrej. simpl. eauto.
Qed.

(** The amended C6 at a sleep timeout beyond the bound of the store. *)
Lemma set_rejected_fails_without_publishing_witness :
  @store_accepts day_bounds sleep_too_long = false /\
  (@handle_set_activity_settings unit day_bounds central_cfg sleep_too_long world0).1
  = (-1, Response_set_activity_settings false) /\
  raised_events
    (@handle_set_activity_settings unit day_bounds central_cfg sleep_too_long world0).2
  = raised_events world0.
Proof.
  split; [reflexivity |].
  split;
    apply (@set_rejected_fails_without_publishing day_bounds unit central_cfg
             sleep_too_long world0);
    reflexivity.
Defined.

(** C8: for a value the store accepts, [handle_set_activity_settings]
    followed by [handle_get_activity_settings] returns exactly that idle
    and sleep timeout, in every build (with or without the relay, and
    whatever the delivery of the raised event did), and the read leaves
    the node as the write left it.  The same holds for the first
    revision. *)
Theorem set_then_get_returns_value `{ActivityBounds} {G : Type}
  (cfg : Kconfig) (v : ActivitySettings) (w : world) :
  store_accepts v = true ->
  let w' := (handle_set_activity_settings (G := G) cfg v w).2 in
  let w1 := (Initial.handle_set_activity_settings (G := G) cfg v w).2 in
  let read := {| idle_ms := idle_ms v; sleep_ms := sleep_ms v; source := 0 |} in
  handle_get_activity_settings (G := G) w' =
    ((0, Response_get_activity_settings read), w') /\
  handle_get_activity_settings (G := G) w1 =
    ((0, Response_get_activity_settings read), w1).
Proof.
  intros Hacc. cbv zeta. rewrite handle_set_unfold, initial_handle_set_unfold.
  rewrite (store_after_set_accepted _ _ Hacc).
  unfold handle_get_activity_settings, zmk_activity_get_idle_ms,
    zmk_activity_get_sleep_ms. simpl. split; reflexivity.
Qed.

(** C8 at {5000, 60000} on the central. *)
Lemma set_then_get_returns_value_witness :
  @store_accepts day_bounds five_seconds = true /\
  (@handle_get_activity_settings unit
     (@handle_set_activity_settings unit day_bounds central_cfg five_seconds world0).2).1
  = (0, Response_get_activity_settings five_seconds).
Proof.
  split; [reflexivity |].
  pose proof (@set_then_get_returns_value day_bounds unit central_cfg
                five_seconds world0 eq_refl) as [Hget _].
  cbv zeta in Hget. rewrite Hget. reflexivity.
Defined.

(* ===================================================================== *)
(** ** The request router *)
(* ===================================================================== *)

(** C9: a payload that fails to decode makes the router return [true]
    (handled) with the error response "Failed to decode request", in both
    get-all revisions; nothing but the remembered subsystem index (the
    low eight bits of the request's) changes.
    A decoded request whose type is none of the three known ones makes it
    return [true] with the error response "Failed to process request" and
    leaves the node as it was.  Neither case can fault. *)
Theorem router_answers_bad_request_with_error `{Nanopb} `{ActivityBounds}
  (cfg : Kconfig) (raw : zmk_custom_CallRequest) :
  (pb_decode (call_payload raw) = None ->
   (forall resp st,
      Streamed.settings_rpc_handle_request cfg raw resp st =
      ((true, Response_error "Failed to decode request"),
       {| Streamed.node := Streamed.node st;
          Streamed.subsystem_index := call_subsystem_index raw mod 256 |})) /\
   (forall arrivals resp st,
      Bounded.settings_rpc_handle_request cfg arrivals raw resp st =
      Some ((true, Response_error "Failed to decode request"), st))) /\
  (forall tag, pb_decode (call_payload raw) = Some (Request_other tag) ->
   (forall resp st,
      Streamed.settings_rpc_handle_request cfg raw resp st =
      ((true, Response_error "Failed to process request"),
       {| Streamed.node := Streamed.node st;
          Streamed.subsystem_index := call_subsystem_index raw mod 256 |})) /\
   (forall arrivals resp st,
      Bounded.settings_rpc_handle_request cfg arrivals raw resp st =
      Some ((true, Response_error "Failed to process request"), st))).
Proof.
  split.
  - intros Hdec. split; intros.
    + unfold Streamed.settings_rpc_handle_request. rewrite Hdec. reflexivity.
    + unfold Bounded.settings_rpc_handle_request. rewrite Hdec. reflexivity.
  - intros tag Hdec. split; intros.
    + unfold Streamed.settings_rpc_handle_request. rewrite Hdec. reflexivity.
    + unfold Bounded.settings_rpc_handle_request. rewrite Hdec. reflexivity.
Qed.

(** C9 on a one-byte payload the decoder rejects and on the empty payload,
    which decodes to a request with no known type. *)
Lemma router_answers_bad_request_with_error_witness :
  @pb_decode empty_only_decoder [x01%byte] = None /\
  (@Streamed.settings_rpc_handle_request empty_only_decoder day_bounds central_cfg
     {| call_subsystem_index := 3; call_payload := [x01%byte] |}
     (Response_set_activity_settings true) streamed0).1
  = (true, Response_error "Failed to decode request") /\
  @pb_decode empty_only_decoder [] = Some (Request_other 0) /\
  @Bounded.settings_rpc_handle_request empty_only_decoder day_bounds central_cfg []
     {| call_subsystem_index := 3; call_payload := [] |}
     (Response_set_activity_settings true) bounded0
  = Some ((true, Response_error "Failed to process request"), bounded0).
Proof.
  split; [reflexivity |]. split.
  - destruct (@router_answers_bad_request_with_error empty_only_decoder day_bounds
                central_cfg {| call_subsystem_index := 3; call_payload := [x01%byte] |})
      as [Hbad _].
    destruct (Hbad eq_refl) as [Hs _]. rewrite Hs. reflexivity.
  - split; [reflexivity |].
    destruct (@router_answers_bad_request_with_error empty_only_decoder day_bounds
                central_cfg {| call_subsystem_index := 3; call_payload := [] |})
      as [_ Hother].
    destruct (Hother 0 eq_refl) as [_ Hb]. apply Hb.
Defined.

(* ===================================================================== *)
(** ** The bounded collection *)
(* ===================================================================== *)

Lemma collection_init_ok : collection_ok settings_collection_init.
Proof. split; [reflexivity | unfold MAX_PERIPHERALS; simpl; lia]. Qed.

Lemma u8_incr_small (x : Z) : 0 <= x < 255 -> u8_incr x = x + 1.
Proof. intros Hx. unfold u8_incr. apply Z.mod_small. lia. Qed.

Lemma u8_incr_changes (x : Z) : u8_incr x <> x.
Proof.
  unfold u8_incr. intros Heq.
  pose proof (Z.mod_pos_bound (x + 1) 256 ltac:(lia)) as Hb.
  pose proof (Z.div_mod (x + 1) 256 ltac:(lia)) as Hd.
  lia.
Qed.

Lemma report_listener_other_type (eh : zmk_event) (st : state) :
  as_zmk_activity_settings_report eh = None ->
  activity_settings_report_listener eh st = Some (ZMK_EV_EVENT_BUBBLE, st).
Proof. intros Hno. unfold activity_settings_report_listener. rewrite Hno. reflexivity. Qed.

Lemma report_listener_stale (ev : zmk_activity_settings_report) (st : state) :
  rep_request_id ev <> request_id (settings_collection st) ->
  activity_settings_report_listener (Ev_report ev) st = Some (ZMK_EV_EVENT_BUBBLE, st).
Proof.
  intros Hne. unfold activity_settings_report_listener. simpl.
  apply Z.eqb_neq in Hne. rewrite Hne. reflexivity.
Qed.

Lemma report_listener_full (eh : zmk_event) (st : state) :
  MAX_PERIPHERALS <= count (settings_collection st) ->
  activity_settings_report_listener eh st = Some (ZMK_EV_EVENT_BUBBLE, st).
Proof.
  intros Hfull. unfold activity_settings_report_listener.
  destruct (as_zmk_activity_settings_report eh) as [ev |]; [| reflexivity].
  destruct (negb _); [reflexivity |].
  apply Z.ltb_ge in Hfull. rewrite Hfull. reflexivity.
Qed.

Lemma report_listener_append (ev : zmk_activity_settings_report) (st : state) :
  collection_ok (settings_collection st) ->
  rep_request_id ev = request_id (settings_collection st) ->
  count (settings_collection st) < MAX_PERIPHERALS ->
  activity_settings_report_listener (Ev_report ev) st =
  Some (ZMK_EV_EVENT_BUBBLE,
        {| node := node st;
           settings_collection :=
             {| settings := <[Z.to_nat (count (settings_collection st)) := entry_of ev]>
                              (settings (settings_collection st));
                count := count (settings_collection st) + 1;
                request_id := request_id (settings_collection st) |} |}).
Proof.
  intros [Hlen Hcnt] Hid Hroom. unfold activity_settings_report_listener. simpl.
  rewrite Hid, Z.eqb_refl. simpl.
  apply Z.ltb_lt in Hroom as Hroomb. rewrite Hroomb.
  unfold array_set. rewrite Hlen.
  replace ((0 <=? count (settings_collection st)) &&
           (count (settings_collection st) <? Z.of_nat 9)) with true
    by (symmetry; apply andb_true_iff; split;
        [apply Z.leb_le | apply Z.ltb_lt]; unfold MAX_PERIPHERALS in *; lia).
  simpl. rewrite u8_incr_small by (unfold MAX_PERIPHERALS in *; lia).
  reflexivity.
Qed.

(** Every event leaves the listener in one of two ways. *)
Lemma report_listener_cases (eh : zmk_event) (st : state) :
  collection_ok (settings_collection st) ->
  activity_settings_report_listener eh st = Some (ZMK_EV_EVENT_BUBBLE, st) \/
  exists ev,
    eh = Ev_report ev /\
    rep_request_id ev = request_id (settings_collection st) /\
    count (settings_collection st) < MAX_PERIPHERALS /\
    activity_settings_report_listener eh st =
    Some (ZMK_EV_EVENT_BUBBLE,
          {| node := node st;
             settings_collection :=
               {| settings := <[Z.to_nat (count (settings_collection st)) := entry_of ev]>
                                (settings (settings_collection st));
                  count := count (settings_collection st) + 1;
                  request_id := request_id (settings_collection st) |} |}).
Proof.
  intros Hok.
  destruct eh as [ev | ev | ev];
    try (left; apply report_listener_other_type; reflexivity).
  destruct (Z.eq_dec (rep_request_id ev) (request_id (settings_collection st)))
    as [Hid | Hid]; [| left; apply report_listener_stale, Hid].
  destruct (Z_lt_le_dec (count (settings_collection st)) MAX_PERIPHERALS)
    as [Hroom | Hfull]; [| left; apply report_listener_full, Hfull].
  right. exists ev. repeat split; try assumption.
  apply report_listener_append; assumption.
Qed.

Lemma report_listener_ok (eh : zmk_event) (st : state) :
  collection_ok (settings_collection st) ->
  exists st',
    activity_settings_report_listener eh st = Some (ZMK_EV_EVENT_BUBBLE, st') /\
    collection_ok (settings_collection st') /\
    node st' = node st /\
    request_id (settings_collection st') = request_id (settings_collection st).
Proof.
  intros Hok. destruct (report_listener_cases eh st Hok) as [Hsame | (ev & _ & _ & Hroom & Happ)].
  - exists st. auto.
  - eexists. split; [exact Happ |].
    destruct Hok as [Hlen Hc]. unfold collection_ok.
    cbn [settings_collection settings count request_id node].
    rewrite length_insert. repeat split; try assumption; lia.
Qed.

Lemma deliver_ok `{ActivityBounds} (cfg : Kconfig) (eh : zmk_event) (st : state) :
  collection_ok (settings_collection st) ->
  exists st',
    deliver cfg eh st = Some st' /\
    collection_ok (settings_collection st') /\
    request_id (settings_collection st') = request_id (settings_collection st).
Proof.
  intros Hok. unfold deliver.
  set (st1 := if CONFIG_ZMK_SPLIT_RELAY_EVENT cfg then _ else st).
  assert (Hsc : settings_collection st1 = settings_collection st)
    by (subst st1; destruct (CONFIG_ZMK_SPLIT_RELAY_EVENT cfg); reflexivity).
  rewrite <- Hsc in Hok. rewrite <- Hsc. clearbody st1.
  destruct (is_central cfg).
  - destruct (report_listener_ok eh st1 Hok) as (st2 & Hrun & Hok2 & _ & Hid).
    rewrite Hrun. simpl.
    eexists. split; [reflexivity |].
    destruct (is_peripheral cfg); simpl; auto.
  - simpl. eexists. split; [reflexivity |].
    destruct (is_peripheral cfg); simpl; auto.
Qed.

Lemma deliver_all_ok `{ActivityBounds} (cfg : Kconfig) (arrivals : list zmk_event)
  (st : state) :
  collection_ok (settings_collection st) ->
  exists st',
    deliver_all cfg arrivals st = Some st' /\
    collection_ok (settings_collection st') /\
    request_id (settings_collection st') = request_id (settings_collection st).
Proof.
  revert st. induction arrivals as [| eh rest IH]; intros st Hok.
  - exists st. auto.
  - simpl. destruct (deliver_ok cfg eh st Hok) as (st1 & Hrun & Hok1 & Hid1).
    rewrite Hrun. simpl.
    destruct (IH st1 Hok1) as (st2 & Hrest & Hok2 & Hid2).
    exists st2. split; [exact Hrest |]. split; [exact Hok2 |].
    rewrite Hid2. exact Hid1.
Qed.

Lemma array_get_lookup {A} (a : list A) (i : Z) :
  0 <= i -> array_get a i = a !! Z.to_nat i.
Proof. intros Hi. unfold array_get. apply Z.leb_le in Hi. rewrite Hi. reflexivity. Qed.

(** The copy loop appends the first [min count MAX_PERIPHERALS] slots. *)
Lemma copy_collected_spec (c : settings_collection_t) :
  Z.min (count c) MAX_PERIPHERALS <= Z.of_nat (length (settings c)) ->
  forall (fuel : nat) (i : Z) (all : list ActivitySettings),
    0 <= i ->
    Z.min (count c) MAX_PERIPHERALS - i <= Z.of_nat fuel ->
    copy_collected fuel c i all =
    Some (all ++ drop (Z.to_nat i)
                   (take (Z.to_nat (Z.min (count c) MAX_PERIPHERALS)) (settings c))).
Proof.
  intros Hlen. induction fuel as [| fuel IH]; intros i all Hi Hfuel.
  - simpl.
    destruct ((i <? count c) && (i <? MAX_PERIPHERALS)) eqn:Hcond.
    + apply andb_true_iff in Hcond as [?%Z.ltb_lt ?%Z.ltb_lt]. lia.
    + rewrite drop_ge, app_nil_r; [reflexivity |].
      rewrite length_take.
      apply andb_false_iff in Hcond as [?%Z.ltb_ge | ?%Z.ltb_ge]; lia.
  - simpl.
    destruct ((i <? count c) && (i <? MAX_PERIPHERALS)) eqn:Hcond.
    + apply andb_true_iff in Hcond as [Hc%Z.ltb_lt Hm%Z.ltb_lt].
      rewrite array_get_lookup by assumption.
      destruct (lookup_lt_is_Some_2 (settings c) (Z.to_nat i)) as [e He]; [lia |].
      rewrite He. simpl.
      rewrite IH by lia. f_equal. rewrite <- app_assoc. f_equal. simpl.
      replace (Z.to_nat (i + 1)) with (S (Z.to_nat i)) by lia.
      symmetry. apply drop_S. rewrite lookup_take_lt by lia. exact He.
    + rewrite drop_ge, app_nil_r; [reflexivity |].
      rewrite length_take.
      apply andb_false_iff in Hcond as [?%Z.ltb_ge | ?%Z.ltb_ge]; lia.
Qed.

(** The comparison loop from index [i]: either it runs to the end and
    every entry from [i] on has the reference timeouts, or it stops at the
    first entry from [i] on that has not, with the warning for it. *)
Lemma in_sync_loop_spec (all : list ActivitySettings) (ref : ActivitySettings)
  (w : world) :
  forall (fuel : nat) (i : Z),
    0 <= i ->
    Z.of_nat (length all) - i <= Z.of_nat fuel ->
    (in_sync_loop fuel all (idle_ms ref) (sleep_ms ref) i w = Some (true, w) /\
     forall (j : nat) e, (Z.to_nat i <= j)%nat -> all !! j = Some e -> same_timeouts ref e)
    \/
    (exists (k : nat) e,
        (Z.to_nat i <= k)%nat /\ all !! k = Some e /\ ~ same_timeouts ref e /\
        (forall (j : nat) e', (Z.to_nat i <= j < k)%nat -> all !! j = Some e' ->
                              same_timeouts ref e') /\
        in_sync_loop fuel all (idle_ms ref) (sleep_ms ref) i w =
        Some (false, emit (Warned e) w)).
Proof.
  induction fuel as [| fuel IH]; intros i Hi Hfuel.
  - left. simpl.
    destruct (i <? Z.of_nat (length all)) eqn:Hcond;
      [apply Z.ltb_lt in Hcond; lia |].
    split; [reflexivity |]. intros j e Hj Hlook.
    apply lookup_lt_Some in Hlook. apply Z.ltb_ge in Hcond. lia.
  - simpl.
    destruct (i <? Z.of_nat (length all)) eqn:Hcond.
    + apply Z.ltb_lt in Hcond.
      rewrite array_get_lookup by assumption.
      destruct (lookup_lt_is_Some_2 all (Z.to_nat i)) as [e He]; [lia |].
      rewrite He. simpl.
      destruct (negb (idle_ms e =? idle_ms ref) || negb (sleep_ms e =? sleep_ms ref))
        eqn:Hdiff.
      * right. exists (Z.to_nat i), e.
        split; [lia |]. split; [exact He |]. split; [| split; [| reflexivity]].
        -- intros [Hsi Hss]. rewrite Hsi, Hss, !Z.eqb_refl in Hdiff. discriminate.
        -- intros j e' Hj. lia.
      * apply orb_false_iff in Hdiff as [Hsi Hss].
        apply negb_false_iff, Z.eqb_eq in Hsi, Hss.
        destruct (IH (i + 1) ltac:(lia) ltac:(lia)) as [[Hrun Hall] | (k & e' & Hk & Hlook & Hne & Hbefore & Hrun)].
        -- left. split; [exact Hrun |]. intros j e' Hj Hlook.
           destruct (decide (j = Z.to_nat i)) as [-> | Hneq].
           ++ rewrite He in Hlook. injection Hlook as <-. split; assumption.
           ++ apply (Hall j); [lia | assumption].
        -- right. exists k, e'.
           split; [lia |]. split; [exact Hlook |]. split; [exact Hne |].
           split; [| exact Hrun].
           intros j e'' Hj Hlook'.
           destruct (decide (j = Z.to_nat i)) as [-> | Hneq].
           ++ rewrite He in Hlook'. injection Hlook' as <-. split; assumption.
           ++ apply (Hbefore j); [lia | assumption].
    + left. split; [reflexivity |]. intros j e Hj Hlook.
      apply lookup_lt_Some in Hlook. apply Z.ltb_ge in Hcond. lia.
Qed.

(** The verdict over a sequence that starts with [ref]. *)
Lemma check_in_sync_spec (ref : ActivitySettings) (rest : list ActivitySettings)
  (w : world) :
  (check_in_sync (ref :: rest) w = Some (true, w) /\
   forall e, e ∈ ref :: rest -> same_timeouts ref e)
  \/
  (exists (k : nat) e,
      (1 <= k)%nat /\ (ref :: rest) !! k = Some e /\ ~ same_timeouts ref e /\
      (forall (j : nat) e', (j < k)%nat -> (ref :: rest) !! j = Some e' ->
                            same_timeouts ref e') /\
      check_in_sync (ref :: rest) w = Some (false, emit (Warned e) w)).
Proof.
  unfold check_in_sync.
  destruct (1 <? Z.of_nat (length (ref :: rest))) eqn:Hlen.
  - cbn [array_get Z.leb Z.compare Z.to_nat lookup list_lookup mbind option_bind].
    destruct (in_sync_loop_spec (ref :: rest) ref w (length (ref :: rest)) 1
                ltac:(lia) ltac:(lia))
      as [[Hrun Hall] | (k & e & Hk & Hlook & Hne & Hbefore & Hrun)].
    + left. split; [exact Hrun |].
      intros e [j Hj]%list_elem_of_lookup_1.
      destruct j as [| j]; [injection Hj as <-; split; reflexivity |].
      apply (Hall (S j)); [lia | exact Hj].
    + right. exists k, e.
      split; [lia |]. split; [exact Hlook |]. split; [exact Hne |].
      split; [| exact Hrun].
      intros j e' Hj Hlook'.
      destruct j as [| j]; [injection Hlook' as <-; split; reflexivity |].
      apply (Hbefore (S j)); [lia | exact Hlook'].
  - left. split; [reflexivity |].
    apply Z.ltb_ge in Hlen. destruct rest as [| x rest]; [| simpl in Hlen; lia].
    intros e ->%list_elem_of_singleton. split; reflexivity.
Qed.

Lemma get_all_begin_unfold (st : state) :
  get_all_begin st =
  ([own_settings (node st)],
   {| node := emit (Raised (Ev_request
                      {| req_request_id := u8_incr (request_id (settings_collection st)) |}))
                   (node st);
      settings_collection :=
        {| settings := settings (settings_collection st);
           count := 0;
           request_id := u8_incr (request_id (settings_collection st)) |} |}).
Proof. reflexivity. Qed.

(** The central's get-all, step by step. *)
Lemma get_all_central `{ActivityBounds} (cfg : Kconfig) (arrivals : list zmk_event)
  (st : state) :
  is_central cfg = true ->
  collection_ok (settings_collection st) ->
  exists st1 b w',
    k_sleep cfg 100 arrivals (get_all_begin st).2 = Some st1 /\
    collection_ok (settings_collection st1) /\
    request_id (settings_collection st1) = u8_incr (request_id (settings_collection st)) /\
    check_in_sync
      (own_settings (node st) ::
       take (Z.to_nat (count (settings_collection st1))) (settings (settings_collection st1)))
      (node st1) = Some (b, w') /\
    handle_get_all_activity_settings cfg arrivals st =
    Some ((0, Response_get_all_activity_settings
                {| all_settings :=
                     own_settings (node st) ::
                     take (Z.to_nat (count (settings_collection st1)))
                          (settings (settings_collection st1));
                   in_sync := b |}),
          {| node := w'; settings_collection := settings_collection st1 |}).
Proof.
  intros Hcentral [Hlen Hcnt].
  unfold handle_get_all_activity_settings. rewrite Hcentral.
  rewrite get_all_begin_unfold. cbv beta iota zeta. cbn [snd].
  unfold k_sleep.
  match goal with |- context [deliver_all cfg arrivals ?s] =>
    destruct (deliver_all_ok cfg arrivals s) as (st1 & Hrun & Hok1 & Hid)
  end.
  { split; [exact Hlen | unfold MAX_PERIPHERALS; simpl; lia]. }
  cbn [settings_collection request_id with_node] in Hid.
  rewrite Hrun. cbn [mbind option_bind].
  assert (Hcopy :
    copy_collected (Z.to_nat MAX_PERIPHERALS) (settings_collection st1) 0
      [own_settings (node st)] =
    Some (own_settings (node st) ::
          take (Z.to_nat (count (settings_collection st1)))
               (settings (settings_collection st1)))).
  { destruct Hok1 as [Hlen1 Hcnt1].
    rewrite copy_collected_spec; unfold MAX_PERIPHERALS in *; try lia.
    replace (Z.min (count (settings_collection st1)) 8)
      with (count (settings_collection st1)) by lia.
    reflexivity. }
  fold (own_settings (node st)). rewrite Hcopy. cbn [mbind option_bind].
  destruct (check_in_sync_spec (own_settings (node st))
              (take (Z.to_nat (count (settings_collection st1)))
                    (settings (settings_collection st1))) (node st1))
    as [[Hchk _] | (k & e & _ & _ & _ & _ & Hchk)].
  - exists st1, true, (node st1). rewrite Hchk. cbn [mbind option_bind].
    auto.
  - exists st1, false, (emit (Warned e) (node st1)). rewrite Hchk.
    cbn [mbind option_bind]. auto.
Qed.

Lemma report_listener_not_for_session (eh : zmk_event) (st : state) :
  not_for_session (request_id (settings_collection st)) eh ->
  activity_settings_report_listener eh st = Some (ZMK_EV_EVENT_BUBBLE, st).
Proof.
  intros Hstale. destruct eh as [ev | ev | ev];
    try (apply report_listener_other_type; reflexivity).
  apply report_listener_stale, Hstale. reflexivity.
Qed.

Lemma deliver_not_for_session `{ActivityBounds} (cfg : Kconfig) (eh : zmk_event)
  (st : state) :
  not_for_session (request_id (settings_collection st)) eh ->
  exists st', deliver cfg eh st = Some st' /\
              settings_collection st' = settings_collection st.
Proof.
  intros Hstale. unfold deliver.
  set (st1 := if CONFIG_ZMK_SPLIT_RELAY_EVENT cfg then _ else st).
  assert (Hsc : settings_collection st1 = settings_collection st)
    by (subst st1; destruct (CONFIG_ZMK_SPLIT_RELAY_EVENT cfg); reflexivity).
  rewrite <- Hsc in Hstale. rewrite <- Hsc. clearbody st1.
  rewrite (report_listener_not_for_session eh st1 Hstale).
  destruct (is_central cfg), (is_peripheral cfg); simpl; eauto.
Qed.

Lemma deliver_all_not_for_session `{ActivityBounds} (cfg : Kconfig)
  (arrivals : list zmk_event) (st : state) :
  Forall (not_for_session (request_id (settings_collection st))) arrivals ->
  exists st', deliver_all cfg arrivals st = Some st' /\
              settings_collection st' = settings_collection st.
Proof.
  revert st. induction arrivals as [| eh rest IH]; intros st Hall.
  - exists st. split; reflexivity.
  - apply Forall_cons in Hall as [Hhd Htl]. simpl.
    destruct (deliver_not_for_session cfg eh st Hhd) as (st1 & Hrun & Hsc).
    rewrite Hrun. simpl. rewrite <- Hsc in Htl.
    destruct (IH st1 Htl) as (st2 & Hrest & Hsc2).
    exists st2. split; [exact Hrest | congruence].
Qed.

(** On the central a report is seen by the report listener alone. *)
Lemma deliver_report_central `{ActivityBounds} (cfg : Kconfig)
  (ev : zmk_activity_settings_report) (st : state) :
  is_central cfg = true ->
  deliver cfg (Ev_report ev) st =
  snd <$> activity_settings_report_listener (Ev_report ev) st.
Proof.
  intros Hcentral. unfold deliver. rewrite Hcentral.
  assert (Hper : is_peripheral cfg = false).
  { unfold is_central, is_peripheral in *.
    destruct (CONFIG_ZMK_SPLIT cfg), (CONFIG_ZMK_SPLIT_ROLE_CENTRAL cfg);
      simpl in *; congruence. }
  rewrite Hper.
  assert (Hnode : (if CONFIG_ZMK_SPLIT_RELAY_EVENT cfg
                   then with_node
                          (fun w => (activity_settings_changed_listener (Ev_report ev) w).2) st
                   else st) = st).
  { destruct (CONFIG_ZMK_SPLIT_RELAY_EVENT cfg); [| reflexivity].
    destruct st; reflexivity. }
  rewrite Hnode.
  destruct (activity_settings_report_listener (Ev_report ev) st) as [[v st'] |];
    reflexivity.
Qed.

(** C3: on the central, a report whose [request_id] differs from the
    current [settings_collection.request_id] leaves the whole state as it
    was, at the listener and through delivery.  A get-all first sets
    [count] to 0 and increments [request_id] (modulo 256), has exactly one
    entry, the central's own current value with source 0, and raises the
    request with the new id.  Whatever arrives during the wait that is
    not a report for the new id, reports of the superseded session among
    them, never shows in the result: it is that single entry. *)
Theorem stale_reports_rejected_and_get_all_resets `{ActivityBounds}
  (cfg : Kconfig) (st : state) :
  is_central cfg = true ->
  (forall ev, rep_request_id ev <> request_id (settings_collection st) ->
     activity_settings_report_listener (Ev_report ev) st =
       Some (ZMK_EV_EVENT_BUBBLE, st) /\
     deliver cfg (Ev_report ev) st = Some st) /\
  ((get_all_begin st).1 = [own_settings (node st)] /\
   count (settings_collection (get_all_begin st).2) = 0 /\
   request_id (settings_collection (get_all_begin st).2) =
     (request_id (settings_collection st) + 1) mod 256 /\
   effects (node (get_all_begin st).2) =
     effects (node st) ++
     [Raised (Ev_request
        {| req_request_id := (request_id (settings_collection st) + 1) mod 256 |})]) /\
  (forall ev, rep_request_id ev = request_id (settings_collection st) ->
     not_for_session ((request_id (settings_collection st) + 1) mod 256) (Ev_report ev)) /\
  (forall arrivals,
     Forall (not_for_session ((request_id (settings_collection st) + 1) mod 256))
            arrivals ->
     exists st',
       handle_get_all_activity_settings cfg arrivals st =
       Some ((0, Response_get_all_activity_settings
                   {| all_settings := [own_settings (node st)]; in_sync := true |}),
             st') /\
       count (settings_collection st') = 0 /\
       request_id (settings_collection st') =
         (request_id (settings_collection st) + 1) mod 256).
Proof.
  intros Hcentral. split; [| split; [| split]].
  - intros ev Hne. split; [apply report_listener_stale, Hne |].
    rewrite (deliver_report_central cfg ev st Hcentral).
    rewrite (report_listener_stale ev st Hne). reflexivity.
  - rewrite get_all_begin_unfold. simpl. auto.
  - intros ev Hid ev' [= <-]. rewrite Hid. symmetry. apply u8_incr_changes.
  - intros arrivals Hstale.
    unfold handle_get_all_activity_settings. rewrite Hcentral.
    rewrite get_all_begin_unfold. cbv beta iota zeta. unfold k_sleep.
    match goal with |- context [deliver_all cfg arrivals ?s] =>
      destruct (deliver_all_not_for_session cfg arrivals s Hstale)
        as (st1 & Hrun & Hsc)
    end.
    rewrite Hrun. cbn [mbind option_bind]. rewrite Hsc. simpl.
    eexists. split; [reflexivity |]. simpl. split; reflexivity.
Qed.

(** C3 on the scenario of the specification: the collection is in
    session 3, a get-all starts session 4, and a report for session 3
    that arrives during its wait is not in the result. *)
Lemma stale_reports_rejected_and_get_all_resets_witness :
  is_central central_cfg = true /\
  exists st',
    @handle_get_all_activity_settings day_bounds central_cfg
      [Ev_report late_report] session3 =
    Some ((0, Response_get_all_activity_settings
                {| all_settings := [own_settings world0]; in_sync := true |}), st') /\
    count (settings_collection st') = 0 /\
    request_id (settings_collection st') = 4.
Proof.
  split; [reflexivity |].
  destruct (@stale_reports_rejected_and_get_all_resets day_bounds central_cfg session3
              eq_refl) as (_ & _ & Hold & Hget).
  apply (Hget [Ev_report late_report]).
  constructor; [| constructor].
  apply Hold. reflexivity.
Defined.

(** The scenario of the specification, evaluated: central and follower A
    hold {30000, 900000}, follower B holds {10000, 900000}. *)
Example get_all_scenario_divergent :
  (fst <$> @handle_get_all_activity_settings day_bounds central_cfg reports_a_b bounded0)
  = Some (0, Response_get_all_activity_settings
               {| all_settings :=
                    [ {| idle_ms := 30000; sleep_ms := 900000; source := 0 |};
                      {| idle_ms := 30000; sleep_ms := 900000; source := 1 |};
                      {| idle_ms := 10000; sleep_ms := 900000; source := 2 |} ];
                  in_sync := false |}).
Proof. reflexivity. Qed.

Lemma get_all_ok `{ActivityBounds} (cfg : Kconfig) (arrivals : list zmk_event)
  (st : state) :
  collection_ok (settings_collection st) ->
  exists r st',
    handle_get_all_activity_settings cfg arrivals st =
      Some ((0, Response_get_all_activity_settings r), st') /\
    collection_ok (settings_collection st') /\
    (length (all_settings r) <= 9)%nat.
Proof.
  intros Hok. destruct (is_central cfg) eqn:Hcentral.
  - destruct (get_all_central cfg arrivals st Hcentral Hok)
      as (st1 & b & w' & _ & Hok1 & _ & _ & Hrun).
    eexists _, _. split; [exact Hrun |]. split; [exact Hok1 |].
    cbn [all_settings length]. rewrite length_take.
    destruct Hok1 as [_ Hcnt]. unfold MAX_PERIPHERALS in Hcnt. lia.
  - unfold handle_get_all_activity_settings. rewrite Hcentral.
    eexists _, _. split; [reflexivity |]. split; [exact Hok |]. simpl. lia.
Qed.

Lemma router_ok `{Nanopb} `{ActivityBounds} (cfg : Kconfig)
  (arrivals : list zmk_event) (raw : zmk_custom_CallRequest) (resp : Response)
  (st : state) :
  collection_ok (settings_collection st) ->
  exists out st',
    settings_rpc_handle_request cfg arrivals raw resp st = Some (out, st') /\
    collection_ok (settings_collection st').
Proof.
  intros Hok. unfold settings_rpc_handle_request.
  destruct (pb_decode (call_payload raw)) as [[| s | | tag] |].
  - simpl. eauto.
  - destruct (handle_set_activity_settings cfg s (node st)) as [[rc r] w] eqn:Hset.
    simpl. eauto.
  - destruct (get_all_ok cfg arrivals st Hok) as (r & st' & Hrun & Hok' & _).
    rewrite Hrun. simpl. eauto.
  - simpl. eauto.
  - eauto.
Qed.

Lemma reachable_ok `{Nanopb} `{ActivityBounds} (cfg : Kconfig) (st : state) :
  reachable cfg st -> collection_ok (settings_collection st).
Proof.
  induction 1 as [w | st st' eh _ IH Hrun | st st' arrivals raw resp out _ IH Hrun].
  - exact collection_init_ok.
  - destruct (deliver_ok cfg eh st IH) as (st2 & Hrun2 & Hok2 & _). congruence.
  - destruct (router_ok cfg arrivals raw resp st IH) as (out2 & st2 & Hrun2 & Hok2).
    congruence.
Qed.

(** C10: in every state the central can reach, [count] is between 0 and
    [MAX_PERIPHERALS] = 8 and the array has its 9 slots.  There the report
    listener never indexes outside the array (it returns, and bubbles);
    it either leaves the state as it was or, only when [count] is below 8,
    writes the report at index [count] and adds one to [count]; with
    [count] at 8 every event leaves the state as it was.  A get-all
    returns normally, with at most 9 entries. *)
Theorem collection_stays_within_max `{Nanopb} `{ActivityBounds}
  (cfg : Kconfig) (st : state) :
  reachable cfg st ->
  (0 <= count (settings_collection st) <= 8 /\
   length (settings (settings_collection st)) = 9%nat) /\
  (forall eh, exists st',
     activity_settings_report_listener eh st = Some (ZMK_EV_EVENT_BUBBLE, st') /\
     (st' = st \/
      exists ev,
        eh = Ev_report ev /\
        0 <= count (settings_collection st) < 8 /\
        node st' = node st /\
        request_id (settings_collection st') = request_id (settings_collection st) /\
        count (settings_collection st') = count (settings_collection st) + 1 /\
        settings (settings_collection st') =
          <[Z.to_nat (count (settings_collection st)) := entry_of ev]>
            (settings (settings_collection st)))) /\
  (forall eh, count (settings_collection st) = 8 ->
     activity_settings_report_listener eh st = Some (ZMK_EV_EVENT_BUBBLE, st)) /\
  (forall arrivals, exists r st',
     handle_get_all_activity_settings cfg arrivals st =
       Some ((0, Response_get_all_activity_settings r), st') /\
     0 <= count (settings_collection st') <= 8 /\
     (length (all_settings r) <= 9)%nat).
Proof.
  intros Hreach. pose proof (reachable_ok cfg st Hreach) as Hok.
  split; [| split; [| split]].
  - destruct Hok as [Hlen Hcnt]. unfold MAX_PERIPHERALS in Hcnt. auto.
  - intros eh.
    destruct (report_listener_cases eh st Hok) as [Hsame | (ev & -> & _ & Hroom & Happ)].
    + exists st. auto.
    + eexists. split; [exact Happ |]. right. exists ev.
      destruct Hok as [_ Hcnt]. unfold MAX_PERIPHERALS in *. simpl.
      repeat split; lia.
  - intros eh Hfull. apply report_listener_full. unfold MAX_PERIPHERALS. lia.
  - intros arrivals.
    destruct (get_all_ok cfg arrivals st Hok) as (r & st' & Hrun & [_ Hcnt] & Hlen).
    exists r, st'. unfold MAX_PERIPHERALS in Hcnt. auto.
Qed.

(** The ninth report is dropped: eight are collected, nine entries are
    returned with the central's own. *)
Example get_all_ninth_report_dropped :
  (fun out => (length (all_settings
                 match out.1.2 with
                 | Response_get_all_activity_settings r => r
                 | _ => {| all_settings := []; in_sync := false |}
                 end),
               count (settings_collection out.2)))
  <$> @handle_get_all_activity_settings day_bounds central_cfg nine_reports bounded0
  = Some (9%nat, 8).
Proof. reflexivity. Qed.

(** C10 at boot, on the central. *)
Lemma collection_stays_within_max_witness :
  @reachable empty_only_decoder day_bounds central_cfg bounded0 /\
  0 <= count (settings_collection bounded0) <= 8 /\
  exists r st',
    @handle_get_all_activity_settings day_bounds central_cfg nine_reports bounded0 =
      Some ((0, Response_get_all_activity_settings r), st') /\
    0 <= count (settings_collection st') <= 8 /\
    (length (all_settings r) <= 9)%nat.
Proof.
  assert (Hboot : @reachable empty_only_decoder day_bounds central_cfg bounded0)
    by apply (@reach_boot empty_only_decoder day_bounds central_cfg world0).
  split; [exact Hboot |].
  destruct (@collection_stays_within_max empty_only_decoder day_bounds central_cfg
              bounded0 Hboot) as ([Hcnt _] & _ & _ & Hget).
  split; [exact Hcnt | apply Hget].
Defined.

(* ===================================================================== *)
(** ** The streamed collection and the follower's answer *)
(* ===================================================================== *)

Lemma peripheral_not_central (cfg : Kconfig) :
  is_peripheral cfg = true -> is_central cfg = false.
Proof.
  unfold is_central, is_peripheral.
  destruct (CONFIG_ZMK_SPLIT cfg), (CONFIG_ZMK_SPLIT_ROLE_CENTRAL cfg);
    simpl; congruence.
Qed.

Lemma central_not_peripheral (cfg : Kconfig) :
  is_central cfg = true -> is_peripheral cfg = false.
Proof.
  unfold is_central, is_peripheral.
  destruct (CONFIG_ZMK_SPLIT cfg), (CONFIG_ZMK_SPLIT_ROLE_CENTRAL cfg);
    simpl; congruence.
Qed.

(** C5, as the specification words it, fails off the central: on a
    keyboard that is not split the streamed get-all notifies the node's
    own settings and answers [request_sent = true] with 0, yet it
    publishes no request, and nothing else either. *)
Lemma streamed_get_all_publishes_no_request_off_the_central :
  is_central no_relay_cfg = false /\
  Streamed.handle_get_all_activity_settings no_relay_cfg streamed0 =
    ((0, Response_get_all_activity_settings {| Streamed.request_sent := true |}),
     {| Streamed.node :=
          {| store := store world0;
             effects := [Notified 0 {| idle_ms := 30000; sleep_ms := 900000;
                                       source := 0 |}] |};
        Streamed.subsystem_index := 0 |}) /\
  raised_events
    (Streamed.node (Streamed.handle_get_all_activity_settings no_relay_cfg streamed0).2)
  = [].
Proof. split; [| split]; reflexivity. Qed.

(** C5, amended: in every build the streamed get-all first notifies the
    node's own current timeouts with source 0; it then raises a settings
    request (with [request_id] 0) if and only if the build is the central
    of a split keyboard, and does nothing more; it does not sleep, and
    returns 0 with [request_sent = true] in every build.  The report
    listener turns every report, whatever its [request_id], into one
    notification with the report's timeouts and source, and changes
    nothing else: there is no session and no verdict.  Through delivery on
    the central a report does exactly that. *)
Theorem streamed_get_all_notifies_then_requests `{ActivityBounds}
  (cfg : Kconfig) (st : Streamed.state) :
  Streamed.handle_get_all_activity_settings cfg st =
    ((0, Response_get_all_activity_settings {| Streamed.request_sent := true |}),
     {| Streamed.node :=
          {| store := store (Streamed.node st);
             effects := effects (Streamed.node st) ++
                        Notified (Streamed.subsystem_index st)
                                 (own_settings (Streamed.node st)) ::
                        (if is_central cfg
                         then [Raised (Ev_request {| req_request_id := 0 |})]
                         else []) |};
        Streamed.subsystem_index := Streamed.subsystem_index st |}) /\
  (raised_events
     (Streamed.node (Streamed.handle_get_all_activity_settings cfg st).2) =
   raised_events (Streamed.node st) ++
   (if is_central cfg then [Ev_request {| req_request_id := 0 |}] else [])) /\
  (forall ev,
     Streamed.activity_settings_report_listener (Ev_report ev) st =
       (ZMK_EV_EVENT_BUBBLE,
        {| Streamed.node :=
             {| store := store (Streamed.node st);
                effects := effects (Streamed.node st) ++
                           [Notified (Streamed.subsystem_index st) (entry_of ev)] |};
           Streamed.subsystem_index := Streamed.subsystem_index st |}) /\
     (is_central cfg = true ->
      Streamed.deliver cfg (Ev_report ev) st =
        (Streamed.activity_settings_report_listener (Ev_report ev) st).2)).
Proof.
  assert (Hget :
    Streamed.handle_get_all_activity_settings cfg st =
    ((0, Response_get_all_activity_settings {| Streamed.request_sent := true |}),
     {| Streamed.node :=
          {| store := store (Streamed.node st);
             effects := effects (Streamed.node st) ++
                        Notified (Streamed.subsystem_index st)
                                 (own_settings (Streamed.node st)) ::
                        (if is_central cfg
                         then [Raised (Ev_request {| req_request_id := 0 |})]
                         else []) |};
        Streamed.subsystem_index := Streamed.subsystem_index st |})).
  { unfold Streamed.handle_get_all_activity_settings,
      Streamed.send_activity_settings_notification, Streamed.with_node,
      raise_zmk_activity_settings_request, emit.
    destruct (is_central cfg); cbn; [rewrite <- app_assoc |]; reflexivity. }
  split; [exact Hget |]. split.
  - rewrite Hget. cbn [snd Streamed.node]. rewrite raised_events_app.
    destruct (is_central cfg); reflexivity.
  - intros ev. split; [reflexivity |]. intros Hcentral.
    unfold Streamed.deliver. rewrite Hcentral, (central_not_peripheral cfg Hcentral).
    destruct (CONFIG_ZMK_SPLIT_RELAY_EVENT cfg); [| reflexivity].
    destruct st; reflexivity.
Qed.

(** C5 at boot.  On the central: own settings notified first, then the
    request; a report for a session that never was (id 77) is notified all
    the same.  On a peripheral: the notification alone. *)
Lemma streamed_get_all_notifies_then_requests_witness :
  is_central central_cfg = true /\
  effects (Streamed.node (Streamed.handle_get_all_activity_settings central_cfg streamed0).2)
  = [Notified 0 {| idle_ms := 30000; sleep_ms := 900000; source := 0 |};
     Raised (Ev_request {| req_request_id := 0 |})] /\
  effects (Streamed.node
     (@Streamed.deliver day_bounds central_cfg
        (Ev_report {| rep_idle_ms := 10000; rep_sleep_ms := 900000; rep_source := 2;
                      rep_request_id := 77 |}) streamed0))
  = [Notified 0 {| idle_ms := 10000; sleep_ms := 900000; source := 2 |}] /\
  effects (Streamed.node
     (Streamed.handle_get_all_activity_settings peripheral_cfg streamed0).2)
  = [Notified 0 {| idle_ms := 30000; sleep_ms := 900000; source := 0 |}].
Proof.
  split; [reflexivity |].
  destruct (@streamed_get_all_notifies_then_requests day_bounds central_cfg streamed0)
    as (Hget & _ & Hrep).
  split; [rewrite Hget; reflexivity |]. split.
  - destruct (Hrep {| rep_idle_ms := 10000; rep_sleep_ms := 900000; rep_source := 2;
                      rep_request_id := 77 |}) as [Hlis Hdel].
    rewrite (Hdel eq_refl), Hlis. reflexivity.
  - destruct (@streamed_get_all_notifies_then_requests day_bounds peripheral_cfg
                streamed0) as (Hget' & _).
    rewrite Hget'. reflexivity.
Defined.

(** C7: handed a settings request, the request listener raises exactly
    one report and does nothing else: the report carries the node's
    stored idle and sleep timeouts, the self-origin marker as source, and
    the [request_id] of the request.  On a peripheral both get-all
    revisions deliver a request to this same listener, with this same
    outcome. *)
Theorem request_listener_reports_own_settings `{ActivityBounds}
  (cfg : Kconfig) (ev : zmk_activity_settings_request) (w : world) :
  activity_settings_request_listener (Ev_request ev) w =
    (ZMK_EV_EVENT_BUBBLE,
     {| store := store w;
        effects := effects w ++ [Raised (Ev_report (report_for ev w))] |}) /\
  raised_events (activity_settings_request_listener (Ev_request ev) w).2 =
    raised_events w ++ [Ev_report (report_for ev w)] /\
  (is_peripheral cfg = true ->
   forall (c : Bounded.settings_collection_t) (idx : Z),
     Bounded.deliver cfg (Ev_request ev)
       {| Bounded.node := w; Bounded.settings_collection := c |} =
     Some {| Bounded.node := (activity_settings_request_listener (Ev_request ev) w).2;
             Bounded.settings_collection := c |} /\
     Streamed.deliver cfg (Ev_request ev)
       {| Streamed.node := w; Streamed.subsystem_index := idx |} =
     {| Streamed.node := (activity_settings_request_listener (Ev_request ev) w).2;
        Streamed.subsystem_index := idx |}).
Proof.
  split; [reflexivity |]. split.
  - unfold activity_settings_request_listener, raise_zmk_activity_settings_report, emit.
    cbn [as_zmk_activity_settings_request snd].
    rewrite raised_events_app. reflexivity.
  - intros Hper c idx.
    unfold Bounded.deliver, Streamed.deliver.
    rewrite Hper, (peripheral_not_central cfg Hper).
    destruct (CONFIG_ZMK_SPLIT_RELAY_EVENT cfg); split; reflexivity.
Qed.

(** C7 on a peripheral holding the defaults, asked in session 4. *)
Lemma request_listener_reports_own_settings_witness :
  is_peripheral peripheral_cfg = true /\
  raised_events
    (activity_settings_request_listener (Ev_request {| req_request_id := 4 |}) world0).2
  = [Ev_report {| rep_idle_ms := 30000; rep_sleep_ms := 900000;
                  rep_source := 255; rep_request_id := 4 |}] /\
  Streamed.node
    (@Streamed.deliver day_bounds peripheral_cfg (Ev_request {| req_request_id := 4 |})
       streamed0)
  = (activity_settings_request_listener (Ev_request {| req_request_id := 4 |}) world0).2.
Proof.
  split; [reflexivity |].
  destruct (@request_listener_reports_own_settings day_bounds peripheral_cfg
              {| req_request_id := 4 |} world0) as (_ & Hraised & Hdel).
  split; [exact Hraised |].
  destruct (Hdel eq_refl Bounded.settings_collection_init 0) as [_ Hs].
  unfold streamed0. rewrite Hs. reflexivity.
Defined.

(* ===================================================================== *)
(** ** Further properties of the bounded collection *)
(* ===================================================================== *)

Lemma same_timeoutsb_spec (ref e : ActivitySettings) :
  same_timeoutsb ref e = true <-> same_timeouts ref e.
Proof.
  unfold same_timeoutsb, same_timeouts.
  rewrite andb_true_iff, !Z.eqb_eq. reflexivity.
Qed.

Lemma take_take_app {A} (n : nat) (l k : list A) :
  take n (take n l ++ k) = take n (l ++ k).
Proof.
  destruct (decide (n <= length l)%nat) as [Hle | Hgt].
  - rewrite (take_app_le l k n Hle).
    rewrite take_app_le by (rewrite length_take; lia).
    apply take_idemp.
  - rewrite (take_ge l n) by lia. reflexivity.
Qed.

Lemma collected_length (c : settings_collection_t) :
  collection_ok c -> length (collected c) = Z.to_nat (count c).
Proof.
  intros [Hlen Hcnt]. unfold collected, MAX_PERIPHERALS in *.
  rewrite length_take. lia.
Qed.

(** One event at the report listener: the slots in use grow by what the
    event contributes to the current session, up to eight. *)
Lemma report_listener_collected (eh : zmk_event) (st : state) :
  collection_ok (settings_collection st) ->
  exists st',
    activity_settings_report_listener eh st = Some (ZMK_EV_EVENT_BUBBLE, st') /\
    collection_ok (settings_collection st') /\
    node st' = node st /\
    request_id (settings_collection st') = request_id (settings_collection st) /\
    collected (settings_collection st') =
      take 8 (collected (settings_collection st) ++
              matching_entries (request_id (settings_collection st)) [eh]).
Proof.
  intros Hok. pose proof (collected_length _ Hok) as Hcl.
  assert (Hnone : collected (settings_collection st) =
                  take 8 (collected (settings_collection st) ++ [])).
  { rewrite app_nil_r. symmetry. apply take_ge.
    destruct Hok as [_ Hcnt]. unfold MAX_PERIPHERALS in Hcnt. lia. }
  assert (Hfullk : forall k, count (settings_collection st) = 8 ->
            collected (settings_collection st) =
            take 8 (collected (settings_collection st) ++ k)).
  { intros k Hfull. rewrite Hfull in Hcl. change (Z.to_nat 8) with 8%nat in Hcl.
    rewrite take_app_le by (rewrite Hcl; reflexivity).
    symmetry. apply take_ge. rewrite Hcl. reflexivity. }
  assert (Hkeep : forall k,
            collected (settings_collection st) =
              take 8 (collected (settings_collection st) ++ k) ->
            activity_settings_report_listener eh st = Some (ZMK_EV_EVENT_BUBBLE, st) ->
            exists st',
              activity_settings_report_listener eh st = Some (ZMK_EV_EVENT_BUBBLE, st') /\
              collection_ok (settings_collection st') /\
              node st' = node st /\
              request_id (settings_collection st') = request_id (settings_collection st) /\
              collected (settings_collection st') =
                take 8 (collected (settings_collection st) ++ k)).
  { intros k Hk Hrun. exists st. auto. }
  pose proof Hok as [Hlen Hcnt]. unfold MAX_PERIPHERALS in Hcnt.
  destruct eh as [ev | ev | ev].
  1, 2: apply (Hkeep []); [exact Hnone | apply report_listener_other_type; reflexivity].
  unfold matching_entries. simpl.
  destruct (rep_request_id ev =? request_id (settings_collection st)) eqn:Hid.
  - apply Z.eqb_eq in Hid.
    destruct (Z_lt_le_dec (count (settings_collection st)) MAX_PERIPHERALS)
      as [Hroom | Hfull]; unfold MAX_PERIPHERALS in *.
    + rewrite report_listener_append by assumption.
      eexists. split; [reflexivity |]. unfold collection_ok.
      cbn [settings_collection settings count request_id node].
      split; [split; [rewrite length_insert; exact Hlen
                     | unfold MAX_PERIPHERALS; lia] |].
      split; [reflexivity |]. split; [reflexivity |].
      unfold collected. cbn [settings count].
      replace (Z.to_nat (count (settings_collection st) + 1))
        with (S (Z.to_nat (count (settings_collection st)))) by lia.
      rewrite (take_S_r _ _ (entry_of ev))
        by (apply list_lookup_insert_eq; lia).
      rewrite take_insert_ge by lia.
      symmetry. apply take_ge. rewrite length_app, length_take. simpl. lia.
    + apply Hkeep; [apply Hfullk; lia | apply report_listener_full; exact Hfull].
  - apply Z.eqb_neq in Hid.
    apply Hkeep; [exact Hnone | apply report_listener_stale; exact Hid].
Qed.

Lemma matching_entries_cons (id : Z) (eh : zmk_event) (rest : list zmk_event) :
  matching_entries id (eh :: rest) =
  matching_entries id [eh] ++ matching_entries id rest.
Proof. apply (omap_app _ [eh] rest). Qed.

Lemma deliver_collected `{ActivityBounds} (cfg : Kconfig) (eh : zmk_event)
  (st : state) :
  is_central cfg = true ->
  collection_ok (settings_collection st) ->
  exists st',
    deliver cfg eh st = Some st' /\
    collection_ok (settings_collection st') /\
    request_id (settings_collection st') = request_id (settings_collection st) /\
    collected (settings_collection st') =
      take 8 (collected (settings_collection st) ++
              matching_entries (request_id (settings_collection st)) [eh]).
Proof.
  intros Hcentral Hok. unfold deliver.
  rewrite Hcentral, (central_not_peripheral cfg Hcentral).
  set (st1 := if CONFIG_ZMK_SPLIT_RELAY_EVENT cfg then _ else st).
  assert (Hsc : settings_collection st1 = settings_collection st)
    by (subst st1; destruct (CONFIG_ZMK_SPLIT_RELAY_EVENT cfg); reflexivity).
  rewrite <- Hsc in Hok. rewrite <- Hsc. clearbody st1.
  destruct (report_listener_collected eh st1 Hok)
    as (st2 & Hrun & Hok2 & _ & Hid & Hcol).
  rewrite Hrun. simpl. eauto.
Qed.

Lemma deliver_all_collected `{ActivityBounds} (cfg : Kconfig)
  (arrivals : list zmk_event) (st : state) :
  is_central cfg = true ->
  collection_ok (settings_collection st) ->
  exists st',
    deliver_all cfg arrivals st = Some st' /\
    collection_ok (settings_collection st') /\
    request_id (settings_collection st') = request_id (settings_collection st) /\
    collected (settings_collection st') =
      take 8 (collected (settings_collection st) ++
              matching_entries (request_id (settings_collection st)) arrivals).
Proof.
  intros Hcentral. revert st.
  induction arrivals as [| eh rest IH]; intros st Hok.
  - exists st. split; [reflexivity |]. split; [exact Hok |]. split; [reflexivity |].
    unfold matching_entries. simpl. rewrite app_nil_r. symmetry. apply take_ge.
    rewrite (collected_length _ Hok).
    destruct Hok as [_ Hcnt]. unfold MAX_PERIPHERALS in Hcnt. lia.
  - simpl.
    destruct (deliver_collected cfg eh st Hcentral Hok)
      as (st1 & Hrun & Hok1 & Hid1 & Hcol1).
    rewrite Hrun. simpl.
    destruct (IH st1 Hok1) as (st2 & Hrest & Hok2 & Hid2 & Hcol2).
    exists st2. split; [exact Hrest |]. split; [exact Hok2 |].
    split; [rewrite Hid2; exact Hid1 |].
    rewrite Hcol2, Hcol1, Hid1, take_take_app, <- app_assoc.
    rewrite <- matching_entries_cons. reflexivity.
Qed.

(** The verdict of [check_in_sync] is [all_same_as_first], whatever the
    node. *)
Lemma check_in_sync_verdict (all : list ActivitySettings) (w w' : world) (b : bool) :
  check_in_sync all w = Some (b, w') -> b = all_same_as_first all.
Proof.
  destruct all as [| ref rest].
  - unfold check_in_sync. simpl. congruence.
  - intros Hrun. unfold all_same_as_first.
    destruct (check_in_sync_spec ref rest w)
      as [[Hchk Hall] | (k & e & Hk & Hlook & Hne & _ & Hchk)];
      rewrite Hchk in Hrun; injection Hrun as <- _.
    + symmetry. apply forallb_forall. intros e Hin.
      apply same_timeoutsb_spec, Hall. apply list_elem_of_In in Hin.
      apply list_elem_of_further, Hin.
    + symmetry. apply not_true_iff_false. intros Hall.
      apply Hne, same_timeoutsb_spec.
      rewrite forallb_forall in Hall. apply Hall.
      destruct k as [| k]; [lia |]. apply list_elem_of_In.
      apply list_elem_of_lookup_2 with k. exact Hlook.
Qed.

(* ===================================================================== *)
(** ** The in-sync verdict *)
(* ===================================================================== *)

Lemma warned_app (s : activity) (w : world) (es : list effect) :
  warned {| store := s; effects := effects w ++ es |} =
  warned w ++ omap (fun e => match e with Warned x => Some x | _ => None end) es.
Proof. unfold warned. simpl. apply omap_app. Qed.

Lemma warned_emit (e : effect) (w : world) :
  warned (emit e w) = warned w ++ match e with Warned x => [x] | _ => [] end.
Proof. unfold emit. rewrite warned_app. destruct e; reflexivity. Qed.

Lemma warned_changed_listener `{ActivityBounds} (eh : zmk_event) (w : world) :
  warned (activity_settings_changed_listener eh w).2 = warned w.
Proof.
  destruct eh as [ev | ev | ev]; try reflexivity.
  destruct (Z.eq_dec (chg_source ev) ZMK_RELAY_EVENT_SOURCE_SELF) as [Hs | Hs].
  - rewrite (changed_listener_self _ _ Hs). reflexivity.
  - rewrite (changed_listener_relayed _ _ Hs). cbn [snd].
    rewrite warned_app. simpl. apply app_nil_r.
Qed.

(** Delivery on the central warns about nothing. *)
Lemma deliver_warned `{ActivityBounds} (cfg : Kconfig) (eh : zmk_event)
  (st st' : state) :
  is_central cfg = true ->
  collection_ok (settings_collection st) ->
  deliver cfg eh st = Some st' ->
  warned (node st') = warned (node st).
Proof.
  intros Hcentral Hok. unfold deliver.
  rewrite Hcentral, (central_not_peripheral cfg Hcentral).
  set (st1 := if CONFIG_ZMK_SPLIT_RELAY_EVENT cfg then _ else st).
  assert (Hsc : settings_collection st1 = settings_collection st)
    by (subst st1; destruct (CONFIG_ZMK_SPLIT_RELAY_EVENT cfg); reflexivity).
  assert (Hw : warned (node st1) = warned (node st)).
  { subst st1. destruct (CONFIG_ZMK_SPLIT_RELAY_EVENT cfg); [| reflexivity].
    unfold with_node. cbn [node]. apply warned_changed_listener. }
  rewrite <- Hsc in Hok. rewrite <- Hw. clearbody st1.
  destruct (report_listener_collected eh st1 Hok) as (st2 & Hrun & _ & Hnode & _).
  rewrite Hrun. simpl. intros [= <-]. rewrite Hnode. reflexivity.
Qed.

Lemma deliver_all_warned `{ActivityBounds} (cfg : Kconfig)
  (arrivals : list zmk_event) (st st' : state) :
  is_central cfg = true ->
  collection_ok (settings_collection st) ->
  deliver_all cfg arrivals st = Some st' ->
  warned (node st') = warned (node st).
Proof.
  intros Hcentral. revert st.
  induction arrivals as [| eh rest IH]; intros st Hok.
  - intros [= <-]. reflexivity.
  - simpl.
    destruct (deliver_collected cfg eh st Hcentral Hok) as (st1 & Hrun & Hok1 & _).
    rewrite Hrun. simpl. intros Hrest.
    rewrite (IH st1 Hok1 Hrest). apply (deliver_warned cfg eh st st1 Hcentral Hok Hrun).
Qed.

(** C4: from any state in which the collection has its shape (every
    reachable state has, see [reachable_ok]), whatever arrives during the
    wait and in every build, the get-all returns 0 with a response whose
    sequence is the caller's own entry followed by the collected entries:
    on the central the entries of the first eight reports of the wait that
    carry the new session id, in arrival order, and none elsewhere.
    [in_sync] is true if and only if every entry of that sequence has the
    idle and the sleep timeout of the first.  A sequence of exactly one
    entry gives true, and nothing arriving gives exactly one entry; one
    collected entry that differs from the first gives false.  When
    [in_sync] is true the handler warns about nothing.  When it is false
    there is a first index, at least 1, whose entry differs from the first
    entry; the handler warns about that entry and no other, and the
    warning is the last thing it does. *)
Theorem get_all_in_sync_iff_all_equal_first `{ActivityBounds}
  (cfg : Kconfig) (arrivals : list zmk_event) (st : state) :
  collection_ok (settings_collection st) ->
  exists r st' rest,
    handle_get_all_activity_settings cfg arrivals st =
      Some ((0, Response_get_all_activity_settings r), st') /\
    rest = (if is_central cfg
            then take 8 (matching_entries
                           ((request_id (settings_collection st) + 1) mod 256) arrivals)
            else []) /\
    all_settings r = own_settings (node st) :: rest /\
    (in_sync r = true <->
     forall e, e ∈ all_settings r -> same_timeouts (own_settings (node st)) e) /\
    (rest = [] -> in_sync r = true) /\
    (arrivals = [] -> rest = []) /\
    (forall e, e ∈ rest -> ~ same_timeouts (own_settings (node st)) e ->
               in_sync r = false) /\
    (in_sync r = true -> warned (node st') = warned (node st)) /\
    (in_sync r = false ->
     exists (k : nat) e,
       (1 <= k)%nat /\ all_settings r !! k = Some e /\
       ~ same_timeouts (own_settings (node st)) e /\
       (forall (j : nat) e', (j < k)%nat -> all_settings r !! j = Some e' ->
                             same_timeouts (own_settings (node st)) e') /\
       last (effects (node st')) = Some (Warned e) /\
       warned (node st') = warned (node st) ++ [e]).
Proof.
  intros Hok. destruct (is_central cfg) eqn:Hcentral.
  - destruct (get_all_central cfg arrivals st Hcentral Hok)
      as (st1 & b & w' & Hsleep & _ & _ & Hchk & Hrun).
    unfold k_sleep in Hsleep. rewrite get_all_begin_unfold in Hsleep.
    cbn [snd] in Hsleep.
    match type of Hsleep with deliver_all cfg arrivals ?s = _ =>
      assert (Hok0 : collection_ok (settings_collection s))
        by (destruct Hok as [Hlen Hcnt]; split; [exact Hlen |];
            unfold MAX_PERIPHERALS; simpl; lia);
      destruct (deliver_all_collected cfg arrivals s Hcentral Hok0)
        as (st2 & Hrun2 & _ & _ & Hcol);
      pose proof (deliver_all_warned cfg arrivals s st1 Hcentral Hok0 Hsleep) as Hwarn
    end.
    rewrite Hsleep in Hrun2. injection Hrun2 as <-.
    unfold collected in Hcol at 1 2.
    cbn [with_node settings_collection count request_id settings Z.to_nat take app]
      in Hcol.
    rewrite Hcol in Hchk, Hrun.
    cbn [with_node node] in Hwarn. rewrite !warned_emit, !app_nil_r in Hwarn.
    set (rest := take 8 _) in Hchk, Hrun.
    eexists _, _, rest. split; [exact Hrun |]. cbn [all_settings in_sync node].
    split; [reflexivity |]. split; [reflexivity |].
    assert (Hempty : arrivals = [] -> rest = []) by (intros ->; reflexivity).
    destruct (check_in_sync_spec (own_settings (node st)) rest (node st1))
      as [[Hchk' Hall] | (k & e & Hk & Hlook & Hne & Hbefore & Hchk')];
      rewrite Hchk' in Hchk; injection Hchk as <- <-.
    + split; [split; [intros _; exact Hall | reflexivity] |].
      split; [reflexivity |]. split; [exact Hempty |].
      split.
      { intros e Hin Hne. exfalso. apply Hne, Hall, list_elem_of_further, Hin. }
      split; [intros _; exact Hwarn | discriminate].
    + split; [split; [discriminate |] |].
      { intros Hall. exfalso. apply Hne, Hall.
        apply list_elem_of_lookup_2 with k. exact Hlook. }
      split.
      { intros Hnil. rewrite Hnil in Hlook.
        destruct k as [| [| k]]; [lia | discriminate | discriminate]. }
      split; [exact Hempty |].
      split; [reflexivity |]. split; [discriminate |]. intros _.
      exists k, e. split; [exact Hk |]. split; [exact Hlook |].
      split; [exact Hne |]. split; [exact Hbefore |].
      split; [unfold emit; cbn [effects]; apply last_snoc |].
      rewrite warned_emit, Hwarn. reflexivity.
  - unfold handle_get_all_activity_settings. rewrite Hcentral.
    eexists _, _, []. split; [reflexivity |]. cbn [all_settings in_sync].
    split; [reflexivity |]. split; [reflexivity |].
    split; [split; [| reflexivity] |].
    { intros _ e ->%list_elem_of_singleton. split; reflexivity. }
    split; [reflexivity |]. split; [reflexivity |].
    split; [intros e Hin; apply elem_of_nil in Hin; contradiction |].
    split; [reflexivity | discriminate].
Qed.

(** C4 on the scenario of the specification: central and follower A hold
    {30000, 900000}, follower B holds {10000, 900000}.  The sequence is
    the three entries, the verdict is false, and the entry of B is the one
    warned about. *)
Lemma get_all_in_sync_iff_all_equal_first_witness :
  collection_ok (settings_collection bounded0) /\
  exists r st',
    @handle_get_all_activity_settings day_bounds central_cfg reports_a_b bounded0 =
      Some ((0, Response_get_all_activity_settings r), st') /\
    all_settings r =
      [ {| idle_ms := 30000; sleep_ms := 900000; source := 0 |};
        {| idle_ms := 30000; sleep_ms := 900000; source := 1 |};
        {| idle_ms := 10000; sleep_ms := 900000; source := 2 |} ] /\
    in_sync r = false /\
    warned (node st') = [ {| idle_ms := 10000; sleep_ms := 900000; source := 2 |} ].
Proof.
  split; [exact collection_init_ok |].
  destruct (@get_all_in_sync_iff_all_equal_first day_bounds central_cfg reports_a_b
              bounded0 collection_init_ok)
    as (r & st' & rest & Hrun & Hrest & Hall & _ & _ & _ & Hdiv & _ & Hfalse).
  vm_compute in Hrest. subst rest.
  change (own_settings (node bounded0))
    with {| idle_ms := 30000; sleep_ms := 900000; source := 0 |} in *.
  assert (Hsync : in_sync r = false).
  { apply (Hdiv {| idle_ms := 10000; sleep_ms := 900000; source := 2 |}).
    - apply list_elem_of_further, list_elem_of_here.
    - intros [Hidle _]. discriminate Hidle. }
  exists r, st'. split; [exact Hrun |]. split; [exact Hall |].
  split; [exact Hsync |].
  destruct (Hfalse Hsync) as (k & e & Hk & Hlook & Hne & _ & _ & Hwarn).
  rewrite Hall in Hlook.
  destruct k as [| [| [| k]]]; [lia | | | discriminate Hlook].
  - injection Hlook as <-. exfalso. apply Hne. split; reflexivity.
  - injection Hlook as <-. exact Hwarn.
Defined.

(** X1: on the central, from any state in which the collection has its
    shape, a bounded get-all returns the caller's own entry followed by
    the entries of the first eight events of its wait that are reports
    carrying the new session id, in arrival order, and its [in_sync] says
    whether all of them have the timeouts of the first.  Other events,
    reports with another id, a ninth report, and whatever the array held
    before do not show. *)
Theorem get_all_returns_first_eight_matching_reports `{ActivityBounds}
  (cfg : Kconfig) (arrivals : list zmk_event) (st : state) :
  is_central cfg = true ->
  collection_ok (settings_collection st) ->
  let all := own_settings (node st) ::
             take 8 (matching_entries
                       ((request_id (settings_collection st) + 1) mod 256) arrivals) in
  exists st',
    handle_get_all_activity_settings cfg arrivals st =
    Some ((0, Response_get_all_activity_settings
                {| all_settings := all; in_sync := all_same_as_first all |}),
          st').
Proof.
  intros Hcentral Hok. cbv zeta.
  destruct (get_all_central cfg arrivals st Hcentral Hok)
    as (st1 & b & w' & Hsleep & _ & _ & Hchk & Hrun).
  unfold k_sleep in Hsleep. rewrite get_all_begin_unfold in Hsleep. cbn [snd] in Hsleep.
  match type of Hsleep with deliver_all cfg arrivals ?s = _ =>
    destruct (deliver_all_collected cfg arrivals s Hcentral)
      as (st2 & Hrun2 & _ & _ & Hcol)
  end.
  { destruct Hok as [Hlen Hcnt]. split; [exact Hlen |].
    unfold MAX_PERIPHERALS. simpl. lia. }
  rewrite Hsleep in Hrun2. injection Hrun2 as <-.
  unfold collected in Hcol at 1 2.
  cbn [with_node settings_collection count request_id settings Z.to_nat take app] in Hcol.
  rewrite Hcol in Hchk, Hrun.
  apply check_in_sync_verdict in Hchk. subst b.
  eexists. exact Hrun.
Qed.

(** X1 on the scenario: both followers answer session 1. *)
Lemma get_all_returns_first_eight_matching_reports_witness :
  is_central central_cfg = true /\
  collection_ok (settings_collection bounded0) /\
  exists st',
    @handle_get_all_activity_settings day_bounds central_cfg reports_a_b bounded0 =
    Some ((0, Response_get_all_activity_settings
                {| all_settings :=
                     [ {| idle_ms := 30000; sleep_ms := 900000; source := 0 |};
                       {| idle_ms := 30000; sleep_ms := 900000; source := 1 |};
                       {| idle_ms := 10000; sleep_ms := 900000; source := 2 |} ];
                   in_sync := false |}), st').
Proof.
  split; [reflexivity |]. split; [exact collection_init_ok |].
  exact (@get_all_returns_first_eight_matching_reports day_bounds central_cfg
           reports_a_b bounded0 eq_refl collection_init_ok).
Defined.

Lemma get_all_next `{ActivityBounds} (cfg : Kconfig) (arrivals : list zmk_event)
  (st : state) :
  is_central cfg = true ->
  collection_ok (settings_collection st) ->
  exists out,
    handle_get_all_activity_settings cfg arrivals st = Some out /\
    collection_ok (settings_collection out.2) /\
    request_id (settings_collection out.2) =
      u8_incr (request_id (settings_collection st)).
Proof.
  intros Hcentral Hok.
  destruct (get_all_central cfg arrivals st Hcentral Hok)
    as (st1 & b & w' & _ & Hok1 & Hid & _ & Hrun).
  eexists. split; [exact Hrun |]. simpl. auto.
Qed.

(** X2: on the central the session id after [n] get-alls is the id before
    plus [n], modulo 256: the [uint8_t] wraps, and after exactly 256
    get-alls the id is what it was, so that the id check no longer tells a
    report of that old session from a current one. *)
Theorem request_id_wraps_after_256_get_alls `{ActivityBounds}
  (cfg : Kconfig) (windows : list (list zmk_event)) (st : state) :
  is_central cfg = true ->
  collection_ok (settings_collection st) ->
  0 <= request_id (settings_collection st) < 256 ->
  exists st',
    get_all_rounds cfg windows st = Some st' /\
    request_id (settings_collection st') =
      (request_id (settings_collection st) + Z.of_nat (length windows)) mod 256 /\
    (length windows = 256%nat ->
     request_id (settings_collection st') = request_id (settings_collection st)).
Proof.
  intros Hcentral. revert st.
  assert (Hmain : forall st,
    collection_ok (settings_collection st) ->
    0 <= request_id (settings_collection st) < 256 ->
    exists st',
      get_all_rounds cfg windows st = Some st' /\
      request_id (settings_collection st') =
        (request_id (settings_collection st) + Z.of_nat (length windows)) mod 256).
  { induction windows as [| arrivals rest IH]; intros st Hok Hrange.
    - exists st. split; [reflexivity |]. simpl.
      rewrite Z.add_0_r, Z.mod_small by lia. reflexivity.
    - destruct (get_all_next cfg arrivals st Hcentral Hok) as (out & Hrun & Hok1 & Hid).
      cbn [get_all_rounds]. rewrite Hrun. cbn [mbind option_bind].
      destruct (IH out.2 Hok1) as (st' & Hrest & Hid').
      { rewrite Hid. unfold u8_incr. apply Z.mod_pos_bound. lia. }
      exists st'. split; [exact Hrest |].
      rewrite Hid', Hid. unfold u8_incr.
      rewrite Z.add_mod_idemp_l by lia. f_equal. simpl length. lia. }
  intros st Hok Hrange. destruct (Hmain st Hok Hrange) as (st' & Hrun & Hid).
  exists st'. split; [exact Hrun |]. split; [exact Hid |].
  intros Hlen. rewrite Hid, Hlen.
  change (Z.of_nat 256) with (1 * 256).
  rewrite Z.mod_add by lia. apply Z.mod_small. lia.
Qed.

(** X2 at boot: three get-alls take the id from 0 to 3. *)
Lemma request_id_wraps_after_256_get_alls_witness :
  is_central central_cfg = true /\
  collection_ok (settings_collection bounded0) /\
  0 <= request_id (settings_collection bounded0) < 256 /\
  exists st',
    @get_all_rounds day_bounds central_cfg [[]; reports_a_b; []] bounded0 = Some st' /\
    request_id (settings_collection st') = 3.
Proof.
  split; [reflexivity |]. split; [exact collection_init_ok |].
  split; [simpl; lia |].
  destruct (@request_id_wraps_after_256_get_alls day_bounds central_cfg
              [[]; reports_a_b; []] bounded0 eq_refl collection_init_ok)
    as (st' & Hrun & Hid & _); [simpl; lia |].
  exists st'. split; [exact Hrun | exact Hid].
Defined.

(* ===================================================================== *)
(** ** Further properties of the router *)
(* ===================================================================== *)

(** X3: in all three revisions the router reports the request as
    handled ([true]) and the response it leaves does not depend on what
    the response buffer held before: every path overwrites it.  In the
    bounded revision this needs the collection to have its shape, for the
    get-all to return. *)
Theorem router_response_never_shows_the_buffer `{Nanopb} `{ActivityBounds}
  (cfg : Kconfig) (raw : zmk_custom_CallRequest) :
  (forall resp1 resp2 st,
     Streamed.settings_rpc_handle_request cfg raw resp1 st =
     Streamed.settings_rpc_handle_request cfg raw resp2 st /\
     (Streamed.settings_rpc_handle_request cfg raw resp1 st).1.1 = true) /\
  (forall arrivals resp1 resp2 st,
     settings_rpc_handle_request cfg arrivals raw resp1 st =
     settings_rpc_handle_request cfg arrivals raw resp2 st /\
     (collection_ok (settings_collection st) ->
      exists resp st',
        settings_rpc_handle_request cfg arrivals raw resp1 st =
        Some ((true, resp), st'))) /\
  (forall resp1 resp2 w,
     FirstRevision.settings_rpc_handle_request cfg raw resp1 w =
     FirstRevision.settings_rpc_handle_request cfg raw resp2 w /\
     (FirstRevision.settings_rpc_handle_request cfg raw resp1 w).1.1 = true).
Proof.
  split; [| split].
  - intros resp1 resp2 st. unfold Streamed.settings_rpc_handle_request.
    destruct (pb_decode (call_payload raw)) as [[| s | | tag] |];
      cbv beta iota; split; reflexivity.
  - intros arrivals resp1 resp2 st. unfold settings_rpc_handle_request.
    destruct (pb_decode (call_payload raw)) as [[| s | | tag] |];
      cbv beta iota.
    + split; [reflexivity |]. simpl. eauto.
    + rewrite handle_set_unfold. split; [reflexivity |]. simpl. eauto.
    + split; [reflexivity |]. intros Hok.
      destruct (get_all_ok cfg arrivals st Hok) as (r & st' & Hrun & _ & _).
      rewrite Hrun. simpl. eauto.
    + split; [reflexivity |]. simpl. eauto.
    + split; [reflexivity |]. eauto.
  - intros resp1 resp2 w. unfold FirstRevision.settings_rpc_handle_request.
    destruct (pb_decode (call_payload raw)) as [[| s | | tag] |];
      cbv beta iota; split; reflexivity.
Qed.

(** X4: the router answers with a response of the error kind exactly
    when the payload does not decode, the request is of no known type, or
    it is a set the store rejects (in the first revision also for a
    get-all request, which it does not know); and it never answers a set
    with [success = false]: a rejected set is always an error response. *)
Theorem router_answers_error_exactly_when_refused `{Nanopb} `{ActivityBounds}
  (cfg : Kconfig) (raw : zmk_custom_CallRequest) :
  (forall resp st,
     let out := (Streamed.settings_rpc_handle_request cfg raw resp st).1.2 in
     is_error out = refused raw /\
     out <> Response_set_activity_settings false) /\
  (forall arrivals resp st,
     collection_ok (settings_collection st) ->
     exists out st',
       settings_rpc_handle_request cfg arrivals raw resp st = Some ((true, out), st') /\
       is_error out = refused raw /\
       out <> Response_set_activity_settings false) /\
  (forall resp w,
     let out := (FirstRevision.settings_rpc_handle_request cfg raw resp w).1.2 in
     is_error out =
       (refused raw ||
        match pb_decode (call_payload raw) with
        | Some Request_get_all_activity_settings => true
        | _ => false
        end) /\
     out <> Response_set_activity_settings false).
Proof.
  split; [| split].
  - intros resp st. cbv zeta.
    unfold Streamed.settings_rpc_handle_request, refused.
    destruct (pb_decode (call_payload raw)) as [[| s | | tag] |];
      cbv beta iota; try (split; [reflexivity | discriminate]).
    rewrite handle_set_unfold. destruct (store_accepts s); simpl;
      split; (reflexivity || discriminate).
  - intros arrivals resp st Hok.
    unfold settings_rpc_handle_request, refused.
    destruct (pb_decode (call_payload raw)) as [[| s | | tag] |];
      cbv beta iota.
    + simpl. eexists _, _. split; [reflexivity |]. split; [reflexivity | discriminate].
    + rewrite handle_set_unfold. destruct (store_accepts s); simpl;
        eexists _, _; (split; [reflexivity |]); split; (reflexivity || discriminate).
    + destruct (get_all_ok cfg arrivals st Hok) as (r & st' & Hrun & _ & _).
      rewrite Hrun. simpl. eexists _, _. split; [reflexivity |].
      split; [reflexivity | discriminate].
    + simpl. eexists _, _. split; [reflexivity |]. split; [reflexivity | discriminate].
    + eexists _, _. split; [reflexivity |]. split; [reflexivity | discriminate].
  - intros resp w. cbv zeta.
    unfold FirstRevision.settings_rpc_handle_request, refused.
    destruct (pb_decode (call_payload raw)) as [[| s | | tag] |];
      cbv beta iota; try (split; [reflexivity | discriminate]).
    rewrite initial_handle_set_unfold. destruct (store_accepts s); simpl;
      split; (reflexivity || discriminate).
Qed.

(** X4 on a decoder that yields a set request. *)
Lemma router_answers_error_exactly_when_refused_witness :
  collection_ok (settings_collection bounded0) /\
  exists out st',
    @settings_rpc_handle_request
      {| pb_decode := fun _ => Some (Request_set_activity_settings sleep_too_long) |}
      day_bounds central_cfg []
      {| call_subsystem_index := 0; call_payload := [] |}
      (Response_set_activity_settings true) bounded0 = Some ((true, out), st') /\
    is_error out = true.
Proof.
  split; [exact collection_init_ok |].
  destruct (@router_answers_error_exactly_when_refused
              {| pb_decode := fun _ => Some (Request_set_activity_settings sleep_too_long) |}
              day_bounds central_cfg
              {| call_subsystem_index := 0; call_payload := [] |})
    as (_ & Hb & _).
  destruct (Hb [] (Response_set_activity_settings true) bounded0 collection_init_ok)
    as (out & st' & Hrun & Herr & _).
  exists out, st'. split; [exact Hrun | exact Herr].
Defined.

(* ===================================================================== *)
(** ** Further properties of set, apply and delivery *)
(* ===================================================================== *)

Lemma store_calls_app (s : activity) (w : world) (es : list effect) :
  store_calls {| store := s; effects := effects w ++ es |} =
  store_calls w ++
  omap (fun e => match e with Set_idle _ _ | Set_sleep _ _ => Some e | _ => None end) es.
Proof. unfold store_calls. simpl. apply omap_app. Qed.

Lemma notified_app (s : activity) (w : world) (es : list effect) :
  notified {| store := s; effects := effects w ++ es |} =
  notified w ++
  omap (fun e => match e with Notified _ x => Some x | _ => None end) es.
Proof. unfold notified. simpl. apply omap_app. Qed.

Lemma changed_listener_unfold `{ActivityBounds} (eh : zmk_event) (w : world) :
  (activity_settings_changed_listener eh w).2 =
  match eh with
  | Ev_changed ev =>
    if negb (chg_source ev =? ZMK_RELAY_EVENT_SOURCE_SELF)
    then {| store := store_after_set (value_of ev) (store w);
            effects := effects w ++ set_calls (value_of ev) |}
    else w
  | _ => w
  end.
Proof.
  destruct eh as [ev | ev | ev]; try reflexivity.
  destruct (Z.eq_dec (chg_source ev) ZMK_RELAY_EVENT_SOURCE_SELF) as [Hs | Hs].
  - rewrite (changed_listener_self _ _ Hs). apply Z.eqb_eq in Hs. rewrite Hs. reflexivity.
  - rewrite (changed_listener_relayed _ _ Hs). apply Z.eqb_neq in Hs. rewrite Hs.
    reflexivity.
Qed.

(** X5: there is no change detection.  With the relay compiled in, a set
    of exactly the value the store already holds (and accepts) succeeds,
    makes both store calls, leaves the store as it was and publishes the
    change event again. *)
Theorem set_of_the_stored_value_still_publishes `{ActivityBounds} {G : Type}
  (cfg : Kconfig) (v : ActivitySettings) (w : world) :
  CONFIG_ZMK_SPLIT_RELAY_EVENT cfg = true ->
  store_accepts v = true ->
  store w = {| act_idle_ms := idle_ms v; act_sleep_ms := sleep_ms v |} ->
  let out := handle_set_activity_settings (G := G) cfg v w in
  out.1 = (0, Response_set_activity_settings true) /\
  store out.2 = store w /\
  store_calls out.2 =
    store_calls w ++ [Set_idle (idle_ms v) true; Set_sleep (sleep_ms v) true] /\
  raised_events out.2 = raised_events w ++ [change_event_of v].
Proof.
  intros Hrelay Hacc Hheld. cbv zeta.
  rewrite handle_set_unfold, Hacc, Hrelay. cbn [fst snd store andb].
  rewrite (store_after_set_accepted _ _ Hacc), store_calls_app, raised_events_app.
  unfold set_calls, store_accepts in *.
  apply andb_true_iff in Hacc as [Hi Hs]. rewrite Hi, Hs.
  repeat split; try reflexivity. symmetry. exact Hheld.
Qed.

(** X5 on a node that already holds {5000, 60000}. *)
Lemma set_of_the_stored_value_still_publishes_witness :
  let w := {| store := {| act_idle_ms := 5000; act_sleep_ms := 60000 |};
              effects := [] |} in
  CONFIG_ZMK_SPLIT_RELAY_EVENT central_cfg = true /\
  @store_accepts day_bounds five_seconds = true /\
  raised_events (@handle_set_activity_settings unit day_bounds central_cfg
                   five_seconds w).2 = [change_event_of five_seconds].
Proof.
  cbv zeta. split; [reflexivity |]. split; [reflexivity |].
  apply (@set_of_the_stored_value_still_publishes day_bounds unit central_cfg
           five_seconds
           {| store := {| act_idle_ms := 5000; act_sleep_ms := 60000 |};
              effects := [] |}); reflexivity.
Defined.

(** X6: with the relay compiled in, the event an accepted set publishes
    carries the self-origin marker, so a node handed it unchanged ignores
    it; handed the same event attributed to any real source, a node whose
    store takes the same values ends with exactly the store of the node
    that was set. *)
Theorem accepted_set_converges_through_the_relay `{ActivityBounds} {G : Type}
  (cfg : Kconfig) (v : ActivitySettings) (src : Z) (w_here w_there : world) :
  CONFIG_ZMK_SPLIT_RELAY_EVENT cfg = true ->
  store_accepts v = true ->
  src <> ZMK_RELAY_EVENT_SOURCE_SELF ->
  exists ev,
    raised_events (handle_set_activity_settings (G := G) cfg v w_here).2 =
      raised_events w_here ++ [Ev_changed ev] /\
    store (activity_settings_changed_listener
             (Ev_changed (relayed_from src ev)) w_there).2 =
      store (handle_set_activity_settings (G := G) cfg v w_here).2 /\
    (activity_settings_changed_listener (Ev_changed ev) w_there).2 = w_there.
Proof.
  intros Hrelay Hacc Hsrc.
  exists {| chg_idle_ms := idle_ms v; chg_sleep_ms := sleep_ms v;
            chg_source := ZMK_RELAY_EVENT_SOURCE_SELF |}.
  rewrite handle_set_unfold, Hacc, Hrelay. cbn [snd store andb].
  rewrite raised_events_app. split; [reflexivity |]. split.
  - rewrite changed_listener_relayed by exact Hsrc. cbn [snd store].
    rewrite !(store_after_set_accepted _ _ Hacc).
    unfold store_after_set, relayed_from, store_accepts in *. cbn.
    apply andb_true_iff in Hacc as [Hi Hs]. rewrite Hi, Hs. reflexivity.
  - rewrite changed_listener_self by reflexivity. reflexivity.
Qed.

(** X6: {5000, 60000} set on the central reaches a peripheral as from
    source 0. *)
Lemma accepted_set_converges_through_the_relay_witness :
  CONFIG_ZMK_SPLIT_RELAY_EVENT central_cfg = true /\
  @store_accepts day_bounds five_seconds = true /\
  0 <> ZMK_RELAY_EVENT_SOURCE_SELF /\
  exists ev,
    store (@activity_settings_changed_listener day_bounds
             (Ev_changed (relayed_from 0 ev)) world0).2 =
    store (@handle_set_activity_settings unit day_bounds central_cfg five_seconds
             world0).2.
Proof.
  split; [reflexivity |]. split; [reflexivity |]. split; [discriminate |].
  destruct (@accepted_set_converges_through_the_relay day_bounds unit central_cfg
              five_seconds 0 world0 world0 eq_refl eq_refl)
    as (ev & _ & Hconv & _); [discriminate |].
  exists ev. exact Hconv.
Defined.

(** X7: applying a change event twice leaves the store as applying it
    once, and after two events the store holds the values of the second
    whenever the second is not self-marked and the store accepts both its
    fields, whatever the first was. *)
Theorem apply_is_idempotent_and_last_accepted_wins `{ActivityBounds}
  (ev1 ev2 : zmk_activity_settings_changed) (w : world) :
  let apply := fun ev w => (activity_settings_changed_listener (Ev_changed ev) w).2 in
  store (apply ev1 (apply ev1 w)) = store (apply ev1 w) /\
  (chg_source ev2 <> ZMK_RELAY_EVENT_SOURCE_SELF ->
   store_accepts (value_of ev2) = true ->
   store (apply ev2 (apply ev1 w)) =
     {| act_idle_ms := chg_idle_ms ev2; act_sleep_ms := chg_sleep_ms ev2 |}).
Proof.
  cbv zeta. split.
  - rewrite !changed_listener_unfold.
    destruct (negb (chg_source ev1 =? ZMK_RELAY_EVENT_SOURCE_SELF)); [| reflexivity].
    cbn [store]. unfold store_after_set. cbn.
    destruct (idle_ms_accepted (chg_idle_ms ev1)),
             (sleep_ms_accepted (chg_sleep_ms ev1)); reflexivity.
  - intros Hsrc Hacc. rewrite (changed_listener_relayed ev2) by exact Hsrc.
    cbn [snd store]. apply (store_after_set_accepted (value_of ev2)), Hacc.
Qed.

(** X7 on two events from the central. *)
Lemma apply_is_idempotent_and_last_accepted_wins_witness :
  let ev1 := {| chg_idle_ms := 10000; chg_sleep_ms := 20000; chg_source := 0 |} in
  let ev2 := {| chg_idle_ms := 5000; chg_sleep_ms := 60000; chg_source := 0 |} in
  chg_source ev2 <> ZMK_RELAY_EVENT_SOURCE_SELF /\
  @store_accepts day_bounds (value_of ev2) = true /\
  store (@activity_settings_changed_listener day_bounds (Ev_changed ev2)
           (@activity_settings_changed_listener day_bounds (Ev_changed ev1) world0).2).2
  = {| act_idle_ms := 5000; act_sleep_ms := 60000 |}.
Proof.
  cbv zeta. split; [discriminate |]. split; [reflexivity |].
  apply (@apply_is_idempotent_and_last_accepted_wins day_bounds
           {| chg_idle_ms := 10000; chg_sleep_ms := 20000; chg_source := 0 |}
           {| chg_idle_ms := 5000; chg_sleep_ms := 60000; chg_source := 0 |} world0);
    [discriminate | reflexivity].
Defined.

(** X8: of the events that reach a node, only a change event that is not
    self-marked, on a build with the relay, writes the store, and it
    writes the fields the store accepts; requests, reports and self-marked
    changes leave the stored timeouts as they were, in both get-all
    revisions. *)
Theorem delivery_writes_the_store_only_for_relayed_changes `{ActivityBounds}
  (cfg : Kconfig) (eh : zmk_event) :
  (forall st,
     store (Streamed.node (Streamed.deliver cfg eh st)) =
     store_after_event cfg eh (store (Streamed.node st))) /\
  (forall st,
     collection_ok (settings_collection st) ->
     exists st',
       deliver cfg eh st = Some st' /\
       store (node st') = store_after_event cfg eh (store (node st))).
Proof.
  assert (Hnode : forall w,
    store (if CONFIG_ZMK_SPLIT_RELAY_EVENT cfg
           then (activity_settings_changed_listener eh w).2 else w) =
    store_after_event cfg eh (store w)).
  { intros w. unfold store_after_event.
    destruct (CONFIG_ZMK_SPLIT_RELAY_EVENT cfg).
    - rewrite changed_listener_unfold. destruct eh as [ev | ev | ev]; try reflexivity.
      cbn [andb]. destruct (negb _); reflexivity.
    - destruct eh; reflexivity. }
  split.
  - intros st. rewrite <- Hnode. unfold Streamed.deliver.
    destruct (CONFIG_ZMK_SPLIT_RELAY_EVENT cfg), (is_central cfg), (is_peripheral cfg),
      eh; reflexivity.
  - intros st Hok. rewrite <- Hnode. unfold deliver.
    set (st1 := if CONFIG_ZMK_SPLIT_RELAY_EVENT cfg then _ else st).
    assert (Hst1 : settings_collection st1 = settings_collection st /\
                   node st1 = if CONFIG_ZMK_SPLIT_RELAY_EVENT cfg
                              then (activity_settings_changed_listener eh (node st)).2
                              else node st)
      by (subst st1; destruct (CONFIG_ZMK_SPLIT_RELAY_EVENT cfg); split; reflexivity).
    destruct Hst1 as [Hsc Hnd]. rewrite <- Hnd. rewrite <- Hsc in Hok. clearbody st1.
    destruct (is_central cfg).
    + destruct (report_listener_ok eh st1 Hok) as (st2 & Hrun & _ & Hn2 & _).
      rewrite Hrun. cbn [fmap option_fmap option_map mbind option_bind snd].
      eexists. split; [reflexivity |]. rewrite <- Hn2.
      destruct (is_peripheral cfg); [| reflexivity].
      destruct eh; reflexivity.
    + cbn [mbind option_bind]. eexists. split; [reflexivity |].
      destruct (is_peripheral cfg); [| reflexivity].
      destruct eh; reflexivity.
Qed.

(** X8 at boot. *)
Lemma delivery_writes_the_store_only_for_relayed_changes_witness :
  collection_ok (settings_collection bounded0) /\
  exists st',
    @deliver day_bounds central_cfg (Ev_report late_report) bounded0 = Some st' /\
    store (node st') = store world0.
Proof.
  split; [exact collection_init_ok |].
  destruct (@delivery_writes_the_store_only_for_relayed_changes day_bounds central_cfg
              (Ev_report late_report)) as [_ Hb].
  exact (Hb bounded0 collection_init_ok).
Defined.

(* ===================================================================== *)
(** ** Further properties of the streamed collection *)
(* ===================================================================== *)

Lemma streamed_get_all_unfold (cfg : Kconfig) (st : Streamed.state) :
  Streamed.handle_get_all_activity_settings cfg st =
  ((0, Response_get_all_activity_settings {| Streamed.request_sent := true |}),
   {| Streamed.node :=
        {| store := store (Streamed.node st);
           effects := effects (Streamed.node st) ++
                      Notified (Streamed.subsystem_index st)
                               (own_settings (Streamed.node st)) ::
                      (if is_central cfg
                       then [Raised (Ev_request {| req_request_id := 0 |})]
                       else []) |};
      Streamed.subsystem_index := Streamed.subsystem_index st |}).
Proof.
  unfold Streamed.handle_get_all_activity_settings,
    Streamed.send_activity_settings_notification, Streamed.with_node,
    raise_zmk_activity_settings_request, emit.
  destruct (is_central cfg); cbn; [rewrite <- app_assoc |]; reflexivity.
Qed.

Lemma streamed_router_index `{Nanopb} `{ActivityBounds} (cfg : Kconfig)
  (raw : zmk_custom_CallRequest) (resp : Streamed.Response) (st : Streamed.state) :
  Streamed.subsystem_index (Streamed.settings_rpc_handle_request cfg raw resp st).2 =
  call_subsystem_index raw mod 256.
Proof.
  unfold Streamed.settings_rpc_handle_request.
  destruct (pb_decode (call_payload raw)) as [[| s | | tag] |]; try reflexivity.
  cbv beta iota. rewrite streamed_get_all_unfold. reflexivity.
Qed.

(** X9: every request, also one whose payload does not decode, leaves the
    low eight bits of its [subsystem_index] behind, the static being a
    [uint8_t]: the index itself when it is below 256, the index modulo 256
    otherwise.  The notification made of a report that arrives afterwards
    carries that stored value. *)
Theorem notifications_carry_the_index_of_the_last_request `{Nanopb} `{ActivityBounds}
  (cfg : Kconfig) (raw : zmk_custom_CallRequest) (resp : Streamed.Response)
  (st : Streamed.state) (ev : zmk_activity_settings_report) :
  let st' := (Streamed.settings_rpc_handle_request cfg raw resp st).2 in
  Streamed.subsystem_index st' = call_subsystem_index raw mod 256 /\
  0 <= Streamed.subsystem_index st' < 256 /\
  (0 <= call_subsystem_index raw < 256 ->
   Streamed.subsystem_index st' = call_subsystem_index raw) /\
  last (effects (Streamed.node
                   (Streamed.activity_settings_report_listener (Ev_report ev) st').2)) =
    Some (Notified (call_subsystem_index raw mod 256) (entry_of ev)).
Proof.
  cbv zeta. rewrite streamed_router_index.
  split; [reflexivity |].
  split; [apply Z.mod_pos_bound; lia |].
  split; [intros Hfit; apply Z.mod_small; exact Hfit |].
  unfold Streamed.activity_settings_report_listener,
    Streamed.send_activity_settings_notification, Streamed.with_node, emit.
  cbn [as_zmk_activity_settings_report snd Streamed.node effects].
  rewrite streamed_router_index. apply last_snoc.
Qed.

(** X9 on two requests that do not decode: index 3 is kept as it is,
    index 300 is stored as 44, and a report is then notified under 44. *)
Lemma notifications_carry_the_index_of_the_last_request_witness :
  Streamed.subsystem_index
    (@Streamed.settings_rpc_handle_request empty_only_decoder day_bounds central_cfg
       {| call_subsystem_index := 3; call_payload := [x01%byte] |}
       (Response_set_activity_settings true) streamed0).2 = 3 /\
  last (effects (Streamed.node
    (Streamed.activity_settings_report_listener
       (Ev_report {| rep_idle_ms := 10000; rep_sleep_ms := 900000; rep_source := 2;
                     rep_request_id := 0 |})
       (@Streamed.settings_rpc_handle_request empty_only_decoder day_bounds central_cfg
          {| call_subsystem_index := 300; call_payload := [x01%byte] |}
          (Response_set_activity_settings true) streamed0).2).2)) =
    Some (Notified 44 {| idle_ms := 10000; sleep_ms := 900000; source := 2 |}).
Proof.
  split.
  - destruct (@notifications_carry_the_index_of_the_last_request empty_only_decoder
                day_bounds central_cfg
                {| call_subsystem_index := 3; call_payload := [x01%byte] |}
                (Response_set_activity_settings true) streamed0
                {| rep_idle_ms := 10000; rep_sleep_ms := 900000; rep_source := 2;
                   rep_request_id := 0 |}) as (_ & _ & Hfit & _).
    apply Hfit. simpl. lia.
  - destruct (@notifications_carry_the_index_of_the_last_request empty_only_decoder
                day_bounds central_cfg
                {| call_subsystem_index := 300; call_payload := [x01%byte] |}
                (Response_set_activity_settings true) streamed0
                {| rep_idle_ms := 10000; rep_sleep_ms := 900000; rep_source := 2;
                   rep_request_id := 0 |}) as (_ & _ & _ & Hlast).
    exact Hlast.
Defined.

(** X10: on a build that is not the central of a split keyboard the
    streamed get-all still answers [request_sent = true] with 0, though it
    raises no event at all: it only notifies the node's own settings, and
    leaves the store alone. *)
Theorem streamed_get_all_off_the_central_requests_nothing
  (cfg : Kconfig) (st : Streamed.state) :
  is_central cfg = false ->
  let out := Streamed.handle_get_all_activity_settings cfg st in
  out.1 = (0, Response_get_all_activity_settings {| Streamed.request_sent := true |}) /\
  raised_events (Streamed.node out.2) = raised_events (Streamed.node st) /\
  notified (Streamed.node out.2) =
    notified (Streamed.node st) ++ [own_settings (Streamed.node st)] /\
  store (Streamed.node out.2) = store (Streamed.node st).
Proof.
  intros Hrole. cbv zeta. rewrite streamed_get_all_unfold, Hrole.
  cbn [fst snd Streamed.node store].
  rewrite raised_events_app, notified_app. simpl. rewrite app_nil_r.
  repeat split; reflexivity.
Qed.

(** X10 on a keyboard that is not split. *)
Lemma streamed_get_all_off_the_central_requests_nothing_witness :
  is_central no_relay_cfg = false /\
  (Streamed.handle_get_all_activity_settings no_relay_cfg streamed0).1 =
    (0, Response_get_all_activity_settings {| Streamed.request_sent := true |}) /\
  raised_events (Streamed.node
    (Streamed.handle_get_all_activity_settings no_relay_cfg streamed0).2) = [].
Proof.
  split; [reflexivity |].
  destruct (streamed_get_all_off_the_central_requests_nothing no_relay_cfg streamed0
              eq_refl) as (Hresp & Hraised & _).
  split; [exact Hresp | exact Hraised].
Defined.

Lemma notified_changed_listener `{ActivityBounds} (eh : zmk_event) (w : world) :
  notified (activity_settings_changed_listener eh w).2 = notified w.
Proof.
  rewrite changed_listener_unfold.
  destruct eh as [ev | ev | ev]; try reflexivity.
  destruct (negb _); [| reflexivity].
  rewrite notified_app. simpl. apply app_nil_r.
Qed.

Lemma streamed_report_listener_notified (eh : zmk_event) (st : Streamed.state) :
  notified (Streamed.node (Streamed.activity_settings_report_listener eh st).2) =
    notified (Streamed.node st) ++ report_entries [eh].
Proof.
  destruct eh as [ev | ev | ev]; try (symmetry; apply app_nil_r).
  unfold Streamed.activity_settings_report_listener,
    Streamed.send_activity_settings_notification, Streamed.with_node, emit.
  cbn [as_zmk_activity_settings_report snd Streamed.node].
  rewrite notified_app. reflexivity.
Qed.

Lemma streamed_deliver_notified `{ActivityBounds} (cfg : Kconfig) (eh : zmk_event)
  (st : Streamed.state) :
  is_central cfg = true ->
  notified (Streamed.node (Streamed.deliver cfg eh st)) =
    notified (Streamed.node st) ++ report_entries [eh].
Proof.
  intros Hcentral. unfold Streamed.deliver.
  rewrite Hcentral, (central_not_peripheral cfg Hcentral).
  rewrite streamed_report_listener_notified. f_equal.
  destruct (CONFIG_ZMK_SPLIT_RELAY_EVENT cfg); [| reflexivity].
  unfold Streamed.with_node. cbn [Streamed.node].
  apply notified_changed_listener.
Qed.

Lemma report_entries_cons (eh : zmk_event) (rest : list zmk_event) :
  report_entries (eh :: rest) = report_entries [eh] ++ report_entries rest.
Proof. apply (omap_app _ [eh] rest). Qed.

Lemma streamed_deliver_all_notified `{ActivityBounds} (cfg : Kconfig)
  (arrivals : list zmk_event) (st : Streamed.state) :
  is_central cfg = true ->
  notified (Streamed.node (streamed_deliver_all cfg arrivals st)) =
    notified (Streamed.node st) ++ report_entries arrivals.
Proof.
  intros Hcentral. revert st. unfold streamed_deliver_all.
  induction arrivals as [| eh rest IH]; intros st.
  - simpl. rewrite app_nil_r. reflexivity.
  - cbn [foldl]. rewrite IH.
    rewrite (streamed_deliver_notified cfg eh st Hcentral).
    rewrite <- app_assoc, <- report_entries_cons. reflexivity.
Qed.

(** X11: on the central, after a streamed get-all, the settings notified
    are the node's own at the time of the call followed by one entry for
    every report that arrives, in arrival order, whatever [request_id] a
    report carries and however many there are; events of other types
    notify nothing. *)
Theorem streamed_get_all_notifies_every_report_in_order `{ActivityBounds}
  (cfg : Kconfig) (arrivals : list zmk_event) (st : Streamed.state) :
  is_central cfg = true ->
  notified (Streamed.node
    (streamed_deliver_all cfg arrivals
       (Streamed.handle_get_all_activity_settings cfg st).2)) =
  notified (Streamed.node st) ++
  own_settings (Streamed.node st) :: report_entries arrivals.
Proof.
  intros Hcentral. rewrite streamed_deliver_all_notified by exact Hcentral.
  rewrite streamed_get_all_unfold, Hcentral. cbn [snd Streamed.node].
  rewrite notified_app. simpl. rewrite <- app_assoc. reflexivity.
Qed.

(** X11 on the central: a change event and two reports, one of them for a
    session that never was. *)
Lemma streamed_get_all_notifies_every_report_in_order_witness :
  is_central central_cfg = true /\
  notified (Streamed.node
    (@streamed_deliver_all day_bounds central_cfg
       [Ev_report late_report; Ev_changed own_identity_event;
        Ev_report {| rep_idle_ms := 30000; rep_sleep_ms := 900000; rep_source := 1;
                     rep_request_id := 77 |}]
       (Streamed.handle_get_all_activity_settings central_cfg streamed0).2)) =
  [ {| idle_ms := 30000; sleep_ms := 900000; source := 0 |};
    {| idle_ms := 10000; sleep_ms := 900000; source := 2 |};
    {| idle_ms := 30000; sleep_ms := 900000; source := 1 |} ].
Proof.
  split; [reflexivity |].
  rewrite (@streamed_get_all_notifies_every_report_in_order day_bounds central_cfg
             _ streamed0 eq_refl).
  reflexivity.
Defined.

(** X12: on the central a settings request that reaches the node changes
    nothing (the request listener is compiled out, so the central never
    answers its own request); off the central a report that reaches the
    node changes nothing (it is neither collected nor notified).  Both
    get-all revisions. *)
Theorem requests_and_reports_are_seen_by_one_role_only `{ActivityBounds}
  (cfg : Kconfig) :
  (is_central cfg = true ->
   forall ev,
     (forall st, Streamed.deliver cfg (Ev_request ev) st = st) /\
     (forall st, deliver cfg (Ev_request ev) st = Some st)) /\
  (is_central cfg = false ->
   forall ev,
     (forall st, Streamed.deliver cfg (Ev_report ev) st = st) /\
     (forall st, deliver cfg (Ev_report ev) st = Some st)).
Proof.
  split; intros Hrole ev; split; intros [w x];
    unfold Streamed.deliver, deliver; rewrite Hrole;
    try rewrite (central_not_peripheral cfg Hrole);
    destruct (CONFIG_ZMK_SPLIT_RELAY_EVENT cfg); try destruct (is_peripheral cfg);
    reflexivity.
Qed.

(** X12 on the two roles. *)
Lemma requests_and_reports_are_seen_by_one_role_only_witness :
  is_central central_cfg = true /\
  @deliver day_bounds central_cfg (Ev_request {| req_request_id := 4 |}) bounded0 =
    Some bounded0 /\
  is_central peripheral_cfg = false /\
  @Streamed.deliver day_bounds peripheral_cfg (Ev_report late_report) streamed0 =
    streamed0.
Proof.
  split; [reflexivity |]. split.
  - destruct (@requests_and_reports_are_seen_by_one_role_only day_bounds central_cfg)
      as [Hc _].
    destruct (Hc eq_refl {| req_request_id := 4 |}) as [_ Hb]. apply Hb.
  - split; [reflexivity |].
    destruct (@requests_and_reports_are_seen_by_one_role_only day_bounds peripheral_cfg)
      as [_ Hp].
    destruct (Hp eq_refl late_report) as [Hs _]. apply Hs.
Defined.

(** X13: on a peripheral with the relay, a change event from a real
    source whose values the store accepts, followed by a settings request,
    makes the peripheral raise exactly one report, and the report carries
    the values of the change event. *)
Theorem peripheral_reports_the_value_it_was_relayed `{ActivityBounds}
  (cfg : Kconfig) (ev : zmk_activity_settings_changed)
  (rq : zmk_activity_settings_request) (st : Streamed.state) :
  is_peripheral cfg = true ->
  CONFIG_ZMK_SPLIT_RELAY_EVENT cfg = true ->
  chg_source ev <> ZMK_RELAY_EVENT_SOURCE_SELF ->
  store_accepts (value_of ev) = true ->
  raised_events
    (Streamed.node
       (Streamed.deliver cfg (Ev_request rq)
          (Streamed.deliver cfg (Ev_changed ev) st))) =
  raised_events (Streamed.node st) ++
  [Ev_report {| rep_idle_ms := chg_idle_ms ev;
                rep_sleep_ms := chg_sleep_ms ev;
                rep_source := ZMK_RELAY_EVENT_SOURCE_SELF;
                rep_request_id := req_request_id rq |}].
Proof.
  intros Hper Hrelay Hsrc Hacc. unfold Streamed.deliver.
  rewrite Hper, Hrelay, (peripheral_not_central cfg Hper).
  unfold Streamed.with_node. cbn [Streamed.node Streamed.subsystem_index].
  rewrite (changed_listener_other_type (Ev_request rq)) by reflexivity.
  rewrite (changed_listener_relayed ev) by exact Hsrc.
  cbn [snd].
  unfold activity_settings_request_listener, raise_zmk_activity_settings_report, emit,
    zmk_activity_get_idle_ms, zmk_activity_get_sleep_ms.
  cbn [as_zmk_activity_settings_request snd store effects].
  rewrite (store_after_set_accepted (value_of ev)) by exact Hacc.
  rewrite <- app_assoc.
  rewrite raised_events_app. reflexivity.
Qed.

(** X13 on a peripheral holding the defaults. *)
Lemma peripheral_reports_the_value_it_was_relayed_witness :
  is_peripheral peripheral_cfg = true /\
  CONFIG_ZMK_SPLIT_RELAY_EVENT peripheral_cfg = true /\
  chg_source own_identity_event <> ZMK_RELAY_EVENT_SOURCE_SELF /\
  @store_accepts day_bounds (value_of own_identity_event) = true /\
  raised_events
    (Streamed.node
       (@Streamed.deliver day_bounds peripheral_cfg (Ev_request {| req_request_id := 0 |})
          (@Streamed.deliver day_bounds peripheral_cfg (Ev_changed own_identity_event)
             streamed0))) =
  [Ev_report {| rep_idle_ms := 5000; rep_sleep_ms := 60000; rep_source := 255;
                rep_request_id := 0 |}].
Proof.
  split; [reflexivity |]. split; [reflexivity |]. split; [discriminate |].
  split; [reflexivity |].
  rewrite (@peripheral_reports_the_value_it_was_relayed day_bounds peripheral_cfg
             own_identity_event {| req_request_id := 0 |} streamed0 eq_refl eq_refl);
    [reflexivity | discriminate | reflexivity].
Defined.

(* ===================================================================== *)
(** ** Properties of the front end *)
(* ===================================================================== *)

Lemma update_devices_list (s : ActivitySettings) (u : Web.ui) :
  Web.allDeviceSettings (Web.update_devices s u) =
  filter (fun d => Web.dev_source d <> source s) (Web.allDeviceSettings u) ++
  [device_of s].
Proof. unfold Web.update_devices. destruct (source s =? 0); reflexivity. Qed.

Lemma sources_of_filter (P : Web.DeviceSettings -> Prop)
  `{forall d, Decision (P d)} (l : list Web.DeviceSettings) :
  NoDup (Web.dev_source <$> l) -> NoDup (Web.dev_source <$> filter P l).
Proof.
  induction l as [| d l IH]; [intros; constructor |].
  rewrite fmap_cons, NoDup_cons. intros [Hnotin Hnd].
  rewrite filter_cons. destruct (decide (P d)); [| auto].
  rewrite fmap_cons, NoDup_cons. split; [| auto].
  intros (x & Hx & Hin)%list_elem_of_fmap. apply Hnotin.
  apply list_elem_of_fmap. exists x. split; [exact Hx |].
  apply list_elem_of_filter in Hin. apply Hin.
Qed.

Lemma update_devices_distinct (s : ActivitySettings) (u : Web.ui) :
  NoDup (Web.dev_source <$> Web.allDeviceSettings u) ->
  NoDup (Web.dev_source <$> Web.allDeviceSettings (Web.update_devices s u)).
Proof.
  intros Hnd. rewrite update_devices_list, fmap_app. apply NoDup_app.
  split; [apply sources_of_filter, Hnd |]. split.
  - intros x (d & -> & Hin)%list_elem_of_fmap.
    apply list_elem_of_filter in Hin as [Hne _].
    simpl. intros Heq%list_elem_of_singleton. apply Hne, Heq.
  - simpl. apply NoDup_singleton.
Qed.

(** X15: the sources in the device list of the front end stay pairwise
    distinct, whatever notification payloads arrive (decodable or not,
    with or without settings). *)
Theorem device_list_has_one_entry_per_source `{Web.NotificationDecoder}
  (payloads : list (list byte)) (u : Web.ui) :
  NoDup (Web.dev_source <$> Web.allDeviceSettings u) ->
  NoDup (Web.dev_source <$>
         Web.allDeviceSettings
           (foldl (fun u p => Web.handleNotification p u) u payloads)).
Proof.
  revert u. induction payloads as [| p rest IH]; intros u Hnd; [exact Hnd |].
  cbn [foldl]. apply IH. unfold Web.handleNotification.
  destruct (Web.Notification_decode p) as [n |]; [| exact Hnd].
  destruct (Web.activitySettings n ≫= Web.settings) as [s |]; [| exact Hnd].
  apply update_devices_distinct, Hnd.
Qed.

Lemma receive_all_snoc (ns : list ActivitySettings) (s : ActivitySettings)
  (u : Web.ui) :
  receive_all (ns ++ [s]) u = Web.update_devices s (receive_all ns u).
Proof. unfold receive_all. rewrite foldl_snoc. reflexivity. Qed.

Lemma filter_nothing {A} (P : A -> Prop) `{forall x, Decision (P x)} (l : list A) :
  (forall x, ~ P x) -> filter P l = [].
Proof.
  intros Hno. induction l as [| x l IH]; [reflexivity |].
  rewrite filter_cons_False; [exact IH | apply Hno].
Qed.

(** X16: starting from an empty device list, after any sequence of
    notifications the list holds for every source exactly one entry, made
    of the last notification from that source, and no entry for a source
    that never notified. *)
Theorem device_list_holds_the_latest_of_each_source
  (ns : list ActivitySettings) (u : Web.ui) (src : Z) :
  Web.allDeviceSettings u = [] ->
  filter (fun d => Web.dev_source d = src)
         (Web.allDeviceSettings (receive_all ns u)) =
  match last (filter (fun s => source s = src) ns) with
  | Some s => [device_of s]
  | None => []
  end.
Proof.
  intros Hempty. induction ns as [| s ns IH] using rev_ind.
  - simpl. rewrite Hempty. reflexivity.
  - rewrite receive_all_snoc, update_devices_list, !filter_app.
    destruct (decide (source s = src)) as [Heq | Hne].
    + rewrite (filter_singleton_True _ s) by (exact Heq || exact []).
      rewrite last_snoc.
      rewrite (filter_singleton_True _ (device_of s)) by (exact Heq || exact []).
      rewrite list_filter_filter.
      rewrite filter_nothing; [reflexivity |]. intros d [H1 H2]. congruence.
    + rewrite (filter_singleton_False _ s) by (exact Hne || exact []).
      rewrite (filter_singleton_False _ (device_of s)) by (exact Hne || exact []).
      rewrite !app_nil_r, <- IH, list_filter_filter.
      apply list_filter_iff. intros d. split; [tauto |].
      intros Hd. split; [exact Hd | congruence].
Qed.

(** X16 on three notifications, two of them from source 1. *)
Lemma device_list_holds_the_latest_of_each_source_witness :
  Web.allDeviceSettings Web.ui_init = [] /\
  filter (fun d => Web.dev_source d = 1)
    (Web.allDeviceSettings
       (receive_all
          [ {| idle_ms := 1; sleep_ms := 2; source := 1 |};
            {| idle_ms := 3; sleep_ms := 4; source := 0 |};
            {| idle_ms := 5; sleep_ms := 6; source := 1 |} ] Web.ui_init)) =
  [ {| Web.dev_source := 1; Web.dev_idleMs := 5; Web.dev_sleepMs := 6 |} ].
Proof.
  split; [reflexivity |].
  rewrite (device_list_holds_the_latest_of_each_source _ Web.ui_init 1 eq_refl).
  reflexivity.
Defined.

(** X15 from the initial state, with a decoder that reads one byte as the
    source of a notification. *)
Lemma device_list_has_one_entry_per_source_witness :
  let D := {| Web.Notification_decode := fun p =>
                match p with
                | [b] => Some {| Web.activitySettings :=
                                   Some {| Web.settings :=
                                     Some {| idle_ms := 30000; sleep_ms := 900000;
                                             source := Z.of_N (Byte.to_N b) |} |} |}
                | _ => None
                end |} in
  NoDup (Web.dev_source <$> Web.allDeviceSettings Web.ui_init) /\
  NoDup (Web.dev_source <$>
         Web.allDeviceSettings
           (foldl (fun u p => @Web.handleNotification D p u) Web.ui_init
                  [[x01%byte]; [x00%byte]; []; [x01%byte]])).
Proof.
  cbv zeta. split; [constructor |].
  apply device_list_has_one_entry_per_source. constructor.
Defined.

Lemma forallb_false_witness {A} (p : A -> bool) (l : list A) :
  forallb p l = false -> exists x, x ∈ l /\ p x = false.
Proof.
  induction l as [| x l IH]; [discriminate |]. simpl.
  destruct (p x) eqn:Hp.
  - intros Hl. destruct (IH Hl) as (y & Hin & Hy).
    exists y. split; [apply list_elem_of_further, Hin | exact Hy].
  - intros _. exists x. split; [apply list_elem_of_here | exact Hp].
Qed.

Lemma forallb_true_elem {A} (p : A -> bool) (l : list A) (x : A) :
  forallb p l = true -> x ∈ l -> p x = true.
Proof.
  intros Hall Hin. rewrite forallb_forall in Hall.
  apply Hall, list_elem_of_In, Hin.
Qed.

(** On a list that is not empty, the warning expression of the updater
    is true exactly when two of its entries differ. *)
Lemma warning_expression_spec (l : list Web.DeviceSettings) :
  l <> [] ->
  negb (Web.every_equals_first l) && (1 <? Z.of_nat (length l)) = true <->
  exists a b, a ∈ l /\ b ∈ l /\ devices_differ a b.
Proof.
  destruct l as [| first rest]; [congruence |]. intros _.
  unfold Web.every_equals_first. cbn [lookup list_lookup].
  set (p := fun d => (Web.dev_idleMs d =? Web.dev_idleMs first) &&
                     (Web.dev_sleepMs d =? Web.dev_sleepMs first)).
  assert (Hp : forall d, p d = true <->
                 Web.dev_idleMs d = Web.dev_idleMs first /\
                 Web.dev_sleepMs d = Web.dev_sleepMs first).
  { intros d. unfold p. rewrite andb_true_iff, !Z.eqb_eq. reflexivity. }
  split.
  - intros [Hnot _]%andb_true_iff. apply negb_true_iff in Hnot.
    destruct (forallb_false_witness _ _ Hnot) as (x & Hin & Hx).
    exists x, first. split; [exact Hin |]. split; [apply list_elem_of_here |].
    unfold devices_differ.
    destruct (decide (Web.dev_idleMs x = Web.dev_idleMs first)) as [Hi | Hi];
      [| left; exact Hi].
    right. intros Hs. rewrite (proj2 (Hp x) (conj Hi Hs)) in Hx. discriminate.
  - intros (a & b & Ha & Hb & Hdiff).
    assert (Hnot : forallb p (first :: rest) = false).
    { apply not_true_iff_false. intros Hall.
      destruct (proj1 (Hp a) (forallb_true_elem p _ a Hall Ha)) as [Hai Has].
      destruct (proj1 (Hp b) (forallb_true_elem p _ b Hall Hb)) as [Hbi Hbs].
      destruct Hdiff as [Hd | Hd]; apply Hd; congruence. }
    rewrite Hnot. simpl. apply Z.ltb_lt.
    destruct rest as [| y rest]; [| simpl; lia].
    apply list_elem_of_singleton in Ha, Hb. subst a b.
    destruct Hdiff as [Hd | Hd]; exfalso; apply Hd; reflexivity.
Qed.

Lemma update_devices_warning (s : ActivitySettings) (u : Web.ui) :
  Web.showSyncWarning (Web.update_devices s u) =
  negb (Web.every_equals_first (Web.allDeviceSettings (Web.update_devices s u))) &&
  (1 <? Z.of_nat (length (Web.allDeviceSettings (Web.update_devices s u)))).
Proof. unfold Web.update_devices. destruct (source s =? 0); reflexivity. Qed.

Lemma update_devices_not_empty (s : ActivitySettings) (u : Web.ui) :
  Web.allDeviceSettings (Web.update_devices s u) <> [].
Proof.
  rewrite update_devices_list. intros Hnil.
  apply app_eq_nil in Hnil as [_ Hnil]. discriminate.
Qed.

(** X17: after a notification is handled the mismatch warning is shown
    if and only if two entries of the device list differ in their idle or
    their sleep timeout. *)
Theorem sync_warning_iff_two_devices_differ (s : ActivitySettings) (u : Web.ui) :
  let u' := Web.update_devices s u in
  Web.showSyncWarning u' = true <->
  exists a b, a ∈ Web.allDeviceSettings u' /\ b ∈ Web.allDeviceSettings u' /\
              devices_differ a b.
Proof.
  cbv zeta. rewrite update_devices_warning.
  apply warning_expression_spec, update_devices_not_empty.
Qed.

Lemma update_devices_form (s : ActivitySettings) (u : Web.ui) :
  (Web.idleMs (Web.update_devices s u), Web.sleepMs (Web.update_devices s u)) =
  if source s =? 0 then (idle_ms s, sleep_ms s) else (Web.idleMs u, Web.sleepMs u).
Proof. unfold Web.update_devices. destruct (source s =? 0); reflexivity. Qed.

(** X19: after any sequence of notifications the two fields of the form
    show the timeouts of the last notification from source 0, and are
    untouched when there was none. *)
Theorem form_shows_the_latest_from_source_zero
  (ns : list ActivitySettings) (u : Web.ui) :
  (Web.idleMs (receive_all ns u), Web.sleepMs (receive_all ns u)) =
  match last (filter (fun s => source s = 0) ns) with
  | Some s => (idle_ms s, sleep_ms s)
  | None => (Web.idleMs u, Web.sleepMs u)
  end.
Proof.
  induction ns as [| s ns IH] using rev_ind; [reflexivity |].
  rewrite receive_all_snoc, filter_app.
  destruct (decide (source s = 0)) as [Heq | Hne].
  - rewrite (filter_singleton_True _ s) by (exact Heq || exact []).
    rewrite last_snoc, update_devices_form.
    apply Z.eqb_eq in Heq. rewrite Heq. reflexivity.
  - rewrite (filter_singleton_False _ s) by (exact Hne || exact []).
    rewrite app_nil_r, <- IH, update_devices_form.
    apply Z.eqb_neq in Hne. rewrite Hne. reflexivity.
Qed.

(* ===================================================================== *)
(** ** Front end and firmware together *)
(* ===================================================================== *)

(** X20: when the form's values are sent as a set request and the
    response reaches the front end as built, Save ends with loading off
    and shows "Settings updated successfully!" if the store accepted the
    value, and otherwise the error "Error: Failed to process request";
    the text "Failed to update settings" is never shown for a response of
    the firmware. *)
Theorem rejected_set_is_shown_as_a_processing_error `{Nanopb} `{ActivityBounds}
  (cfg : Kconfig) (raw : zmk_custom_CallRequest) (buf : Streamed.Response)
  (st : Streamed.state) (u : Web.ui) (v : ActivitySettings) :
  (Web.updateSettings_start true u).1 = Some v ->
  pb_decode (call_payload raw) = Some (Request_set_activity_settings v) ->
  let resp := (Streamed.settings_rpc_handle_request cfg raw buf st).1.2 in
  let u' := Web.updateSettings_finish (Web.Rpc_response (decoded_response resp))
              (Web.updateSettings_start true u).2 in
  Web.isLoading u' = false /\
  (Web.message u', Web.error u') =
    if store_accepts v
    then (Some "Settings updated successfully!"%string, None)
    else (None, Some "Error: Failed to process request"%string).
Proof.
  intros _ Hdec. cbv zeta. unfold Streamed.settings_rpc_handle_request.
  rewrite Hdec. cbv beta iota. rewrite handle_set_unfold.
  destruct (store_accepts v); split; reflexivity.
Qed.

(** X20 on a form that holds a sleep timeout the store rejects. *)
Lemma rejected_set_is_shown_as_a_processing_error_witness :
  let u := {| Web.idleMs := 5000; Web.sleepMs := 4000000000; Web.isLoading := false;
              Web.message := None; Web.error := None;
              Web.allDeviceSettings := []; Web.showSyncWarning := false |} in
  let D := {| pb_decode := fun _ => Some (Request_set_activity_settings sleep_too_long) |} in
  let raw := {| call_subsystem_index := 0; call_payload := [] |} in
  (Web.updateSettings_start true u).1 = Some sleep_too_long /\
  Web.error
    (Web.updateSettings_finish
       (Web.Rpc_response
          (decoded_response
             (@Streamed.settings_rpc_handle_request D day_bounds central_cfg raw
                (Response_set_activity_settings true) streamed0).1.2))
       (Web.updateSettings_start true u).2)
  = Some "Error: Failed to process request"%string.
Proof.
  cbv zeta. split; [reflexivity |].
  pose proof (@rejected_set_is_shown_as_a_processing_error
                {| pb_decode := fun _ => Some (Request_set_activity_settings sleep_too_long) |}
                day_bounds central_cfg
                {| call_subsystem_index := 0; call_payload := [] |}
                (Response_set_activity_settings true) streamed0
                {| Web.idleMs := 5000; Web.sleepMs := 4000000000; Web.isLoading := false;
                   Web.message := None; Web.error := None;
                   Web.allDeviceSettings := []; Web.showSyncWarning := false |}
                sleep_too_long eq_refl eq_refl) as [_ Hshown].
  exact (f_equal snd Hshown).
Defined.

Lemma receive_all_distinct (ns : list ActivitySettings) (u : Web.ui) :
  NoDup (Web.dev_source <$> Web.allDeviceSettings u) ->
  NoDup (Web.dev_source <$> Web.allDeviceSettings (receive_all ns u)).
Proof.
  intros Hnd. induction ns as [| s ns IH] using rev_ind; [exact Hnd |].
  rewrite receive_all_snoc. apply update_devices_distinct, IH.
Qed.

Lemma form_kept_by_other_sources (ns : list ActivitySettings) (u : Web.ui) :
  Forall (fun s => source s <> 0) ns ->
  (Web.idleMs (receive_all ns u), Web.sleepMs (receive_all ns u)) =
  (Web.idleMs u, Web.sleepMs u).
Proof.
  revert u. induction ns as [| s ns IH]; intros u Hall; [reflexivity |].
  apply Forall_cons in Hall as [Hs Hns].
  change (receive_all (s :: ns) u) with (receive_all ns (Web.update_devices s u)).
  rewrite (IH _ Hns), update_devices_form.
  apply Z.eqb_neq in Hs. rewrite Hs. reflexivity.
Qed.

(** X21: Refresh against the streamed firmware on the central, when the
    notifications reach the front end as sent and no report claims
    source 0: the notifications are the central's own settings followed
    by the reports' entries; afterwards the form shows the central's
    stored timeouts, the device list has one entry per source, and the
    mismatch warning is shown if and only if two listed devices differ. *)
Theorem refresh_shows_the_central_and_flags_divergence `{ActivityBounds}
  (cfg : Kconfig) (arrivals : list zmk_event) (st : Streamed.state) (u : Web.ui) :
  is_central cfg = true ->
  Forall (fun e => source e <> 0) (report_entries arrivals) ->
  let st' := streamed_deliver_all cfg arrivals
               (Streamed.handle_get_all_activity_settings cfg st).2 in
  let sent := drop (length (notified (Streamed.node st)))
                   (notified (Streamed.node st')) in
  let u' := receive_all sent (Web.getCurrentSettings_start true u) in
  sent = own_settings (Streamed.node st) :: report_entries arrivals /\
  Web.idleMs u' = act_idle_ms (store (Streamed.node st)) /\
  Web.sleepMs u' = act_sleep_ms (store (Streamed.node st)) /\
  NoDup (Web.dev_source <$> Web.allDeviceSettings u') /\
  (Web.showSyncWarning u' = true <->
   exists a b, a ∈ Web.allDeviceSettings u' /\ b ∈ Web.allDeviceSettings u' /\
               devices_differ a b).
Proof.
  intros Hcentral Hperiph. cbv zeta.
  rewrite streamed_deliver_all_notified by exact Hcentral.
  rewrite streamed_get_all_unfold, Hcentral. cbn [snd Streamed.node].
  rewrite notified_app, <- app_assoc, drop_app_length.
  cbn [omap list_omap app].
  set (own := own_settings (Streamed.node st)).
  set (u0 := Web.getCurrentSettings_start true u).
  split; [reflexivity |].
  assert (Hstep : receive_all (own :: report_entries arrivals) u0 =
                  receive_all (report_entries arrivals) (Web.update_devices own u0))
    by reflexivity.
  pose proof (form_kept_by_other_sources _ (Web.update_devices own u0) Hperiph)
    as Hform.
  rewrite update_devices_form in Hform.
  change (source own =? 0) with true in Hform. cbv beta iota in Hform.
  rewrite <- Hstep in Hform.
  split; [exact (f_equal fst Hform) |]. split; [exact (f_equal snd Hform) |].
  split; [apply receive_all_distinct; constructor |].
  destruct (exists_last (l := own :: report_entries arrivals) ltac:(discriminate))
    as (front & s & Hsplit).
  rewrite Hsplit, receive_all_snoc, update_devices_warning.
  apply warning_expression_spec, update_devices_not_empty.
Qed.

(** X21 on the scenario, streamed: the central and follower 1 agree,
    follower 2 has another idle timeout. *)
Lemma refresh_shows_the_central_and_flags_divergence_witness :
  let arrivals :=
    [Ev_report {| rep_idle_ms := 30000; rep_sleep_ms := 900000; rep_source := 1;
                  rep_request_id := 0 |};
     Ev_report {| rep_idle_ms := 10000; rep_sleep_ms := 900000; rep_source := 2;
                  rep_request_id := 0 |}] in
  is_central central_cfg = true /\
  Forall (fun e => source e <> 0) (report_entries arrivals) /\
  Web.idleMs
    (receive_all
       (drop (length (notified (Streamed.node streamed0)))
             (notified (Streamed.node
                (@streamed_deliver_all day_bounds central_cfg arrivals
                   (Streamed.handle_get_all_activity_settings central_cfg streamed0).2))))
       (Web.getCurrentSettings_start true Web.ui_init)) = 30000.
Proof.
  cbv zeta. split; [reflexivity |].
  split; [repeat constructor; discriminate |].
  apply (@refresh_shows_the_central_and_flags_divergence day_bounds central_cfg
           _ streamed0 Web.ui_init eq_refl).
  repeat constructor; discriminate.
Defined.

(** X14: of the requests the streamed router handles, only a set writes
    the store (each field when the store accepts it, also when the set as
    a whole fails); a get, a get-all, a request of unknown type and a
    payload that does not decode leave the stored timeouts as they
    were. *)
Theorem only_a_set_request_writes_the_store `{Nanopb} `{ActivityBounds}
  (cfg : Kconfig) (raw : zmk_custom_CallRequest) (buf : Streamed.Response)
  (st : Streamed.state) :
  store (Streamed.node (Streamed.settings_rpc_handle_request cfg raw buf st).2) =
  match pb_decode (call_payload raw) with
  | Some (Request_set_activity_settings v) =>
    store_after_set v (store (Streamed.node st))
  | _ => store (Streamed.node st)
  end.
Proof.
  unfold Streamed.settings_rpc_handle_request.
  destruct (pb_decode (call_payload raw)) as [[| v | | tag] |]; try reflexivity;
    cbv beta iota.
  - rewrite handle_set_unfold. reflexivity.
  - rewrite streamed_get_all_unfold. reflexivity.
Qed.

(** X22: Sync All Devices, when the form shows the central's stored
    timeouts (as after a refresh), the store accepts them and the relay
    is compiled in: the request sets the central to what it already
    holds, the central's store is unchanged and it publishes one change
    event; a node handed that event attributed to a real source ends with
    the central's store; the front end shows "Settings synchronized
    across all devices!", hides the warning and schedules a refresh. *)
Theorem sync_all_devices_brings_the_others_to_the_central `{Nanopb} `{ActivityBounds}
  (cfg : Kconfig) (raw : zmk_custom_CallRequest) (buf : Streamed.Response)
  (st : Streamed.state) (u : Web.ui) (src : Z) (w_there : world) :
  CONFIG_ZMK_SPLIT_RELAY_EVENT cfg = true ->
  Web.idleMs u = act_idle_ms (store (Streamed.node st)) ->
  Web.sleepMs u = act_sleep_ms (store (Streamed.node st)) ->
  store_accepts (own_settings (Streamed.node st)) = true ->
  pb_decode (call_payload raw) =
    Request_set_activity_settings <$> (Web.syncAllDevices_start true u).1 ->
  src <> ZMK_RELAY_EVENT_SOURCE_SELF ->
  let out := Streamed.settings_rpc_handle_request cfg raw buf st in
  let shown := Web.syncAllDevices_finish
                 (Web.Rpc_response (decoded_response out.1.2))
                 (Web.syncAllDevices_start true u).2 in
  store (Streamed.node out.2) = store (Streamed.node st) /\
  (exists ev,
     raised_events (Streamed.node out.2) =
       raised_events (Streamed.node st) ++ [Ev_changed ev] /\
     store (activity_settings_changed_listener
              (Ev_changed (relayed_from src ev)) w_there).2 =
       store (Streamed.node st)) /\
  Web.message shown.1 = Some "Settings synchronized across all devices!"%string /\
  Web.showSyncWarning shown.1 = false /\
  shown.2 = true.
Proof.
  intros Hrelay Hidle Hsleep Hacc Hdec Hsrc. cbv zeta.
  unfold Web.syncAllDevices_start, Web.updateSettings_start in *.
  cbn [negb fst snd fmap option_fmap option_map] in *.
  rewrite Hidle, Hsleep in Hdec.
  fold (zmk_activity_get_idle_ms (Streamed.node st)) in Hdec.
  fold (zmk_activity_get_sleep_ms (Streamed.node st)) in Hdec.
  fold (own_settings (Streamed.node st)) in Hdec.
  set (v := own_settings (Streamed.node st)) in *.
  assert (Hheld : store_after_set v (store (Streamed.node st)) =
                  store (Streamed.node st)).
  { rewrite (store_after_set_accepted _ _ Hacc). subst v.
    unfold own_settings, zmk_activity_get_idle_ms, zmk_activity_get_sleep_ms.
    cbn [idle_ms sleep_ms].
    destruct (store (Streamed.node st)); reflexivity. }
  unfold Streamed.settings_rpc_handle_request. rewrite Hdec. cbv beta iota.
  rewrite handle_set_unfold, Hacc, Hrelay.
  cbn [fst snd Streamed.with_node Streamed.node store andb negb Z.eqb].
  split; [exact Hheld |]. split.
  - exists {| chg_idle_ms := idle_ms v; chg_sleep_ms := sleep_ms v;
              chg_source := ZMK_RELAY_EVENT_SOURCE_SELF |}.
    rewrite raised_events_app. split; [reflexivity |].
    rewrite changed_listener_relayed by exact Hsrc. cbn [snd store].
    rewrite <- Hheld, (store_after_set_accepted v _ Hacc).
    unfold relayed_from. cbn [chg_idle_ms chg_sleep_ms].
    unfold store_after_set, store_accepts in *. cbn [idle_ms sleep_ms].
    apply andb_true_iff in Hacc as [Hi Hs]. rewrite Hi, Hs. reflexivity.
  - repeat split; reflexivity.
Qed.

(** X22 at the defaults: the form shows what the central holds, the
    relayed event reaches a node that holds something else. *)
Lemma sync_all_devices_brings_the_others_to_the_central_witness :
  let D := {| pb_decode := fun _ =>
                Some (Request_set_activity_settings
                        {| idle_ms := 30000; sleep_ms := 900000; source := 0 |}) |} in
  let raw := {| call_subsystem_index := 0; call_payload := [] |} in
  let there := {| store := {| act_idle_ms := 10000; act_sleep_ms := 900000 |};
                  effects := [] |} in
  CONFIG_ZMK_SPLIT_RELAY_EVENT central_cfg = true /\
  Web.idleMs Web.ui_init = act_idle_ms (store (Streamed.node streamed0)) /\
  Web.sleepMs Web.ui_init = act_sleep_ms (store (Streamed.node streamed0)) /\
  @store_accepts day_bounds (own_settings (Streamed.node streamed0)) = true /\
  @pb_decode D (call_payload raw) =
    Request_set_activity_settings <$> (Web.syncAllDevices_start true Web.ui_init).1 /\
  0 <> ZMK_RELAY_EVENT_SOURCE_SELF /\
  exists ev,
    raised_events
      (Streamed.node
         (@Streamed.settings_rpc_handle_request D day_bounds central_cfg raw
            (Response_set_activity_settings false) streamed0).2) =
      raised_events (Streamed.node streamed0) ++ [Ev_changed ev] /\
    store (@activity_settings_changed_listener day_bounds
             (Ev_changed (relayed_from 0 ev)) there).2 =
      store (Streamed.node streamed0).
Proof.
  cbv zeta. do 5 (split; [reflexivity |]). split; [discriminate |].
  apply (@sync_all_devices_brings_the_others_to_the_central
           {| pb_decode := fun _ =>
                Some (Request_set_activity_settings
                        {| idle_ms := 30000; sleep_ms := 900000; source := 0 |}) |}
           day_bounds central_cfg
           {| call_subsystem_index := 0; call_payload := [] |}
           (Response_set_activity_settings false) streamed0 Web.ui_init 0
           {| store := {| act_idle_ms := 10000; act_sleep_ms := 900000 |};
              effects := [] |});
    try reflexivity. discriminate.
Defined.

(** X23: Refresh against the streamed firmware, in every build, when the
    get-all request decodes.  While it handles the request the firmware
    notifies exactly its own settings, and its response says the request
    was sent, also where it raised no request.  Whether the front end
    handles that notification before the response or after it, it ends in
    the same state: loading off, no error, the message "Collecting
    settings from all devices...", the form showing the central's stored
    timeouts, the device list holding the central's entry alone, and the
    warning hidden. *)
Theorem refresh_is_acknowledged_in_every_build `{Nanopb} `{ActivityBounds}
  (cfg : Kconfig) (raw : zmk_custom_CallRequest) (buf : Streamed.Response)
  (st : Streamed.state) (u : Web.ui) :
  pb_decode (call_payload raw) = Some Request_get_all_activity_settings ->
  let out := Streamed.settings_rpc_handle_request cfg raw buf st in
  let sent := drop (length (notified (Streamed.node st)))
                   (notified (Streamed.node out.2)) in
  let answer := Web.Rpc_response (decoded_response out.1.2) in
  let u0 := Web.getCurrentSettings_start true u in
  let u' := Web.getCurrentSettings_finish answer (receive_all sent u0) in
  sent = [own_settings (Streamed.node st)] /\
  receive_all sent (Web.getCurrentSettings_finish answer u0) = u' /\
  Web.message u' = Some "Collecting settings from all devices..."%string /\
  Web.error u' = None /\
  Web.isLoading u' = false /\
  Web.idleMs u' = act_idle_ms (store (Streamed.node st)) /\
  Web.sleepMs u' = act_sleep_ms (store (Streamed.node st)) /\
  Web.allDeviceSettings u' = [device_of (own_settings (Streamed.node st))] /\
  Web.showSyncWarning u' = false.
Proof.
  intros Hdec. cbv zeta. unfold Streamed.settings_rpc_handle_request.
  rewrite Hdec. cbv beta iota. rewrite streamed_get_all_unfold.
  cbn [fst snd Streamed.node].
  rewrite notified_app, drop_app_length.
  assert (Hsent : forall idx,
    omap (fun e => match e with Notified _ x => Some x | _ => None end)
         (Notified idx (own_settings (Streamed.node st)) ::
          (if is_central cfg
           then [Raised (Ev_request {| req_request_id := 0 |})]
           else [])) = [own_settings (Streamed.node st)])
    by (intros idx; destruct (is_central cfg); reflexivity).
  rewrite Hsent.
  split; [reflexivity |]. split; [reflexivity |].
  split; [reflexivity |]. split; [reflexivity |]. split; [reflexivity |].
  split; [reflexivity |]. split; [reflexivity |]. split; [reflexivity |].
  apply andb_false_r.
Qed.

(** X23 on a keyboard that is not split, at boot: the list ends with the
    keyboard's own entry, under the message of a collection in progress. *)
Lemma refresh_is_acknowledged_in_every_build_witness :
  let D := {| pb_decode := fun _ => Some Request_get_all_activity_settings |} in
  let raw := {| call_subsystem_index := 0; call_payload := [] |} in
  let out := @Streamed.settings_rpc_handle_request D day_bounds no_relay_cfg raw
               (Response_set_activity_settings true) streamed0 in
  let u' := Web.getCurrentSettings_finish
              (Web.Rpc_response (decoded_response out.1.2))
              (receive_all
                 (drop (length (notified (Streamed.node streamed0)))
                       (notified (Streamed.node out.2)))
                 (Web.getCurrentSettings_start true Web.ui_init)) in
  @pb_decode D (call_payload raw) = Some Request_get_all_activity_settings /\
  Web.message u' = Some "Collecting settings from all devices..."%string /\
  Web.allDeviceSettings u' =
    [ {| Web.dev_source := 0; Web.dev_idleMs := 30000; Web.dev_sleepMs := 900000 |} ].
Proof.
  cbv zeta. split; [reflexivity |].
  destruct (@refresh_is_acknowledged_in_every_build
              {| pb_decode := fun _ => Some Request_get_all_activity_settings |}
              day_bounds no_relay_cfg
              {| call_subsystem_index := 0; call_payload := [] |}
              (Response_set_activity_settings true) streamed0 Web.ui_init eq_refl)
    as (_ & _ & Hmsg & _ & _ & _ & _ & Hlist & _).
  split; [exact Hmsg | exact Hlist].
Defined.
